(* ===== verification/_CoqProject ===== *)
-Q . S2P
Prelude.v
JsValue.v
JsNumber.v
IsoDate.v
Store.v
Env.v
FirebaseModel.v
UserService.v
Subscription.v
Gateway.v
Composition.v
Referral.v
Interleaving.v
