(* ===== verification/Prelude.v ===== *)
(** * A verification development of [src/services/user_service.js]

    ** The program

    [src/services/user_service.js] exports one object, [userService], a
    client-side facade over Firebase used by the web app's profile
    pages. Its methods read the signed-in user ([auth.currentUser]), the
    profile document [users/<uid>] of Firestore and the photo object
    [profile_photos/<uid>] of Storage, write them back, and report to the
    caller with an envelope [{success, data | message | photoURL |
    error}], logging through [@/utils/logger.js]. [getReferrerName] also
    subscribes to [referralService.getReferralStats] and wraps the first
    emission in a promise. Everything but [subscribeToUser] and
    [getReferrerName] is [async]: sequential [await]s inside one
    [try]/[catch].

    ** How the library models it (a shallow embedding)

    - [Prelude.v] (this file): [outcome], the state and exception monad
      [ST S E A = S -> S * outcome E A] with [try_catch], [throw_if] and
      the notation [let* x := m in k] / [m ;; k] of [st_scope]; their run
      lemmas, the hint databases [st] and [st_rw], the tactics
      [st_unfold] and [st_run]. An [await] is sequential composition.
    - [JsValue.v]: the JavaScript values the service touches ([jsval]:
      [undefined], [null], booleans, integers, strings, [File]s, plain
      objects), exceptions ([exn]: name and message, with V8's messages
      for the errors the code can raise), property access [get_prop]
      (which throws on [null]/[undefined]), ToBoolean [truthy], [||],
      template strings and [Array.prototype.includes].
    - [JsNumber.v]: [ToNumber] and [>]: Number values [num] (NaN, the
      infinities, exact binary64 values), [StringToNumber] by the
      grammar [StringNumericLiteral] with binary64 rounding (ties to
      even, by Rocq's [Floats.SpecFloat]), [OrdinaryToPrimitive] on
      objects (V8's [TypeError] when an own [toString] hides the
      inherited one), and boundary tests at the limit of line 81.
    - [IsoDate.v]: [Date.prototype.toISOString] (proleptic Gregorian
      calendar, RangeError outside +-8.64e15 ms), validated by a parser
      that reads its strings back ([toISOString_parse]) and by their
      lengths.
    - [Store.v]: what a client observes of Auth, Firestore and Storage
      ([Store]: signed-in user, documents, objects, reset mails sent,
      snapshot listeners with the events they delivered), one pure
      function per change the SDK makes, and [store_step], every change
      any client can make.
    - [Env.v]: the interface [EnvOps] (type class) of everything the
      service imports (the SDK functions, the clock, the logger) and its
      contract [EnvOk]: each call leaves the logs alone, changes the
      back ends as its [Store] transition when it returns and not at all
      when it throws, and returns when no fault is pending and its
      precondition holds. The tactics [env_step], [no_throw], [logs_eq]
      and [view_eq] run a method against the contract.
    - [FirebaseModel.v]: [World], an executable implementation of
      [EnvOps] (store, log, clock, latency, a fault script consumed one
      entry per round trip, a token counter) and [firebase_env_ok], the
      proof that it meets [EnvOk]; the fixture [demo_world]; and
      [fb_eval_with], which runs a method symbolically on a world given
      by its fields, for theorems over every store, user and file.
    - [UserService.v], [Module userService]: one definition per method,
      in the source's order and with its names: [subscribeToUser]
      (lines 10-27) with [snapshot_handler] (15-25), [getUserData]
      (29-44), [updateUserProfile] (46-69), [updateProfilePhoto] (71-120)
      as its three blocks [validate_photo] (73-83), [delete_old_photo]
      (85-93) and [upload_new_photo] (95-115), and
      [sendPasswordResetEmail] (122-137). Each is a computation of
      [ST St exn envelope] for any [St] with [EnvOps St]. The file also
      holds the theorems on these methods.
    - [Subscription.v]: what the callback of [subscribeToUser] receives
      ([callbacks]) and the listener theorems.
    - [Gateway.v]: the contract of spec 4.1 as a relation
      [gateway_spec] between a request, the back ends before, the
      envelope and the back ends after, and the refinement of it by the
      methods ([serve] dispatches a request to its method).
    - [Composition.v]: the methods composed with each other and with
      the listener of [subscribeToUser], through the refinement: what a
      subscriber receives when the profile is saved, and what a read
      after a write returns.
    - [Referral.v], [Module Referral]: [getReferrerName] (139-154): its
      promise ([promise], [resolve]), the [const unsubscribe] binding and
      its temporal dead zone ([RState], [bind_unsubscribe],
      [call_unsubscribe]), the callback and the executor's [try]/[catch],
      run against a feed that models what [getReferralStats] may do
      (throw, emit during the call, emit later).
    - [Interleaving.v]: the event loop. [IWorld] is the Firebase model
      with a schedule of events of the rest of the application (another
      account signs in, a sign-out, another client's write), one of
      which may happen while each SDK call is pending ([during]); the
      clock, the logger and the listener calls are synchronous
      ([local]).

    ** What is proved (claims C1-C34)

    - Refinement (C1): against any SDK meeting [EnvOk], every request
      returns and is a step of [gateway_spec]. Through it, components
      compose (C14-C15): when [updateUserProfile] reports success the
      document is the old one merged with the five values and a
      timestamp, and an active listener of [subscribeToUser] has
      received exactly that document; a later successful
      [getUserData] returns the values written.
    - The photo update (C2-C4): rejected files cause no back-end call
      and one log line naming the check; with answering back ends a
      valid file ends with Auth, the document and Storage agreeing on
      the new URL (the final store is given exactly); the method never
      throws, and no failure changes the profile document. Its checks
      equal the spec's reference checks on files (C16), and the size
      limit is inclusive and exact at 5242880 bytes (C17).
    - Reading and writing the profile (C5-C10): [getUserData] returns
      exactly the stored document or the generic error and never
      writes; [updateUserProfile] writes the five fields and an ISO
      timestamp, then the Auth display name; its three outcomes (both
      writes, none, only the document) are each given exactly (C9).
    - All methods (C11-C13): in any environment whose logger returns
      (faults and interleaved events included) the [async] methods
      resolve an envelope; signed out they fail without writing; signed
      in they touch only [users/<uid>] and [profile_photos/<uid>]
      ([Store.touches_only], a preorder with one lemma per transition).
    - The subscription (C18-C20): the listener is registered on
      [users/<uid>] under a fresh handle; a write by any client delivers
      the handler's envelope (the data, or 'Usuario no encontrado');
      a listener error delivers 'Error al obtener datos' and nothing
      arrives afterwards (by induction on [rtc store_step]).
    - The password reset (C21-C22): the mail is recorded and the
      address logged, or nothing is sent.
    - [getReferrerName] (C23-C29): the promise is never rejected; it
      resolves the referrer's name on an asynchronous first emission,
      but a synchronous emission hits the TDZ of [unsubscribe] and a
      [null] emission leaves it pending; the subscription always ends
      with the first later emission.
    - The findings, as theorems over every store, user and file
      (C30-C34): the old photo lost when the upload fails (C30, on the
      Firebase model with a fault script); every object whose [size]
      converts to NaN passes the checks (C31); and, with an account
      change during an [await], the first user's photo and name written
      into the second user's profile, or the photo lost by a sign-out
      (C32-C34, on the interleaved model).
    All theorems of [UserService.v], [Subscription.v], [Gateway.v] and
    [Composition.v] but C30 are proved from [EnvOk], so they hold for
    any implementation of the SDK that meets the contract; C30 and
    C32-C34 are proved by symbolic evaluation ([fb_eval_with]) of the
    executable model. Each theorem with hypotheses has a witness that
    runs it on [demo_world], [demo_store] or [store_ab].

    ** Bounds and choices

    The clock of [World] is clamped to the valid time range, so
    [toISOString] never throws in the model (as [Date.now()] never
    exceeds it); the round trip of [IsoDate.v] covers the whole range
    (years -271821 to 275760, written with six digits outside 0-9999).
    Its calendar step is checked by evaluation on the 146097 days of
    one 400-year era ([doe_ok_era], by [vm_compute]) and extended to
    all day numbers by the era decomposition. The size limit is the
    integer [5 * 1024 * 1024], and the witnesses test the boundary (a
    file of exactly 5242880 bytes is accepted). A [JNum] is an integer
    Number value (a [File]'s size); other values reach [>] through
    [ToNumber], whose decimal results are rounded to binary64 exactly as
    V8 does. Beyond [10 ^ 310] a decimal rounds to infinity and below
    [10 ^ -324] to zero, so the evaluation never builds large powers of
    ten.
    No fuel is needed: every method is straight-line code; the referral
    feed and the event schedule are finite lists.

    ** Not modelled

    The SDK's internals (offline cache, retries, security rules, token
    refresh), [firebase_config] (it only builds the [auth], [db],
    [storage] singletons, here the implicit state), the logger's output
    format and the second argument of [logError] in [getReferrerName],
    arithmetic on non-integer Numbers (the service does none), and
    UTF-16: strings are byte strings, a JavaScript string being read as
    its UTF-8 encoding (so [StringToNumber] recognises the Unicode
    white space by its UTF-8 bytes). The contract
    [EnvOk] abstracts the server's checks: a reset mail to a malformed
    address, or an upload of a value that is not a [Blob], is a fault
    the model may raise, not one it must.
    Every line of [user_service.js] but its imports of [firebase_config]
    and [referral_service.js] and the braces of the exported object is
    translated; the modules it imports are not among the sources, so
    the SDK, the logger and the referral service are modelled by their
    contracts ([EnvOk], [Env.logInfo] and the others, [ReferralFeed])
    and by the executable [World], not translated.
*)

From stdpp Require Export base gmap strings list.
From Stdlib Require Export String ZArith Lia.

(** ** Outcomes and the state/exception monad *)

(** The result of running a statement: it returns normally with a value,
    or an exception propagates out of it. *)
Inductive outcome (E A : Type) : Type :=
| Ok (a : A)
| Thrown (e : E).
Arguments Ok {E A} a.
Arguments Thrown {E A} e.

(** A computation over a state [S] that may throw an [E]. Sequential
    [await] of promises is sequential composition: the service never
    runs two of its own calls concurrently. *)
Definition ST (S E A : Type) : Type := S -> S * outcome E A.

Section Monad.
Context {S E : Type}.

Definition ret {A} (a : A) : ST S E A := fun s => (s, Ok a).

Definition bind {A B} (m : ST S E A) (k : A -> ST S E B) : ST S E B :=
  fun s =>
    match m s with
    | (s', Ok a) => k a s'
    | (s', Thrown e) => (s', Thrown e)
    end.

Definition throw {A} (e : E) : ST S E A := fun s => (s, Thrown e).

(** [try { m } catch (e) { h(e) }] *)
Definition try_catch {A} (m : ST S E A) (h : E -> ST S E A) : ST S E A :=
  fun s =>
    match m s with
    | (s', Thrown e) => h e s'
    | r => r
    end.

(** A pure step that may throw, such as a property read. *)
Definition lift {A} (o : outcome E A) : ST S E A := fun s => (s, o).

(** Read the state. *)
Definition gets {A} (f : S -> A) : ST S E A := fun s => (s, Ok (f s)).

(** [if (c) throw e;] *)
Definition throw_if (c : bool) (e : E) : ST S E unit :=
  if c then throw e else ret tt.
End Monad.

Declare Scope st_scope.
Delimit Scope st_scope with st.
Notation "'let*' x ':=' m 'in' k" := (bind m (fun x => k))
  (at level 10, x name, m at level 100, k at level 200) : st_scope.
Notation "m ;; k" := (bind m (fun _ => k))
  (at level 100, right associativity) : st_scope.
Open Scope st_scope.

(** ** Run lemmas

    These are the rewriting steps every proof about a method uses: once
    a call has been run on a state, the rest of the method continues from
    the call's final state. *)

Section RunLemmas.
Context {S E : Type}.

Lemma bind_ok {A B} (m : ST S E A) (k : A -> ST S E B) s s' a :
  m s = (s', Ok a) -> bind m k s = k a s'.
Proof. unfold bind. by intros ->. Qed.

Lemma bind_thrown {A B} (m : ST S E A) (k : A -> ST S E B) s s' e :
  m s = (s', Thrown e) -> bind m k s = (s', Thrown e).
Proof. unfold bind. by intros ->. Qed.

Lemma try_catch_ok {A} (m : ST S E A) h s s' a :
  m s = (s', Ok a) -> try_catch m h s = (s', Ok a).
Proof. unfold try_catch. by intros ->. Qed.

Lemma try_catch_thrown {A} (m : ST S E A) h s s' e :
  m s = (s', Thrown e) -> try_catch m h s = h e s'.
Proof. unfold try_catch. by intros ->. Qed.

Lemma bind_ret_l {A B} (a : A) (k : A -> ST S E B) : bind (ret a) k = k a.
Proof. reflexivity. Qed.

Lemma bind_assoc {A B C} (m : ST S E A) (k : A -> ST S E B)
      (k' : B -> ST S E C) s :
  bind (bind m k) k' s = bind m (fun a => bind (k a) k') s.
Proof. unfold bind. by destruct (m s) as [s' [a|e]]. Qed.

Lemma throw_if_false (e : E) (s : S) : throw_if false e s = (s, Ok tt).
Proof. reflexivity. Qed.

Lemma throw_if_true (e : E) (s : S) : throw_if true e s = (s, Thrown e).
Proof. reflexivity. Qed.
End RunLemmas.

Create HintDb st discriminated.
Create Rewrite HintDb st_rw.
#[export] Hint Rewrite @bind_ret_l @throw_if_false @throw_if_true : st_rw.

(** [st_run] evaluates the monadic plumbing of a goal about a run
    [m s]: it unfolds the combinators and, at every call to an abstract
    operation, splits on that call's outcome, recording the equation
    under a fresh name so that the operation's contract can be applied
    to it. *)
Ltac st_unfold :=
  cbv beta iota delta [bind ret throw try_catch lift gets throw_if] in *.

Ltac st_split :=
  match goal with
  | |- context [match ?m ?s with (_, _) => _ end] =>
      let E := fresh "Hrun" in
      let s' := fresh "s" in
      let o := fresh "o" in
      destruct (m s) as [s' o] eqn:E
  | |- context [match ?o with Ok _ => _ | Thrown _ => _ end] =>
      is_var o; destruct o
  end.

Ltac st_run := st_unfold; repeat (st_split; simpl).
