(* ===== verification/JsValue.v ===== *)
(** * JavaScript values and the parts of their semantics the service uses

    [user_service.js] receives untyped arguments ([userData], [file],
    [email]) and branches on them with property reads, truthiness,
    [Array.prototype.includes] and the relational operator [>]. This file
    gives those values an inductive type [jsval] and each of these
    operations a definition that follows ECMA-262 on the values modelled:
    - a property read on [undefined] or [null] throws a [TypeError]
      (the message is V8's), on another primitive it yields [undefined];
    - [File] objects (what an [<input type=file>] hands to
      [updateProfilePhoto]) carry their [name], [type] and [size];
    - [JNum n] is an integer Number value (the service's numbers are
      byte counts); [ToNumber] and [>] are in [JsNumber.v].
    Exceptions are [exn] records with the [name] and [message] that the
    service's [catch] blocks log. *)

From S2P Require Import Prelude.
From stdpp Require Import pretty.
From Stdlib Require Import Ascii.
Local Open Scope Z_scope.

(** ** Values *)

#[warnings="-register-all"]
Inductive jsval : Type :=
| JUndefined
| JNull
| JBool (b : bool)
| JNum (n : Z)
| JStr (s : string)
| JFile (name type : string) (size : Z)
| JObj (props : list (string * jsval)).

(** Structural equality of values (what Firestore compares when it
    decides whether a document changed). *)
Fixpoint jsval_eq_dec_fix (a b : jsval) {struct a} : Decision (a = b).
Proof.
  refine (match a, b with
  | JUndefined, JUndefined | JNull, JNull => left eq_refl
  | JBool x, JBool y => cast_if (decide (x = y))
  | JNum x, JNum y => cast_if (decide (x = y))
  | JStr x, JStr y => cast_if (decide (x = y))
  | JFile n t z, JFile n' t' z' =>
      cast_if_and3 (decide (n = n')) (decide (t = t')) (decide (z = z'))
  | JObj ps, JObj qs => cast_if (decide (ps = qs))
  | _, _ => right _
  end); try (by subst); try discriminate; try (intros [=]; subst; done).
  assert (EqDecision jsval) by exact jsval_eq_dec_fix. apply list_eq_dec.
Defined.

#[export] Instance jsval_eq_dec : EqDecision jsval := jsval_eq_dec_fix.

(** ** Exceptions *)

Record exn := mk_exn { ex_name : string; ex_message : string }.

#[export] Instance exn_eq_dec : EqDecision exn.
Proof. solve_decision. Qed.

(** [new Error(msg)] *)
Definition js_error (msg : string) : exn := mk_exn "Error" msg.

(** The [TypeError] V8 raises for [base.prop] with [base] nullish. *)
Definition type_error_reading (base prop : string) : exn :=
  mk_exn "TypeError"
    ("Cannot read properties of " ++ base ++ " (reading '" ++ prop ++ "')").

(** The [ReferenceError] of a [const] read in its temporal dead zone. *)
Definition reference_error_tdz (x : string) : exn :=
  mk_exn "ReferenceError" ("Cannot access '" ++ x ++ "' before initialization").

(** [RangeError] of [toISOString] on a time value out of range. *)
Definition range_error_time : exn := mk_exn "RangeError" "Invalid time value".

(** Errors rejected by the Firebase SDK carry a code. *)
Definition firebase_error (code : string) : exn :=
  mk_exn "FirebaseError" ("Firebase: Error (" ++ code ++ ").").

(** ** Property access *)

Fixpoint assoc_lookup (k : string) (ps : list (string * jsval)) : option jsval :=
  match ps with
  | [] => None
  | (k', v) :: ps' => if String.eqb k k' then Some v else assoc_lookup k ps'
  end.

(** [v.k] (and [v[k]]) *)
Definition get_prop (v : jsval) (k : string) : outcome exn jsval :=
  match v with
  | JUndefined => Thrown (type_error_reading "undefined" k)
  | JNull => Thrown (type_error_reading "null" k)
  | JFile n t sz =>
      Ok (if String.eqb k "name" then JStr n
          else if String.eqb k "type" then JStr t
          else if String.eqb k "size" then JNum sz
          else JUndefined)
  | JObj ps => Ok (default JUndefined (assoc_lookup k ps))
  | _ => Ok JUndefined
  end.

(** [v === undefined] *)
Definition is_undefined (v : jsval) : bool :=
  match v with JUndefined => true | _ => false end.

(** [v?.k] *)
Definition opt_get_prop (v : jsval) (k : string) : outcome exn jsval :=
  match v with
  | JUndefined | JNull => Ok JUndefined
  | _ => get_prop v k
  end.

(** ** Conversions *)

(** [ToBoolean] *)
Definition truthy (v : jsval) : bool :=
  match v with
  | JUndefined | JNull => false
  | JBool b => b
  | JNum n => negb (Z.eqb n 0)
  | JStr s => negb (String.eqb s "")
  | JFile _ _ _ | JObj _ => true
  end.

(** [a || b] *)
Definition js_or (a b : jsval) : jsval := if truthy a then a else b.

(** The value of a decimal digit character. *)
Definition digit_value (c : Ascii.ascii) : option Z :=
  let n := Z.of_nat (Ascii.nat_of_ascii c) - 48 in
  if (0 <=? n) && (n <=? 9) then Some n else None.

(** [xs.includes(v)] for an array [xs] of strings: [SameValueZero], so
    only a string equal to an element is found. *)
Definition includes (xs : list string) (v : jsval) : bool :=
  match v with
  | JStr s => bool_decide (s ∈ xs)
  | _ => false
  end.

(** [`${v}`] *)
Definition js_to_string (v : jsval) : string :=
  match v with
  | JUndefined => "undefined"
  | JNull => "null"
  | JBool true => "true"
  | JBool false => "false"
  | JNum n => pretty n
  | JStr s => s
  | JFile _ _ _ => "[object File]"
  | JObj _ => "[object Object]"
  end.

(** ** Lemmas *)

Lemma includes_spec xs v :
  includes xs v = true <-> exists s, v = JStr s /\ s ∈ xs.
Proof.
  destruct v; simpl; split; try (intros [? [? _]]; done); try done.
  - intros H. apply bool_decide_eq_true in H. eauto.
  - intros [s' [[= ->] Hin]]. by apply bool_decide_eq_true.
Qed.

Lemma get_prop_file_type n t sz : get_prop (JFile n t sz) "type" = Ok (JStr t).
Proof. reflexivity. Qed.

Lemma get_prop_file_size n t sz : get_prop (JFile n t sz) "size" = Ok (JNum sz).
Proof. reflexivity. Qed.

(** Reading a property throws exactly on [undefined] and [null]. *)
Lemma get_prop_thrown v k e :
  get_prop v k = Thrown e -> v = JUndefined \/ v = JNull.
Proof. destruct v; simpl; by (intros; simplify_eq; auto). Qed.

Lemma js_or_truthy a b : truthy a = true -> js_or a b = a.
Proof. unfold js_or. by intros ->. Qed.

Lemma js_or_falsy a b : truthy a = false -> js_or a b = b.
Proof. unfold js_or. by intros ->. Qed.

Create HintDb js discriminated.
Create Rewrite HintDb js_rw.
#[export] Hint Rewrite get_prop_file_type get_prop_file_size : js_rw.
#[export] Hint Resolve js_or_truthy js_or_falsy : js.
