(* ===== verification/JsNumber.v ===== *)
(** * [ToNumber] and the relational operator [>]

    Line 81 of [user_service.js] evaluates [file.size > maxSize]. For a
    [File] the size is an integer, but the method accepts any value, so
    [>] goes through [ToNumber] (ECMA-262 7.1.4): [undefined] is [NaN],
    [null] is [+0], a string is read as a [StringNumericLiteral], and an
    object is first converted by [OrdinaryToPrimitive].

    - [num] is a Number value: [NNaN], an infinity, or the finite value
      [m * 2 ^ e], exact. [JNum n] is the integer Number [n].
    - [string_to_number] follows the grammar [StringNumericLiteral]
      (7.1.4.1): white space and line terminators around the literal
      (ASCII, and the Unicode ones in their UTF-8 encoding), an optional
      sign, [Infinity], decimal digits with a fraction and an exponent,
      and the unsigned [0x], [0o] and [0b] integers; anything else is
      [NaN], and a string of white space only is [+0]. The decimal
      value is rounded to the nearest binary64 number, ties to even
      (RoundMVResult, as V8 does), by the rounding of Rocq's
      [Floats.SpecFloat] (the [IEEE754.Binary] rounding of Flocq).
    - An object without an own [toString] converts through
      [Object.prototype.toString] to ["[object Object]"], that is [NaN];
      with one, both [valueOf] and [toString] are properties that are
      not functions (the values of [jsval] are never callable), and
      [OrdinaryToPrimitive] throws V8's [TypeError]. *)

From S2P Require Import Prelude JsValue.
From Stdlib Require Import Ascii Floats.SpecFloat.
Local Open Scope Z_scope.

(** ** Number values *)

Inductive num :=
| NNaN
| NInf (neg : bool)
| NFin (m e : Z).

(** binary64 *)
Definition prec : Z := 53.
Definition emax : Z := 1024.

Definition of_spec_float (f : spec_float) : num :=
  match f with
  | S754_zero _ => NFin 0 0
  | S754_infinity s => NInf s
  | S754_nan => NNaN
  | S754_finite s m e => NFin (if s then Z.neg m else Z.pos m) e
  end.

(** The Number nearest to the integer [m] (RoundMVResult). *)
Definition round_int (m : Z) : num :=
  of_spec_float (binary_normalize prec emax m 0 false).

(** The Number nearest to [m * 10 ^ k] ([m >= 0], written with [d]
    digits, so below [10 ^ (d + k)]), with the sign [neg]. Beyond
    [10 ^ 310] every value rounds to infinity, below [10 ^ -324] (under
    half the least subnormal) to zero, so the powers of ten stay small. *)
Definition round_decimal (neg : bool) (m k d : Z) : num :=
  if m =? 0 then NFin 0 0
  else if 310 <? k then NInf neg
  else if d + k <? -324 then NFin 0 0
  else if 0 <=? k then round_int (if neg then - (m * 10 ^ k) else m * 10 ^ k)
  else let '(mz, ez, lz) := SFdiv_core_binary prec emax m 0 (10 ^ (- k)) 0 in
       of_spec_float (binary_round_aux prec emax neg mz ez lz).

(** ** The grammar [StringNumericLiteral] *)

Definition ascii_code (c : ascii) : Z := Z.of_nat (nat_of_ascii c).

(** The rest of [s] after one white space or line terminator code
    point: TAB, LF, VT, FF, CR, SP, and in UTF-8 NBSP, OGHAM SPACE MARK,
    U+2000 to U+200A, LS, PS, U+202F, U+205F, U+3000 and ZWNBSP. *)
Definition ws_step (s : string) : option string :=
  match s with
  | String c r =>
      let b := ascii_code c in
      if (9 <=? b) && (b <=? 13) || (b =? 32) then Some r
      else match r with
      | String c1 r1 =>
          let b1 := ascii_code c1 in
          if (b =? 194) && (b1 =? 160) then Some r1
          else match r1 with
          | String c2 r2 =>
              let b2 := ascii_code c2 in
              if (b =? 225) && (b1 =? 154) && (b2 =? 128)
                 || (b =? 226) && (b1 =? 128) && ((128 <=? b2) && (b2 <=? 138) || (b2 =? 168)
                                                   || (b2 =? 169) || (b2 =? 175))
                 || (b =? 226) && (b1 =? 129) && (b2 =? 159)
                 || (b =? 227) && (b1 =? 128) && (b2 =? 128)
                 || (b =? 239) && (b1 =? 187) && (b2 =? 191)
              then Some r2 else None
          | EmptyString => None
          end
      | EmptyString => None
      end
  | EmptyString => None
  end.

(** Skip white space; each step consumes a character, so the length of
    the string bounds the steps. *)
Fixpoint skip_ws_n (n : nat) (s : string) : string :=
  match n with
  | O => s
  | S n' => match ws_step s with Some r => skip_ws_n n' r | None => s end
  end.

Definition skip_ws (s : string) : string := skip_ws_n (String.length s) s.

(** The value of a digit in base [base] (at most 16). *)
Definition digit_in (base : Z) (c : ascii) : option Z :=
  let b := ascii_code c in
  let v := if (48 <=? b) && (b <=? 57) then b - 48
           else if (97 <=? b) && (b <=? 102) then b - 87
           else if (65 <=? b) && (b <=? 70) then b - 55
           else 16 in
  if v <? base then Some v else None.

(** The longest prefix of digits: the value accumulated onto [acc], the
    number of digits read, and the rest. *)
Fixpoint read_digits (base : Z) (s : string) (acc cnt : Z) : Z * Z * string :=
  match s with
  | String c r =>
      match digit_in base c with
      | Some v => read_digits base r (base * acc + v) (cnt + 1)
      | None => (acc, cnt, s)
      end
  | EmptyString => (acc, cnt, s)
  end.

(** [ExponentPart] after the [e]: a signed integer of one digit or more. *)
Definition read_exponent (s : string) : option (Z * string) :=
  let '(neg, t) := match s with
                   | String "+" r => (false, r)
                   | String "-" r => (true, r)
                   | _ => (false, s)
                   end in
  let '(x, n, rest) := read_digits 10 t 0 0 in
  if n =? 0 then None else Some (if neg then - x else x, rest).

(** [StrUnsignedDecimalLiteral], with the sign read before it. *)
Definition read_unsigned_decimal (neg : bool) (s : string) : option (num * string) :=
  if String.prefix "Infinity" s then Some (NInf neg, substring 8 (String.length s - 8) s)
  else
    let '(ip, di, s1) := read_digits 10 s 0 0 in
    let '(m, df, s2) := match s1 with
                        | String "." r => read_digits 10 r ip 0
                        | _ => (ip, 0, s1)
                        end in
    if di + df =? 0 then None
    else
      let '(x, s3) := match s2 with
                      | String c r =>
                          if (c =? "e")%char || (c =? "E")%char then
                            match read_exponent r with Some p => p | None => (0, s2) end
                          else (0, s2)
                      | EmptyString => (0, s2)
                      end in
      Some (round_decimal neg m (x - df) (di + df), s3).

(** [StrNumericLiteral]: a [NonDecimalIntegerLiteral] or a
    [StrDecimalLiteral]. *)
Definition read_numeric (s : string) : option (num * string) :=
  let nondecimal base r :=
    let '(m, n, rest) := read_digits base r 0 0 in
    if n =? 0 then None else Some (round_int m, rest) in
  match s with
  | String "0" (String c r) =>
      if (c =? "x")%char || (c =? "X")%char then nondecimal 16 r
      else if (c =? "o")%char || (c =? "O")%char then nondecimal 8 r
      else if (c =? "b")%char || (c =? "B")%char then nondecimal 2 r
      else read_unsigned_decimal false s
  | String "+" r => read_unsigned_decimal false r
  | String "-" r => read_unsigned_decimal true r
  | _ => read_unsigned_decimal false s
  end.

(** StringToNumber (7.1.4.1.1) *)
Definition string_to_number (s : string) : num :=
  match skip_ws s with
  | EmptyString => NFin 0 0
  | t => match read_numeric t with
         | Some (x, rest) => if String.eqb (skip_ws rest) "" then x else NNaN
         | None => NNaN
         end
  end.

(** ** [ToNumber] and [>] *)

(** The [TypeError] of [OrdinaryToPrimitive] when neither [valueOf] nor
    [toString] is a function returning a primitive. *)
Definition type_error_to_primitive : exn :=
  mk_exn "TypeError" "Cannot convert object to primitive value".

Definition to_number (v : jsval) : outcome exn num :=
  match v with
  | JUndefined => Ok NNaN
  | JNull => Ok (NFin 0 0)
  | JBool b => Ok (NFin (if b then 1 else 0) 0)
  | JNum n => Ok (NFin n 0)
  | JStr s => Ok (string_to_number s)
  | JFile _ _ _ => Ok NNaN
  | JObj ps =>
      match assoc_lookup "toString" ps with
      | Some _ => Thrown type_error_to_primitive
      | None => Ok NNaN
      end
  end.

(** [x > n] for a Number [x] and an integer [n], exactly; [NaN]
    compares false. *)
Definition num_gt_int (x : num) (n : Z) : bool :=
  match x with
  | NNaN => false
  | NInf neg => negb neg
  | NFin m e => if 0 <=? e then n <? m * 2 ^ e else n * 2 ^ (- e) <? m
  end.

(** [v > n] for an integer [n]: [ToNumber] of [v], which may throw,
    then the comparison. *)
Definition js_gt (v : jsval) (n : Z) : outcome exn bool :=
  match to_number v with
  | Ok x => Ok (num_gt_int x n)
  | Thrown e => Thrown e
  end.

(** ** Lemmas *)

Lemma js_gt_num x n : js_gt (JNum x) n = Ok (n <? x).
Proof. unfold js_gt, num_gt_int. simpl. by rewrite Z.mul_1_r. Qed.

(** A value that converts to [NaN] is never greater. *)
Lemma js_gt_nan v n : to_number v = Ok NNaN -> js_gt v n = Ok false.
Proof. unfold js_gt. by intros ->. Qed.

#[export] Hint Rewrite js_gt_num : js_rw.

(** ** Boundary cases at the limit of line 81 ([5242880])

    The four strings that JavaScript reads as numbers above the limit
    although they are not decimal integers; a decimal that exceeds the
    limit by less than half a unit in the last place, which rounds to
    the limit itself (binary64 spacing is [2 ^ -30] there), and one
    that exceeds it by more; white space (an NBSP in UTF-8 and a line
    feed) around the literal; a sign before a hexadecimal literal, a
    numeric separator and a lone exponent, which are [NaN]; and the
    empty string, which is [+0]. *)
Example js_gt_limit_cases :
  let gt s := js_gt (JStr s) 5242880 in
  gt "6e6" = Ok true /\ gt "0x600000" = Ok true /\ gt "Infinity" = Ok true /\
  gt "5242881.5" = Ok true /\ gt "5242880.0000000001" = Ok false /\
  gt "5242880.0000000005" = Ok true /\ gt "5242880" = Ok false /\
  gt (String (ascii_of_nat 194) (String (ascii_of_nat 160) " 5242881
")) = Ok true /\
  gt "-0x600000" = Ok false /\ gt "6_000_000" = Ok false /\ gt "6e" = Ok false /\
  gt "-Infinity" = Ok false /\ gt "" = Ok false /\ gt "1e400" = Ok true /\
  js_gt (JObj [("toString", JStr "6000000")]) 5242880 = Thrown type_error_to_primitive.
Proof. vm_compute. repeat split. Qed.
