(* ===== verification/IsoDate.v ===== *)
(** * [Date.prototype.toISOString]

    The service stamps every write with [new Date().toISOString()]
    ([updated_at] in [updateUserProfile] and [updateProfilePhoto],
    [uploadedAt] in the photo's metadata). A time value is an integer
    number of milliseconds since 1970-01-01T00:00:00Z; ECMA-262 limits it
    to [±8.64e15], and [toISOString] throws a [RangeError] outside that
    range. Inside, the string is [YYYY-MM-DDTHH:mm:ss.sssZ], with the
    year written [±YYYYYY] when it is not in [0..9999].

    The calendar conversion is the proleptic Gregorian day count split
    into 400-year eras (146097 days each), computed with floor division.

    The second part reads the string back ([parse_iso]) and proves the
    round trip [toISOString_parse]: the string of a valid time value
    determines it to the millisecond. *)

From S2P Require Import Prelude JsValue.
From Stdlib Require Import Ascii.
Local Open Scope Z_scope.

Definition ms_per_day : Z := 86400000.
Definition max_time_value : Z := 8640000000000000.

(** The time values a [Date] can hold. *)
Definition valid_time (t : Z) : bool :=
  (- max_time_value <=? t) && (t <=? max_time_value).

(** Year, month (1..12) and day (1..31) of a day number (0 is
    1970-01-01). *)
Definition civil_from_days (z : Z) : Z * Z * Z :=
  let z := z + 719468 in
  let era := z / 146097 in
  let doe := z - era * 146097 in
  let yoe := (doe - doe / 1460 + doe / 36524 - doe / 146096) / 365 in
  let doy := doe - (365 * yoe + yoe / 4 - yoe / 100) in
  let mp := (5 * doy + 2) / 153 in
  let d := doy - (153 * mp + 2) / 5 + 1 in
  let m := if mp <? 10 then mp + 3 else mp - 9 in
  let y := yoe + era * 400 in
  (if m <=? 2 then y + 1 else y, m, d).

(** The [w] low decimal digits of [n >= 0], most significant first,
    in front of [acc]. *)
Fixpoint digits (w : nat) (n : Z) (acc : string) : string :=
  match w with
  | O => acc
  | S w' =>
      digits w' (n / 10)
        (String (ascii_of_nat (48 + Z.to_nat (n mod 10))) acc)
  end.

Definition pad (w : nat) (n : Z) : string := digits w n "".

Definition year_string (y : Z) : string :=
  if (0 <=? y) && (y <=? 9999) then pad 4 y
  else (if y <? 0 then "-" else "+") ++ pad 6 (Z.abs y).

Definition toISOString (t : Z) : outcome exn string :=
  if valid_time t then
    let ms_in_day := t mod ms_per_day in
    let '(y, m, d) := civil_from_days (t / ms_per_day) in
    Ok (year_string y ++ "-" ++ pad 2 m ++ "-" ++ pad 2 d ++ "T"
        ++ pad 2 (ms_in_day / 3600000) ++ ":"
        ++ pad 2 ((ms_in_day / 60000) mod 60) ++ ":"
        ++ pad 2 ((ms_in_day / 1000) mod 60) ++ "."
        ++ pad 3 (ms_in_day mod 1000) ++ "Z")%string
  else Thrown range_error_time.

(** ** Lemmas *)

Lemma toISOString_ok t : valid_time t = true -> exists iso, toISOString t = Ok iso.
Proof. unfold toISOString. intros ->. destruct (civil_from_days _) as [[? ?] ?]. eauto. Qed.

(** ** Reading the string back

    [parse_iso] reads the format [toISOString] writes; it is not part of
    the program, it states what the format determines: [toISOString_parse]
    shows that the string gives back the time value to the millisecond. *)

(** Read [w] decimal digits, accumulating on [v]. *)
Fixpoint read_n (w : nat) (s : string) (v : Z) : option (Z * string) :=
  match w with
  | O => Some (v, s)
  | S w' =>
      match s with
      | String c s' =>
          match digit_value c with
          | Some d => read_n w' s' (v * 10 + d)
          | None => None
          end
      | EmptyString => None
      end
  end.

(** *** Decimal fields *)

Lemma digit_value_digit d :
  0 <= d < 10 -> digit_value (ascii_of_nat (48 + Z.to_nat d)) = Some d.
Proof.
  intros Hd.
  assert (d = 0 \/ d = 1 \/ d = 2 \/ d = 3 \/ d = 4 \/ d = 5 \/ d = 6 \/ d = 7 \/ d = 8 \/ d = 9)
    as H by lia.
  repeat destruct H as [-> | H]; try reflexivity; subst; reflexivity.
Qed.

Lemma digits_app w n acc r : (digits w n acc ++ r)%string = digits w n (acc ++ r)%string.
Proof. revert n acc. induction w as [|w IH]; intros n acc; simpl; [done | by rewrite IH]. Qed.

Lemma pad_app w n r : (pad w n ++ r)%string = digits w n r.
Proof. unfold pad. by rewrite digits_app. Qed.

Lemma read_n_digits w k n acc v :
  0 <= n ->
  read_n (w + k) (digits w n acc) v = read_n k acc (v * 10 ^ Z.of_nat w + n mod 10 ^ Z.of_nat w).
Proof.
  revert k n acc v. induction w as [|w IH]; intros k n acc v Hn.
  - cbn [digits Nat.add]. f_equal. simpl. rewrite Z.mod_1_r. lia.
  - cbn [digits]. replace (S w + k)%nat with (w + S k)%nat by lia.
    rewrite IH by (apply Z.div_pos; lia). cbn [read_n].
    rewrite digit_value_digit by (apply Z.mod_pos_bound; lia).
    f_equal.
    rewrite Nat2Z.inj_succ, Z.pow_succ_r by lia.
    set (P := 10 ^ Z.of_nat w).
    assert (0 < P) by (apply Z.pow_pos_nonneg; lia).
    rewrite Z.rem_mul_r by lia.
    ring.
Qed.

Lemma read_pad w n r : 0 <= n -> read_n w (digits w n r) 0 = Some (n mod 10 ^ Z.of_nat w, r).
Proof.
  intros Hn. rewrite <- (Nat.add_0_r w) at 1. rewrite read_n_digits by done. cbn [read_n]. f_equal.
Qed.

(** *** The calendar

    [days_from_civil] is the inverse conversion (day number of a year,
    month and day). That it inverts [civil_from_days] is checked on the
    146097 days of one era by evaluation ([doe_ok_era]) and extended to
    every day number by the era decomposition. *)
Definition days_from_civil (y m d : Z) : Z :=
  let y := if m <=? 2 then y - 1 else y in
  let era := y / 400 in
  let yoe := y - era * 400 in
  let doy := (153 * (if 2 <? m then m - 3 else m + 9) + 2) / 5 + d - 1 in
  let doe := yoe * 365 + yoe / 4 - yoe / 100 + doy in
  era * 146097 + doe - 719468.

(** One day of a 400-year era, by the formulas of [civil_from_days]. *)
Definition doe_ok (doe : Z) : bool :=
  let yoe := (doe - doe / 1460 + doe / 36524 - doe / 146096) / 365 in
  let doy := doe - (365 * yoe + yoe / 4 - yoe / 100) in
  let mp := (5 * doy + 2) / 153 in
  let d := doy - (153 * mp + 2) / 5 + 1 in
  let m := if mp <? 10 then mp + 3 else mp - 9 in
  (0 <=? yoe) && (yoe <? 400) && (1 <=? m) && (m <=? 12) && (1 <=? d) && (d <=? 31) &&
  (yoe * 365 + yoe / 4 - yoe / 100 + ((153 * (if 2 <? m then m - 3 else m + 9) + 2) / 5 + d - 1)
   =? doe).

Fixpoint doe_ok_from (n : nat) (doe : Z) : bool :=
  match n with
  | O => true
  | S n' => doe_ok doe && doe_ok_from n' (doe + 1)
  end.

Lemma doe_ok_from_spec n d x :
  doe_ok_from n d = true -> d <= x < d + Z.of_nat n -> doe_ok x = true.
Proof.
  revert d. induction n as [|n IH]; intros d H Hx; [lia|].
  simpl in H. apply andb_true_iff in H as [H1 H2].
  destruct (decide (x = d)) as [->|]; [done|]. apply (IH (d + 1)); [done | lia].
Qed.

Lemma doe_ok_era : doe_ok_from (Z.to_nat 146097) 0 = true.
Proof. vm_compute. reflexivity. Qed.

Lemma doe_ok_all doe : 0 <= doe < 146097 -> doe_ok doe = true.
Proof. intros H. apply (doe_ok_from_spec _ 0 _ doe_ok_era). lia. Qed.

(** What [civil_from_days] computes, in terms of the 400-year era of
    the day and the year, month and day within it. *)
Lemma civil_from_days_spec z :
  exists era doe yoe m d,
    civil_from_days z = (if m <=? 2 then yoe + era * 400 + 1 else yoe + era * 400, m, d) /\
    z + 719468 = era * 146097 + doe /\ 0 <= doe < 146097 /\ 0 <= yoe < 400 /\
    1 <= m <= 12 /\ 1 <= d <= 31 /\
    yoe * 365 + yoe / 4 - yoe / 100 +
      ((153 * (if 2 <? m then m - 3 else m + 9) + 2) / 5 + d - 1) = doe.
Proof.
  set (era := (z + 719468) / 146097).
  set (doe := z + 719468 - era * 146097).
  assert (Hdoe : 0 <= doe < 146097).
  { replace doe with ((z + 719468) mod 146097) by (unfold doe, era; rewrite Z.mod_eq; lia).
    apply Z.mod_pos_bound. lia. }
  pose proof (doe_ok_all doe Hdoe) as H. unfold doe_ok in H.
  set (yoe := (doe - doe / 1460 + doe / 36524 - doe / 146096) / 365) in *.
  set (doy := doe - (365 * yoe + yoe / 4 - yoe / 100)) in *.
  set (mp := (5 * doy + 2) / 153) in *.
  set (d := doy - (153 * mp + 2) / 5 + 1) in *.
  set (m := if mp <? 10 then mp + 3 else mp - 9) in *.
  repeat rewrite andb_true_iff in H. rewrite !Z.leb_le, !Z.ltb_lt, Z.eqb_eq in H.
  destruct H as ((((((Hy0 & Hy1) & Hm0) & Hm1) & Hd0) & Hd1) & Heq).
  exists era, doe, yoe, m, d. split; [reflexivity|].
  split_and!; first [assumption | lia | unfold doe; lia].
Qed.

(** [days_from_civil] inverts [civil_from_days] on every day number. *)
Lemma civil_from_days_roundtrip z :
  let '(y, m, d) := civil_from_days z in
  days_from_civil y m d = z /\ 1 <= m <= 12 /\ 1 <= d <= 31.
Proof.
  destruct (civil_from_days_spec z) as (era & doe & yoe & m & d & -> & Hz & Hdoe & Hy & Hm & Hd & Heq).
  unfold days_from_civil. split_and!; try lia.
  destruct (m <=? 2);
    [replace (yoe + era * 400 + 1 - 1) with (era * 400 + yoe) by lia
    |replace (era * 400 + yoe) with (era * 400 + yoe) by lia];
    rewrite ?(Z.add_comm yoe (era * 400)), Z.div_add_l, (Z.div_small yoe 400) by lia;
    replace (era * 400 + yoe - (era + 0) * 400) with yoe by lia; lia.
Qed.

(** *** The format *)

Definition expect (c : ascii) (s : string) : option string :=
  match s with
  | String c' s' => if Ascii.eqb c c' then Some s' else None
  | EmptyString => None
  end.

Definition parse_year (s : string) : option (Z * string) :=
  match read_n 4 s 0 with
  | Some r => Some r
  | None =>
      match s with
      | String "+"%char s' => read_n 6 s' 0
      | String "-"%char s' => (fun '(y, r) => (- y, r)) <$> read_n 6 s' 0
      | _ => None
      end
  end.

Definition parse_iso (s : string) : option Z :=
  '(y, s) ← parse_year s; s ← expect "-" s;
  '(mo, s) ← read_n 2 s 0; s ← expect "-" s;
  '(d, s) ← read_n 2 s 0; s ← expect "T" s;
  '(hh, s) ← read_n 2 s 0; s ← expect ":" s;
  '(mi, s) ← read_n 2 s 0; s ← expect ":" s;
  '(ss, s) ← read_n 2 s 0; s ← expect "." s;
  '(ms, s) ← read_n 3 s 0; s ← expect "Z" s;
  if String.eqb s "" then
    Some (days_from_civil y mo d * ms_per_day + hh * 3600000 + mi * 60000 + ss * 1000 + ms)
  else None.

Lemma read_n_nondigit w c s v : digit_value c = None -> read_n (S w) (String c s) v = None.
Proof. simpl. by intros ->. Qed.

Lemma str_cons_app c s r : (String c s ++ r)%string = String c (s ++ r).
Proof. reflexivity. Qed.
Lemma str_nil_app r : ("" ++ r)%string = r.
Proof. reflexivity. Qed.

Lemma parse_year_string y r :
  - 10 ^ 6 < y < 10 ^ 6 -> parse_year (year_string y ++ r) = Some (y, r).
Proof.
  intros Hy. unfold year_string, parse_year.
  destruct ((0 <=? y) && (y <=? 9999)) eqn:H4.
  - apply andb_true_iff in H4 as [H0 H1]. apply Z.leb_le in H0, H1.
    rewrite pad_app, read_pad by lia. rewrite Z.mod_small by (simpl; lia). done.
  - destruct (y <? 0) eqn:Hs; rewrite ?str_cons_app, ?str_nil_app, pad_app;
      rewrite read_n_nondigit by reflexivity; cbv beta iota;
      rewrite read_pad by lia; cbn [fmap option_fmap option_map];
      rewrite Z.mod_small by lia.
    + apply Z.ltb_lt in Hs. do 2 f_equal. lia.
    + apply Z.ltb_ge in Hs. do 2 f_equal. lia.
Qed.

Lemma civil_from_days_year z :
  - 10 ^ 8 <= z <= 10 ^ 8 -> - 10 ^ 6 < (civil_from_days z).1.1 < 10 ^ 6.
Proof.
  intros Hz.
  destruct (civil_from_days_spec z) as (era & doe & yoe & m & d & -> & Hz' & Hdoe & Hy & _).
  simpl. destruct (m <=? 2); lia.
Qed.

Lemma expect_same c s : expect c (String c s) = Some s.
Proof. simpl. by rewrite Ascii.eqb_refl. Qed.

Lemma ms_split ms : 0 <= ms < 86400000 ->
  ms / 3600000 * 3600000 + (ms / 60000) mod 60 * 60000 + (ms / 1000) mod 60 * 1000
  + ms mod 1000 = ms.
Proof. intros. Z.div_mod_to_equations. lia. Qed.

Ltac parse_field :=
  first [ rewrite expect_same | rewrite read_pad by (Z.div_mod_to_equations; lia) ];
  cbn [mbind option_bind].

(** Every valid time value is written as a string that reads back to
    it; every other value raises the [RangeError]. *)
Theorem toISOString_parse t :
  match toISOString t with
  | Ok iso => valid_time t = true /\ parse_iso iso = Some t
  | Thrown e => valid_time t = false /\ e = range_error_time
  end.
Proof.
  unfold toISOString. destruct (valid_time t) eqn:Hv; [|done].
  unfold valid_time, max_time_value in Hv. apply andb_true_iff in Hv as [Hv1 Hv2].
  apply Z.leb_le in Hv1, Hv2.
  unfold ms_per_day.
  assert (Ht : t = 86400000 * (t / 86400000) + t mod 86400000) by (apply Z.div_mod; lia).
  assert (Hms : 0 <= t mod 86400000 < 86400000) by (apply Z.mod_pos_bound; lia).
  set (z := t / 86400000) in *. set (ms := t mod 86400000) in *.
  assert (Hz : - 10 ^ 8 <= z <= 10 ^ 8) by (unfold z; Z.div_mod_to_equations; lia).
  pose proof (civil_from_days_roundtrip z) as Hc. pose proof (civil_from_days_year z Hz) as Hy.
  destruct (civil_from_days z) as [[y m] d]. simpl in Hy. destruct Hc as (Hc & Hm & Hd).
  split; [reflexivity|].
  rewrite ?str_cons_app, ?str_nil_app, ?pad_app.
  unfold parse_iso. rewrite parse_year_string by lia. cbn [mbind option_bind].
  repeat parse_field.
  rewrite String.eqb_refl. f_equal.
  rewrite !(Z.mod_small _ (10 ^ _)) by (Z.div_mod_to_equations; lia).
  unfold ms_per_day. rewrite Hc. rewrite <- (ms_split ms) in Ht by lia. lia.
Qed.

(** ** The length of the string *)

Lemma str_length_app s r :
  String.length (s ++ r) = (String.length s + String.length r)%nat.
Proof. induction s as [|c s IH]; simpl; [done | by rewrite IH]. Qed.

Lemma digits_length w n acc : String.length (digits w n acc) = (w + String.length acc)%nat.
Proof.
  revert n acc. induction w as [|w IH]; intros n acc; [done|].
  cbn [digits]. rewrite IH. simpl. lia.
Qed.

Lemma year_string_length y :
  String.length (year_string y) = if (0 <=? y) && (y <=? 9999) then 4%nat else 7%nat.
Proof.
  unfold year_string, pad. destruct (_ && _); [rewrite (digits_length 4 y ""); reflexivity|].
  destruct (y <? 0); rewrite str_length_app, digits_length; reflexivity.
Qed.

(** The string has 24 characters, 27 when the year needs six digits
    and a sign. *)
Lemma toISOString_length t iso :
  toISOString t = Ok iso ->
  String.length iso = 24%nat \/ String.length iso = 27%nat.
Proof.
  unfold toISOString. destruct (valid_time t); [|done].
  destruct (civil_from_days _) as [[y m] d]. intros [= <-].
  rewrite !str_length_app, year_string_length. unfold pad.
  rewrite !digits_length. cbn [String.length]. destruct (_ && _); lia.
Qed.
