(* ===== verification/Store.v ===== *)
(** * The observable state of the Firebase back ends

    [user_service.js] talks to three services through the Firebase SDK:
    - Auth: the signed-in user ([auth.currentUser]: its [uid],
      [displayName] and [photoURL]) and the password-reset mails sent;
    - Firestore: documents addressed by (collection, id), each a map from
      field names to values, and the snapshot listeners registered with
      [onSnapshot], each with the events delivered to it;
    - Storage: objects addressed by path, with their data, metadata and
      the token that makes up their download URL.
    [Store] gathers what a client can observe of the three. This file
    gives each change the SDK can make to it a pure function; the SDK's
    contract in [Env.v] is stated with them. [store_step] is the relation
    of every change any client (this one or another) can make; the
    listener invariants that hold along it follow. [touches_only] is
    the frame of one user's data (the profile document and the photo
    object), a preorder with one lemma per transition that keeps it. *)

From S2P Require Import Prelude JsValue.
From stdpp Require Import pretty.

(** ** Data *)

Record User := mk_user {
  uid : string;
  displayName : jsval;
  photoURL : jsval      (* [null] or a string *)
}.

(** A document reference [doc(db, collection, id)]. *)
Abbreviation DocRef := (string * string)%type.
(** A document's fields. *)
Abbreviation Fields := (gmap string jsval).

(** Storage metadata: [{contentType, customMetadata}]. *)
Record Metadata := mk_metadata {
  contentType : jsval;
  customMetadata : list (string * string)
}.

Record Blob := mk_blob { b_data : jsval; b_meta : Metadata; b_token : nat }.

(** What a snapshot listener receives: a document snapshot ([None] when
    the document does not exist) or the listener's error. *)
Inductive SnapEvent :=
| SnapDoc (d : option Fields)
| SnapErr (e : exn).

Record Listener := mk_listener {
  l_ref : DocRef;
  l_active : bool;
  l_events : list SnapEvent
}.

(** The second argument of [updateProfile]; [undefined] leaves a field
    as it is. *)
Record ProfileUpdate := mk_profile_update {
  pu_displayName : jsval;
  pu_photoURL : jsval
}.

Record Store := mk_store {
  st_user : option User;
  st_docs : gmap DocRef Fields;
  st_blobs : gmap string Blob;
  st_mail : list jsval;
  st_listeners : gmap nat Listener
}.

(** ** Transitions *)

Definition set_docs (s : Store) d :=
  mk_store (st_user s) d (st_blobs s) (st_mail s) (st_listeners s).
Definition set_listeners (s : Store) ls :=
  mk_store (st_user s) (st_docs s) (st_blobs s) (st_mail s) ls.
Definition set_blobs (s : Store) b :=
  mk_store (st_user s) (st_docs s) b (st_mail s) (st_listeners s).

(** The fields written by [updateDoc(ref, data)]: each top-level key of
    [data] replaces the field of that name. *)
Definition merge_fields (d : Fields) (upd : list (string * jsval)) : Fields :=
  foldl (fun acc kv => <[kv.1 := kv.2]> acc) d upd.

Definition listen_event (r : DocRef) (ev : SnapEvent) (l : Listener) : Listener :=
  if l_active l && bool_decide (l_ref l = r)
  then mk_listener (l_ref l) true (l_events l ++ [ev])
  else l.

(** A write of [od] to [r]: the active listeners on [r] receive the new
    snapshot when the document's content changed. *)
Definition store_put_doc (s : Store) (r : DocRef) (od : option Fields) : Store :=
  let ls := if bool_decide (st_docs s !! r = od) then st_listeners s
            else listen_event r (SnapDoc od) <$> st_listeners s in
  mk_store (st_user s) (partial_alter (fun _ => od) r (st_docs s))
           (st_blobs s) (st_mail s) ls.

Definition store_update_doc (s : Store) (r : DocRef) (upd : list (string * jsval)) : Store :=
  store_put_doc s r (Some (merge_fields (default ∅ (st_docs s !! r)) upd)).

Definition keep_or (old new : jsval) : jsval :=
  match new with JUndefined => old | _ => new end.

(** [updateProfile(user, pu)] on the signed-in user. *)
Definition store_update_profile (s : Store) (ou : option User) (pu : ProfileUpdate) : Store :=
  match st_user s, ou with
  | Some cu, Some u =>
      if String.eqb (uid cu) (uid u) then
        mk_store (Some (mk_user (uid cu) (keep_or (displayName cu) (pu_displayName pu))
                                (keep_or (photoURL cu) (pu_photoURL pu))))
                 (st_docs s) (st_blobs s) (st_mail s) (st_listeners s)
      else s
  | _, _ => s
  end.

Definition store_send_mail (s : Store) (email : jsval) : Store :=
  mk_store (st_user s) (st_docs s) (st_blobs s) (st_mail s ++ [email]) (st_listeners s).

Definition store_upload (s : Store) (k : string) (data : jsval) (m : Metadata) (tok : nat) : Store :=
  set_blobs s (<[k := mk_blob data m tok]> (st_blobs s)).

Definition store_delete_blob (s : Store) (k : string) : Store :=
  set_blobs s (delete k (st_blobs s)).

Definition store_listen (s : Store) (r : DocRef) (h : nat) : Store :=
  set_listeners s (<[h := mk_listener r true [SnapDoc (st_docs s !! r)]]> (st_listeners s)).

Definition store_unlisten (s : Store) (h : nat) : Store :=
  set_listeners s (alter (fun l => mk_listener (l_ref l) false (l_events l)) h (st_listeners s)).

(** A listener that fails receives its error and is removed. *)
Definition store_listener_error (s : Store) (h : nat) (e : exn) : Store :=
  set_listeners s
    (alter (fun l => if l_active l then mk_listener (l_ref l) false (l_events l ++ [SnapErr e])
                     else l) h (st_listeners s)).

(** The download URL of the object at [k] with token [tok]. *)
Definition download_url (k : string) (tok : nat) : string :=
  "https://firebasestorage.googleapis.com/v0/b/dinermaxpro.appspot.com/o/"
  ++ k ++ "?alt=media&token=" ++ pretty tok.

(** Every change a client of the back ends can make. *)
Inductive store_step : Store -> Store -> Prop :=
| step_put_doc s r od : store_step s (store_put_doc s r od)
| step_profile s ou pu : store_step s (store_update_profile s ou pu)
| step_mail s e : store_step s (store_send_mail s e)
| step_upload s k d m tok : store_step s (store_upload s k d m tok)
| step_delete_blob s k : store_step s (store_delete_blob s k)
| step_listen s r h :
    st_listeners s !! h = None -> store_step s (store_listen s r h)
| step_unlisten s h : store_step s (store_unlisten s h)
| step_listener_error s h e : store_step s (store_listener_error s h e).

(** ** Listener lemmas *)

Lemma store_update_doc_as_put s r upd :
  store_update_doc s r upd
  = store_put_doc s r (Some (merge_fields (default ∅ (st_docs s !! r)) upd)).
Proof. reflexivity. Qed.

Lemma listen_event_inactive r ev l : l_active l = false -> listen_event r ev l = l.
Proof. unfold listen_event. by intros ->. Qed.

Lemma put_doc_docs s r od : st_docs (store_put_doc s r od) !! r = od.
Proof. unfold store_put_doc; simpl. by rewrite lookup_partial_alter_eq. Qed.

Lemma put_doc_docs_ne s r r' od :
  r <> r' -> st_docs (store_put_doc s r od) !! r' = st_docs s !! r'.
Proof. intros. unfold store_put_doc; simpl. by rewrite lookup_partial_alter_ne. Qed.

(** The listener [h] as [store_put_doc] leaves it. *)
Lemma put_doc_listener s r od h :
  st_listeners (store_put_doc s r od) !! h
  = (if bool_decide (st_docs s !! r = od) then id
     else fmap (listen_event r (SnapDoc od))) (st_listeners s !! h).
Proof.
  unfold store_put_doc; simpl. case_bool_decide; [done|]. by rewrite lookup_fmap.
Qed.

(** The events of the listener [h] after a write of [od] to [r]: the
    new snapshot is appended when [h] is active on [r] and the content
    changed. *)
Lemma put_doc_events s r od h l :
  st_listeners s !! h = Some l ->
  l_events <$> st_listeners (store_put_doc s r od) !! h
  = Some (l_events l ++ (if l_active l && bool_decide (l_ref l = r) &&
                            bool_decide (st_docs s !! r <> od) then [SnapDoc od] else [])).
Proof.
  intros Hl. rewrite put_doc_listener, Hl.
  destruct (decide (st_docs s !! r = od)) as [Hc|Hc].
  - rewrite (bool_decide_true (st_docs s !! r = od)), (bool_decide_false (st_docs s !! r ≠ od))
      by tauto. by rewrite andb_false_r, app_nil_r.
  - rewrite (bool_decide_false (st_docs s !! r = od)), (bool_decide_true (st_docs s !! r ≠ od))
      by done. rewrite andb_true_r. simpl. unfold listen_event. case_match; simpl.
    + done.
    + by rewrite app_nil_r.
Qed.

(** One step leaves an inactive listener exactly as it was. *)
Lemma store_step_inactive s s' h l :
  store_step s s' -> st_listeners s !! h = Some l -> l_active l = false ->
  st_listeners s' !! h = Some l.
Proof.
  intros Hs Hl Hin. destruct Hs; try done.
  - rewrite put_doc_listener, Hl. case_bool_decide; simpl; [done|].
    by rewrite listen_event_inactive.
  - unfold store_update_profile. by repeat case_match.
  - simpl. rewrite lookup_insert_ne; [done|]. intros ->. congruence.
  - simpl. rewrite lookup_alter. case_decide; subst; [|done].
    rewrite Hl. destruct l; simpl in *. by rewrite Hin.
  - simpl. rewrite lookup_alter. case_decide; subst; [|done].
    rewrite Hl; simpl. by rewrite Hin.
Qed.

#[export] Hint Resolve store_step_inactive : st.

(** ** What each transition leaves alone *)

Lemma st_user_put_doc s r od : st_user (store_put_doc s r od) = st_user s.
Proof. reflexivity. Qed.
Lemma st_user_update_doc s r upd : st_user (store_update_doc s r upd) = st_user s.
Proof. reflexivity. Qed.
Lemma st_user_upload s k d m tok : st_user (store_upload s k d m tok) = st_user s.
Proof. reflexivity. Qed.
Lemma st_user_delete_blob s k : st_user (store_delete_blob s k) = st_user s.
Proof. reflexivity. Qed.
Lemma st_user_send_mail s e : st_user (store_send_mail s e) = st_user s.
Proof. reflexivity. Qed.
Lemma st_user_listen s r h : st_user (store_listen s r h) = st_user s.
Proof. reflexivity. Qed.
Lemma st_docs_upload s k d m tok : st_docs (store_upload s k d m tok) = st_docs s.
Proof. reflexivity. Qed.
Lemma st_docs_delete_blob s k : st_docs (store_delete_blob s k) = st_docs s.
Proof. reflexivity. Qed.
Lemma st_docs_update_profile s ou pu : st_docs (store_update_profile s ou pu) = st_docs s.
Proof. unfold store_update_profile. by repeat case_match. Qed.
Lemma st_blobs_update_profile s ou pu : st_blobs (store_update_profile s ou pu) = st_blobs s.
Proof. unfold store_update_profile. by repeat case_match. Qed.
Lemma st_blobs_update_doc s r upd : st_blobs (store_update_doc s r upd) = st_blobs s.
Proof. reflexivity. Qed.

Lemma st_listeners_update_profile s ou pu :
  st_listeners (store_update_profile s ou pu) = st_listeners s.
Proof. unfold store_update_profile. by repeat case_match. Qed.
(** [updateProfile] never changes who is signed in, only their profile. *)
Lemma uid_update_profile s ou pu :
  uid <$> st_user (store_update_profile s ou pu) = uid <$> st_user s.
Proof. unfold store_update_profile. destruct (st_user s) eqn:E, ou; [case_match|..]; by rewrite ?E. Qed.

Create Rewrite HintDb store_rw.
#[export] Hint Rewrite st_user_put_doc st_user_update_doc st_user_upload
  st_user_delete_blob st_user_send_mail st_user_listen st_docs_upload
  st_docs_delete_blob st_docs_update_profile st_blobs_update_profile
  st_blobs_update_doc : store_rw.

(** ** What each transition changes *)

Lemma st_docs_update_doc_eq s r upd :
  st_docs (store_update_doc s r upd) !! r
  = Some (merge_fields (default ∅ (st_docs s !! r)) upd).
Proof. apply put_doc_docs. Qed.

Lemma st_docs_update_doc s r upd :
  st_docs (store_update_doc s r upd)
  = <[r := merge_fields (default ∅ (st_docs s !! r)) upd]> (st_docs s).
Proof. reflexivity. Qed.

Lemma st_blobs_upload_eq s k d m tok :
  st_blobs (store_upload s k d m tok) !! k = Some (mk_blob d m tok).
Proof. apply lookup_insert_eq. Qed.

(** Uploading over a deleted object is uploading over the object. *)
Lemma store_upload_delete s k d m tok :
  store_upload (store_delete_blob s k) k d m tok = store_upload s k d m tok.
Proof. unfold store_upload, store_delete_blob, set_blobs. simpl. by rewrite insert_delete_eq. Qed.

Lemma st_user_update_profile_same s u pu :
  st_user s = Some u ->
  st_user (store_update_profile s (Some u) pu)
  = Some (mk_user (uid u) (keep_or (displayName u) (pu_displayName pu))
                  (keep_or (photoURL u) (pu_photoURL pu))).
Proof. unfold store_update_profile. intros ->. by rewrite String.eqb_refl. Qed.

(** ** The data of one user

    [touches_only u v v'] says that going from [v] to [v'] changed no
    document but [users/<uid>], no object but [profile_photos/<uid>],
    and not who is signed in: the service keeps one profile document
    and one photo per user, at keys derived from the [uid]. *)
Definition touches_only (u : User) (v v' : Store) : Prop :=
  (forall r, r <> ("users", uid u) -> st_docs v' !! r = st_docs v !! r) /\
  (forall k, k <> ("profile_photos/" ++ uid u)%string -> st_blobs v' !! k = st_blobs v !! k) /\
  uid <$> st_user v' = uid <$> st_user v.

#[export] Instance touches_only_preorder u : PreOrder (touches_only u).
Proof.
  split.
  - intros v. split_and!; auto.
  - intros v1 v2 v3 (D12 & B12 & U12) (D23 & B23 & U23).
    split_and!; [intros r Hr; rewrite D23, D12 | intros k Hk; rewrite B23, B12 | congruence]; done.
Qed.

Lemma touches_only_update_doc u v v' upd :
  touches_only u v v' -> touches_only u v (store_update_doc v' ("users", uid u) upd).
Proof.
  intros Hv. etrans; [exact Hv|].
  split_and!; [intros r Hr; by apply put_doc_docs_ne | done | done].
Qed.

Lemma touches_only_update_profile u v v' ou pu :
  touches_only u v v' -> touches_only u v (store_update_profile v' ou pu).
Proof.
  intros Hv. etrans; [exact Hv|].
  split_and!; [intros r _; by rewrite st_docs_update_profile
              | intros k _; by rewrite st_blobs_update_profile |].
  unfold store_update_profile.
  destruct (st_user v') eqn:E, ou; rewrite ?E; try done.
  destruct (String.eqb _ _); simpl; by rewrite ?E.
Qed.

Lemma touches_only_upload u v v' d m tok :
  touches_only u v v' ->
  touches_only u v (store_upload v' ("profile_photos/" ++ uid u) d m tok).
Proof.
  intros Hv. etrans; [exact Hv|].
  split_and!; [done | intros k Hk; by apply lookup_insert_ne | done].
Qed.

Lemma touches_only_delete_blob u v v' :
  touches_only u v v' -> touches_only u v (store_delete_blob v' ("profile_photos/" ++ uid u)).
Proof.
  intros Hv. etrans; [exact Hv|].
  split_and!; [done | intros k Hk; by apply lookup_delete_ne | done].
Qed.

Lemma touches_only_send_mail u v v' e :
  touches_only u v v' -> touches_only u v (store_send_mail v' e).
Proof. intros Hv. etrans; [exact Hv|]. split_and!; done. Qed.

Create HintDb frame discriminated.
#[export] Hint Resolve touches_only_update_doc touches_only_update_profile
  touches_only_upload touches_only_delete_blob touches_only_send_mail : frame.
#[export] Hint Extern 1 (touches_only _ ?v ?v) => reflexivity : frame.
