(* ===== verification/Env.v ===== *)
(** * The interface between [userService] and its environment

    [user_service.js] imports its collaborators: the Firebase SDK
    ([getDoc], [updateDoc], [onSnapshot] from [firebase/firestore];
    [uploadBytes], [getDownloadURL], [deleteObject] from
    [firebase/storage]; [updateProfile], [sendPasswordResetEmail] from
    [firebase/auth]; the [auth] singleton), the clock ([new Date()]) and
    the logger of [@/utils/logger.js] ([logInfo], [logError], [logDebug]).

    [EnvOps St] is that interface over an abstract state [St]: every
    call is a computation of [ST St exn]. [view] is what the back ends
    hold ([Store]), [logs] what the logger printed, and [quiet] says that
    the back ends will answer every call (no network or permission
    fault pending).

    [EnvOk] is the contract the service relies on: each SDK call leaves
    the logs alone, changes [view] exactly as the matching pure
    transition of [Store.v] when it returns, leaves [view] unchanged when
    it throws, and returns when the back ends are quiet and the call's
    precondition holds (the document exists, the object exists, the
    data is valid). The service's theorems ([UserService.v]) are proved
    from [EnvOk] alone; [FirebaseModel.v] implements the interface and
    proves the contract. *)

From S2P Require Import Prelude JsValue IsoDate Store.

(** ** The logger *)

Inductive Level := LInfo | LError | LDebug.

#[export] Instance level_eq_dec : EqDecision Level.
Proof. solve_decision. Qed.

Abbreviation LogLine := (Level * string)%type.

(** ** Firestore's data validation

    [updateDoc] rejects, before any network traffic, a value it cannot
    store: [undefined] (unless [ignoreUndefinedProperties] is set, which
    [firebase_config] does not do) and objects of a custom class such as
    a [File], at any depth. *)
Fixpoint firestore_value_ok (v : jsval) : bool :=
  match v with
  | JUndefined | JFile _ _ _ => false
  | JObj ps => forallb (fun kv => firestore_value_ok kv.2) ps
  | _ => true
  end.

Definition valid_update (upd : list (string * jsval)) : bool :=
  forallb (fun kv => firestore_value_ok kv.2) upd.

(** ** The interface *)

Class EnvOps (St : Type) := {
  view : St -> Store;
  logs : St -> list LogLine;
  quiet : St -> Prop;
  now : ST St exn Z;
  log : Level -> string -> ST St exn unit;
  getDoc : DocRef -> ST St exn (option Fields);
  updateDoc : DocRef -> list (string * jsval) -> ST St exn unit;
  updateProfile : option User -> ProfileUpdate -> ST St exn unit;
  sendPasswordResetEmail : jsval -> ST St exn unit;
  deleteObject : string -> ST St exn unit;
  uploadBytes : string -> jsval -> Metadata -> ST St exn unit;
  getDownloadURL : string -> ST St exn string;
  onSnapshot : DocRef -> ST St exn nat;
  unsubscribe : nat -> ST St exn unit
}.

Section Contract.
Context {St : Type} `{EnvOps St}.

(** The shape of every SDK call's contract: [post] relates the
    back ends before, the result and the back ends after a call that
    returns; [pre] is when a quiet back end answers. *)
Definition sdk_call {A} (m : ST St exn A)
           (post : Store -> A -> Store -> Prop) (pre : Store -> Prop) : Prop :=
  (forall s s' o, m s = (s', o) ->
     logs s' = logs s /\ (quiet s -> quiet s') /\
     match o with
     | Ok a => post (view s) a (view s')
     | Thrown _ => view s' = view s
     end) /\
  (forall s, quiet s -> pre (view s) -> exists s' a, m s = (s', Ok a)).

(** [auth.currentUser] *)
Definition auth_currentUser : ST St exn (option User) :=
  gets (fun s => st_user (view s)).

(** The logger of [@/utils/logger.js]. *)
Definition logInfo (msg : string) : ST St exn unit := log LInfo msg.
Definition logError (msg : string) : ST St exn unit := log LError msg.
Definition logDebug (msg : string) : ST St exn unit := log LDebug msg.
End Contract.

Class EnvOk (St : Type) `{EnvOps St} := {
  now_spec s s' o :
    now s = (s', o) -> s' = s /\ exists t, o = Ok t /\ valid_time t = true;
  log_spec lvl msg s s' o :
    log lvl msg s = (s', o) ->
    o = Ok tt /\ view s' = view s /\ logs s' = logs s ++ [(lvl, msg)] /\
    (quiet s -> quiet s');
  getDoc_spec r :
    sdk_call (getDoc r) (fun v a v' => a = st_docs v !! r /\ v' = v) (fun _ => True);
  updateDoc_spec r upd :
    sdk_call (updateDoc r upd)
      (fun v _ v' => valid_update upd = true /\ is_Some (st_docs v !! r) /\
                     v' = store_update_doc v r upd)
      (fun v => valid_update upd = true /\ is_Some (st_docs v !! r));
  updateProfile_spec ou pu :
    sdk_call (updateProfile ou pu)
      (fun v _ v' => is_Some ou /\ v' = store_update_profile v ou pu)
      (fun _ => is_Some ou);
  sendPasswordResetEmail_spec e :
    sdk_call (sendPasswordResetEmail e) (fun v _ v' => v' = store_send_mail v e)
      (fun _ => exists a, e = JStr a);
  deleteObject_spec k :
    sdk_call (deleteObject k)
      (fun v _ v' => is_Some (st_blobs v !! k) /\ v' = store_delete_blob v k)
      (fun v => is_Some (st_blobs v !! k));
  uploadBytes_spec k d m :
    sdk_call (uploadBytes k d m)
      (fun v _ v' => exists tok, v' = store_upload v k d m tok) (fun _ => True);
  getDownloadURL_spec k :
    sdk_call (getDownloadURL k)
      (fun v url v' => v' = v /\ exists b, st_blobs v !! k = Some b /\
                                          url = download_url k (b_token b))
      (fun v => is_Some (st_blobs v !! k));
  onSnapshot_spec r :
    sdk_call (onSnapshot r)
      (fun v h v' => st_listeners v !! h = None /\ v' = store_listen v r h)
      (fun _ => True);
  unsubscribe_spec h :
    sdk_call (unsubscribe h) (fun v _ v' => v' = store_unlisten v h) (fun _ => True)
}.

(** ** Using the contract *)

Section Use.
Context {St : Type} `{EnvOk St}.

Lemma sdk_run {A} (m : ST St exn A) post pre s s' o :
  sdk_call m post pre -> m s = (s', o) ->
  logs s' = logs s /\ (quiet s -> quiet s') /\
  match o with Ok a => post (view s) a (view s') | Thrown _ => view s' = view s end.
Proof. intros [Hr _] Hm. by apply Hr. Qed.

Lemma sdk_answers {A} (m : ST St exn A) post pre s :
  sdk_call m post pre -> quiet s -> pre (view s) -> exists s' a, m s = (s', Ok a).
Proof. intros [_ Hq]. apply Hq. Qed.

Lemma sdk_ok_run {A} (m : ST St exn A) post pre s :
  sdk_call m post pre -> quiet s -> pre (view s) ->
  exists s' a, m s = (s', Ok a) /\ post (view s) a (view s') /\
               logs s' = logs s /\ quiet s'.
Proof.
  intros Hc Hq Hp. destruct (sdk_answers _ _ _ _ Hc Hq Hp) as (s' & a & E).
  destruct (sdk_run _ _ _ _ _ _ Hc E) as (? & ? & ?). eauto 10.
Qed.

Lemma sdk_no_throw {A} (m : ST St exn A) post pre s s' e :
  sdk_call m post pre -> quiet s -> pre (view s) -> m s = (s', Thrown e) -> False.
Proof.
  intros Hc Hq Hp E. destruct (sdk_answers _ _ _ _ Hc Hq Hp) as (? & ? & E').
  congruence.
Qed.

Lemma log_run lvl msg s :
  log lvl msg s = (fst (log lvl msg s), Ok tt) /\
  view (fst (log lvl msg s)) = view s /\
  logs (fst (log lvl msg s)) = logs s ++ [(lvl, msg)] /\
  (quiet s -> quiet (fst (log lvl msg s))).
Proof.
  destruct (log lvl msg s) as [s' o] eqn:E. simpl.
  destruct (log_spec _ _ _ _ _ E) as (-> & ? & ? & ?). done.
Qed.
End Use.

(** The contract of the call at the head of a run equation. *)
Ltac sdk_spec_of m :=
  lazymatch m with
  | getDoc ?r => constr:(getDoc_spec r)
  | updateDoc ?r ?u => constr:(updateDoc_spec r u)
  | updateProfile ?u ?p => constr:(updateProfile_spec u p)
  | sendPasswordResetEmail ?e => constr:(sendPasswordResetEmail_spec e)
  | deleteObject ?k => constr:(deleteObject_spec k)
  | uploadBytes ?k ?d ?m => constr:(uploadBytes_spec k d m)
  | getDownloadURL ?k => constr:(getDownloadURL_spec k)
  | onSnapshot ?r => constr:(onSnapshot_spec r)
  | unsubscribe ?h => constr:(unsubscribe_spec h)
  end.

(** [sdk_facts H], for [H : m s = (s', o)], adds what the contract says
    of that run. *)
Ltac sdk_facts H :=
  lazymatch type of H with
  | ?m ?s = (?s', ?o) =>
      let spec := sdk_spec_of m in
      let F := fresh "F" in
      pose proof (sdk_run _ _ _ _ _ _ spec H) as F
  end.

(** [env_step] runs the first call of a goal [match m s with ...]: it
    names the call's final state and adds what the contract says of it
    (for an SDK call, its outcome is split into the [Ok] and [Thrown]
    cases). *)
Ltac env_facts E :=
  lazymatch type of E with
  | log ?l ?msg ?s = (?s', ?o) =>
      let Hv := fresh "Hv" in let Hl := fresh "Hl" in let Hq := fresh "Hq" in
      destruct (log_spec _ _ _ _ _ E) as (-> & Hv & Hl & Hq)
  | now ?s = (?s', ?o) =>
      let t := fresh "t" in let Ht := fresh "Ht" in
      destruct (now_spec _ _ _ E) as (-> & t & -> & Ht)
  | ?m ?s = (?s', ?o) =>
      let spec := sdk_spec_of m in
      let Hl := fresh "Hl" in let Hq := fresh "Hq" in let Hp := fresh "Hp" in
      destruct (sdk_run _ _ _ _ _ _ spec E) as (Hl & Hq & Hp);
      destruct o
  end.

Ltac env_step :=
  match goal with
  | |- context [match ?m ?s with (_, _) => _ end] =>
      let E := fresh "E" in let s' := fresh "s" in let o := fresh "o" in
      destruct (m s) as [s' o] eqn:E; env_facts E; simpl
  | |- context [?m ?s = (_, _)] =>
      let E := fresh "E" in let s' := fresh "s" in let o := fresh "o" in
      destruct (m s) as [s' o] eqn:E; env_facts E; simpl
  end.

(** Close a branch in which a call of a quiet back end threw although
    its precondition held. *)
Ltac no_throw :=
  match goal with
  | E : ?m ?s = (_, Thrown _) |- _ =>
      let spec := sdk_spec_of m in
      exfalso; eapply (sdk_no_throw _ _ _ _ _ _ spec); [ | | exact E]
  end.

(** Close an equation on the logs (resp. the back ends) of the final
    state by following the run's equations back to the initial state. *)
Ltac logs_eq :=
  repeat match goal with H : logs ?a = _ |- context [logs ?a] => rewrite H end;
  rewrite <- ?app_assoc; reflexivity.

Ltac view_eq :=
  repeat match goal with H : view ?a = _ |- context [view ?a] => rewrite H end;
  reflexivity.
