(* ===== verification/FirebaseModel.v ===== *)
(** * An executable model of the Firebase back ends

    [World] implements the interface [EnvOps] of [Env.v]: the back ends'
    [Store], the logger's output, a millisecond clock, the latency of a
    round trip, a fault script and the counter that mints download
    tokens. Each call that goes to a back end ([net]) consumes one entry
    of the fault script: [Some code] makes the call fail with that
    Firebase error code (network loss, permission denied, quota, ...),
    [None] lets it through; an empty script lets every call through. The
    clock advances by the latency at every round trip.

    The calls follow the SDK's behaviour: [updateDoc] validates its data
    before sending it and fails with [not-found] on a missing document;
    [updateProfile] on a [null] user throws a [TypeError] and returns at
    once when it has nothing to change; [deleteObject] and
    [getDownloadURL] fail with [storage/object-not-found]; [onSnapshot]
    registers its listener synchronously under a fresh handle.

    [firebase_env_ok] proves the contract [EnvOk]; the service's theorems
    are applied to this model in the witnesses of [UserService.v]. *)

From S2P Require Import Prelude JsValue IsoDate Store Env.

Record World := mk_world {
  w_store : Store;
  w_logs : list LogLine;
  w_clock : Z;
  w_latency : Z;
  w_faults : list (option string);
  w_token : nat
}.

Definition with_store (w : World) (s : Store) : World :=
  mk_world s (w_logs w) (w_clock w) (w_latency w) (w_faults w) (w_token w).

(** [Date.now()] is always a valid time value. *)
Definition clamp_time (t : Z) : Z :=
  Z.max (- max_time_value) (Z.min max_time_value t).

(** One round trip: the next entry of the fault script, and the time it
    takes. *)
Definition round_trip (w : World) : World * option string :=
  let after fs := mk_world (w_store w) (w_logs w) (w_clock w + w_latency w)
                           (w_latency w) fs (w_token w) in
  match w_faults w with
  | [] => (after [], None)
  | f :: fs => (after fs, f)
  end.

Definition net {A} (answer : World -> World * outcome exn A) : ST World exn A :=
  fun w =>
    let '(w1, f) := round_trip w in
    match f with
    | Some code => (w1, Thrown (firebase_error code))
    | None => answer w1
    end.

Definition fb_now : ST World exn Z := fun w => (w, Ok (clamp_time (w_clock w))).

Definition fb_log (lvl : Level) (msg : string) : ST World exn unit :=
  fun w => (mk_world (w_store w) (w_logs w ++ [(lvl, msg)]) (w_clock w) (w_latency w)
                     (w_faults w) (w_token w), Ok tt).

Definition fb_getDoc (r : DocRef) : ST World exn (option Fields) :=
  net (fun w => (w, Ok (st_docs (w_store w) !! r))).

Definition fb_updateDoc (r : DocRef) (upd : list (string * jsval)) : ST World exn unit :=
  if valid_update upd then
    net (fun w =>
      match st_docs (w_store w) !! r with
      | Some _ => (with_store w (store_update_doc (w_store w) r upd), Ok tt)
      | None => (w, Thrown (firebase_error "not-found"))
      end)
  else throw (js_error "Function updateDoc() called with invalid data").

Definition fb_updateProfile (ou : option User) (pu : ProfileUpdate) : ST World exn unit :=
  match ou with
  | None => throw (type_error_reading "null" "getIdToken")
  | Some u =>
      if is_undefined (pu_displayName pu) && is_undefined (pu_photoURL pu) then ret tt
      else net (fun w => (with_store w (store_update_profile (w_store w) ou pu), Ok tt))
  end.

Definition fb_sendPasswordResetEmail (e : jsval) : ST World exn unit :=
  net (fun w => (with_store w (store_send_mail (w_store w) e), Ok tt)).

Definition fb_deleteObject (k : string) : ST World exn unit :=
  net (fun w =>
    match st_blobs (w_store w) !! k with
    | Some _ => (with_store w (store_delete_blob (w_store w) k), Ok tt)
    | None => (w, Thrown (firebase_error "storage/object-not-found"))
    end).

Definition fb_uploadBytes (k : string) (d : jsval) (m : Metadata) : ST World exn unit :=
  net (fun w =>
    (mk_world (store_upload (w_store w) k d m (w_token w)) (w_logs w) (w_clock w)
              (w_latency w) (w_faults w) (S (w_token w)), Ok tt)).

Definition fb_getDownloadURL (k : string) : ST World exn string :=
  net (fun w =>
    match st_blobs (w_store w) !! k with
    | Some b => (w, Ok (download_url k (b_token b)))
    | None => (w, Thrown (firebase_error "storage/object-not-found"))
    end).

Definition fb_onSnapshot (r : DocRef) : ST World exn nat :=
  fun w =>
    let h := fresh (dom (st_listeners (w_store w))) in
    (with_store w (store_listen (w_store w) r h), Ok h).

Definition fb_unsubscribe (h : nat) : ST World exn unit :=
  fun w => (with_store w (store_unlisten (w_store w) h), Ok tt).

(** No fault is pending in the script. *)
Definition fault_free (w : World) : bool :=
  forallb (fun f => match f with None => true | Some _ => false end) (w_faults w).

Definition no_faults (w : World) : Prop := fault_free w = true.

#[export] Instance firebase_env : EnvOps World := {|
  view := w_store;
  logs := w_logs;
  quiet := no_faults;
  now := fb_now;
  log := fb_log;
  getDoc := fb_getDoc;
  updateDoc := fb_updateDoc;
  updateProfile := fb_updateProfile;
  sendPasswordResetEmail := fb_sendPasswordResetEmail;
  deleteObject := fb_deleteObject;
  uploadBytes := fb_uploadBytes;
  getDownloadURL := fb_getDownloadURL;
  onSnapshot := fb_onSnapshot;
  unsubscribe := fb_unsubscribe
|}.

(** ** The model meets the contract *)

Lemma round_trip_spec w w1 f :
  round_trip w = (w1, f) ->
  w_store w1 = w_store w /\ w_logs w1 = w_logs w /\
  (no_faults w -> no_faults w1 /\ f = None).
Proof.
  unfold round_trip, no_faults, fault_free. destruct (w_faults w) as [|f' fs] eqn:E;
    intros [= <- <-]; simpl; rewrite ?E; split_and!; try done.
  destruct f'; simpl; [done|]. auto.
Qed.

(** A [net] call is within the contract when its answer is. *)
Lemma net_sdk_call {A} (answer : World -> World * outcome exn A) post (pre : Store -> Prop) :
  (forall w w' o, answer w = (w', o) ->
     w_logs w' = w_logs w /\ w_faults w' = w_faults w /\
     match o with Ok a => post (w_store w) a (w_store w') | Thrown _ => w_store w' = w_store w end) ->
  (forall w, pre (w_store w) -> exists w' a, answer w = (w', Ok a)) ->
  @sdk_call World firebase_env A (net answer) post pre.
Proof.
  intros Hans Hpre. split.
  - intros w w' o. unfold net. destruct (round_trip w) as [w1 f] eqn:Er.
    destruct (round_trip_spec _ _ _ Er) as (Hs & Hl & Hq).
    destruct f as [code|].
    + intros [= <- <-]. simpl. split_and!; try done. by intros []%Hq.
    + intros Ha. destruct (Hans _ _ _ Ha) as (Hl' & Hf' & Ho).
      simpl. unfold no_faults, fault_free in *. rewrite Hl', Hl, Hf'. split_and!; [done| |].
      * by intros []%Hq.
      * rewrite <- Hs. destruct o; [done|]. by rewrite Ho.
  - intros w Hq Hp. simpl in *. unfold net. destruct (round_trip w) as [w1 f] eqn:Er.
    destruct (round_trip_spec _ _ _ Er) as (Hs & _ & Hq1).
    destruct (Hq1 Hq) as [_ ->]. apply Hpre. by rewrite Hs.
Qed.

(** A call that stays on the client is within the contract when it
    leaves the logs and the fault script alone. *)
Lemma local_sdk_call {A} (m : ST World exn A) post (pre : Store -> Prop) :
  (forall w w' o, m w = (w', o) ->
     w_logs w' = w_logs w /\ w_faults w' = w_faults w /\
     match o with Ok a => post (w_store w) a (w_store w') | Thrown _ => w_store w' = w_store w end) ->
  (forall w, pre (w_store w) -> exists w' a, m w = (w', Ok a)) ->
  @sdk_call World firebase_env A m post pre.
Proof.
  intros Hm Hpre. split.
  - intros w w' o Hr. destruct (Hm _ _ _ Hr) as (Hl & Hf & Ho). simpl.
    unfold no_faults, fault_free. rewrite Hf. by split_and!.
  - intros w _ Hp. by apply Hpre.
Qed.

Lemma store_update_profile_noop v ou pu :
  is_undefined (pu_displayName pu) = true -> is_undefined (pu_photoURL pu) = true ->
  store_update_profile v ou pu = v.
Proof.
  intros Hd Hp. unfold store_update_profile.
  destruct (st_user v) as [[] |] eqn:Eu, ou; try done. case_match; [|done].
  destruct (pu_displayName pu), (pu_photoURL pu); try done. simpl.
  destruct v; simpl in *; by subst.
Qed.

Lemma valid_time_clamp t : valid_time (clamp_time t) = true.
Proof.
  unfold valid_time, clamp_time, max_time_value.
  apply andb_true_intro; split; apply Z.leb_le; lia.
Qed.

Ltac answer_tac :=
  intros ??? Ha; simpl in Ha; repeat case_match; simplify_eq/=; by eauto 10.

#[export] Instance firebase_env_ok : EnvOk World.
Proof.
  split.
  - intros s s' o [= <- <-]. split; [done|]. eexists; split; [done|].
    apply valid_time_clamp.
  - intros lvl msg s s' o [= <- <-]. by split_and!.
  - intros r. apply net_sdk_call; [answer_tac | eauto].
  - intros r upd. simpl. unfold fb_updateDoc. destruct (valid_update upd) eqn:V.
    + apply net_sdk_call; [answer_tac|].
      intros w [_ [d Hd]]. simpl. rewrite Hd. eauto.
    + apply local_sdk_call; [intros ??? [= <- <-]; by split_and!|].
      by intros w [? _].
  - intros ou pu. simpl. unfold fb_updateProfile. destruct ou as [u|].
    + destruct (is_undefined (pu_displayName pu)) eqn:Hd,
        (is_undefined (pu_photoURL pu)) eqn:Hp; simpl;
        try (apply net_sdk_call; [answer_tac | eauto]).
      apply local_sdk_call; [|eauto].
      intros ??? [= <- <-]. split_and!; try done.
      by rewrite store_update_profile_noop.
    + apply local_sdk_call; [intros ??? [= <- <-]; by split_and!|].
      by intros w [? ?].
  - intros e. apply net_sdk_call; [answer_tac | eauto].
  - intros k. apply net_sdk_call; [answer_tac|].
    intros w [b Hb]. simpl. rewrite Hb. eauto.
  - intros k d m. apply net_sdk_call; [answer_tac | eauto].
  - intros k. apply net_sdk_call; [answer_tac|].
    intros w [b Hb]. simpl. rewrite Hb. eauto.
  - intros r. apply local_sdk_call; [|eauto].
    intros ??? [= <- <-]. split_and!; try done.
    apply not_elem_of_dom_1, is_fresh.
  - intros h. apply local_sdk_call; [|eauto].
    intros ??? [= <- <-]. by split_and!.
Qed.

(** ** Symbolic runs

    The clock always reads a valid time, so [toISOString] returns. *)
Lemma clock_iso c : exists iso, toISOString (clamp_time c) = Ok iso.
Proof. apply toISOString_ok, valid_time_clamp. Qed.

(** Run a method on a world given by its fields, whatever they are: at
    each step unfold the model's operations (and, through [extra], those
    of an environment built on it), rewrite with the hypotheses that
    decide the branches (who is signed in, which objects and documents
    exist), and name the clock's ISO strings. *)
Ltac fb_eval_with extra :=
  repeat (cbn; first
    [ progress cbv [fb_deleteObject fb_uploadBytes fb_getDownloadURL fb_updateProfile
                    fb_updateDoc fb_log fb_now fb_sendPasswordResetEmail fb_getDoc net
                    round_trip with_store]
    | progress extra
    | progress rewrite ?String.eqb_refl, ?lookup_insert_eq, ?lookup_delete_eq,
                       ?lookup_partial_alter_eq
    | match goal with
      | H : ?x = _ |- context [?x] => is_var x; fail 1
      | H : ?x = _ |- context [?x] => progress rewrite H
      | |- context [toISOString (clamp_time ?c)] => destruct (clock_iso c) as [? ->]
      end ]).

(** ** A fixture for the witnesses

    One signed-in user, [u1], with a profile document and a photo in
    Storage; [demo_world faults] starts at 2023-11-14T22:13:20Z with a
    latency of 25 ms and the given fault script. *)
Definition demo_uid : string := "u1".

Definition demo_user : User :=
  mk_user demo_uid (JStr "Ana") (JStr (download_url "profile_photos/u1" 0)).

Definition demo_doc : Fields := <["nombre" := JStr "Ana"]> (<["pais" := JStr "MX"]> ∅).

Definition demo_blob : Blob :=
  mk_blob (JFile "old.png" "image/png" 1000) (mk_metadata (JStr "image/png") []) 0.

Definition demo_store : Store :=
  mk_store (Some demo_user) {[("users", demo_uid) := demo_doc]}
           {["profile_photos/u1" := demo_blob]} [] ∅.

Definition demo_world (faults : list (option string)) : World :=
  mk_world demo_store [] 1700000000000 25 faults 1.
