(* ===== verification/UserService.v ===== *)
(** * [userService]: the methods of [src/services/user_service.js]

    [Module userService] holds one definition per method of the exported
    object that talks to the back ends, written against the interface
    [EnvOps] of [Env.v] in the order of the source: [subscribeToUser]
    (lines 10-27, with its two callbacks [snapshot_handler]),
    [getUserData] (29-44), [updateUserProfile] (46-69),
    [updateProfilePhoto] (71-120) and [sendPasswordResetEmail] (122-137).
    An [async] method is a computation of [ST St exn envelope]; its
    [try]/[catch] is [try_catch]; [auth.currentUser.x] is
    [currentUser_prop], which throws V8's [TypeError] when nobody is
    signed in; [new Date().toISOString()] is [date_iso].

    The theorems are proved from the contract [EnvOk] for every
    implementation of the interface; the witnesses run them on the
    executable model of [FirebaseModel.v]. The last theorem, the loss
    of the photo when the upload fails, is proved on that model for
    every store and fault code, by symbolic evaluation. [file.size >
    maxSize] goes through [ToNumber] ([JsNumber.v]). The theorems on what the
    callback of [subscribeToUser] receives are in [Subscription.v];
    the refinement of the contract of spec 4.1 is in [Gateway.v]. *)

From S2P Require Import Prelude JsValue JsNumber IsoDate Store Env FirebaseModel.

(** The object every method resolves to: [{success: true, data}],
    [{success: true, message}], [{success: true, photoURL}] or
    [{success: false, error}]. *)
Inductive envelope :=
| EnvData (d : Fields)
| EnvMessage (m : string)
| EnvPhoto (url : string)
| EnvError (e : string).

Module userService.

(** The callbacks passed to [onSnapshot] (lines 15-25): what the
    caller's [callback] receives for a listener event, and the line
    logged. *)
Definition snapshot_handler (ev : SnapEvent) : list LogLine * envelope :=
  match ev with
  | SnapDoc (Some d) => ([], EnvData d)
  | SnapDoc None => ([], EnvError "Usuario no encontrado")
  | SnapErr e =>
      ([(LError, "Error en snapshot: " ++ ex_message e)%string],
       EnvError "Error al obtener datos")
  end.

Definition validTypes : list string := ["image/jpeg"; "image/png"; "image/gif"].

Definition maxSize : Z := 5 * 1024 * 1024.

Section Methods.
Context {St : Type} `{EnvOps St}.

(** [auth.currentUser.prop] *)
Definition currentUser_prop {A} (prop : string) (f : User -> A) : ST St exn A :=
  let* cu := auth_currentUser in
  match cu with
  | None => throw (type_error_reading "null" prop)
  | Some u => ret (f u)
  end.

(** [new Date().toISOString()] *)
Definition date_iso : ST St exn string :=
  let* t := now in lift (toISOString t).

Definition subscribeToUser : ST St exn (option nat) :=
  let* cu := auth_currentUser in
  match cu with
  | None => ret None
  | Some _ =>
      let* id := currentUser_prop "uid" uid in
      let* h := onSnapshot ("users", id) in
      ret (Some h)
  end.

Definition getUserData : ST St exn envelope :=
  try_catch
    (let* id := currentUser_prop "uid" uid in
     let* userSnap := getDoc ("users", id) in
     match userSnap with
     | Some d =>
         logDebug "Datos de usuario obtenidos correctamente" ;;
         ret (EnvData d)
     | None => throw (js_error "No se encontró el usuario")
     end)
    (fun error =>
       logError ("Error al obtener datos del usuario: " ++ ex_message error) ;;
       ret (EnvError "Error al obtener datos del usuario")).

Definition updateUserProfile (userData : jsval) : ST St exn envelope :=
  try_catch
    (let* id := currentUser_prop "uid" uid in
     let* nombre := lift (get_prop userData "nombre") in
     let* wallet := lift (get_prop userData "wallet") in
     let* sexo := lift (get_prop userData "sexo") in
     let* telefono := lift (get_prop userData "telefono") in
     let* pais := lift (get_prop userData "pais") in
     let* updated_at := date_iso in
     let updateData :=
       [("nombre", nombre); ("wallet", wallet); ("sexo", sexo);
        ("telefono", telefono); ("pais", pais); ("updated_at", JStr updated_at)] in
     updateDoc ("users", id) updateData ;;
     let* cu := auth_currentUser in
     let* displayName := lift (get_prop userData "nombre") in
     updateProfile cu (mk_profile_update displayName JUndefined) ;;
     logInfo "Perfil de usuario actualizado exitosamente" ;;
     ret (EnvMessage "Perfil actualizado correctamente"))
    (fun error =>
       logError ("Error al actualizar perfil: " ++ ex_message error) ;;
       ret (EnvError "Error al actualizar el perfil")).

(** Lines 73-83: the checks on the argument. *)
Definition validate_photo (file : jsval) : ST St exn unit :=
  throw_if (negb (truthy file)) (js_error "No se proporcionó ningún archivo") ;;
  let* type := lift (get_prop file "type") in
  throw_if (negb (includes validTypes type))
    (js_error "Formato de imagen no válido. Use JPG, PNG o GIF") ;;
  let* size := lift (get_prop file "size") in
  let* tooBig := lift (js_gt size maxSize) in
  throw_if tooBig (js_error "La imagen no debe superar los 5MB").

(** Lines 85-93: the best-effort deletion of the previous photo. *)
Definition delete_old_photo : ST St exn unit :=
  let* oldURL := currentUser_prop "photoURL" photoURL in
  if truthy oldURL then
    let* id := currentUser_prop "uid" uid in
    try_catch
      (deleteObject ("profile_photos/" ++ id) ;;
       logInfo "Foto anterior eliminada correctamente")
      (fun error => logDebug "No se encontró foto anterior para eliminar")
  else ret tt.

(** Lines 95-115: upload, download URL, then the Auth profile and the
    profile document. *)
Definition upload_new_photo (file : jsval) : ST St exn envelope :=
  let* id := currentUser_prop "uid" uid in
  let photoRef := ("profile_photos/" ++ id)%string in
  let* contentType := lift (get_prop file "type") in
  let* uploadedBy := currentUser_prop "uid" uid in
  let* uploadedAt := date_iso in
  let metadata :=
    mk_metadata contentType [("uploadedBy", uploadedBy); ("uploadedAt", uploadedAt)] in
  uploadBytes photoRef file metadata ;;
  let* url := getDownloadURL photoRef in
  let* cu := auth_currentUser in
  updateProfile cu (mk_profile_update JUndefined (JStr url)) ;;
  let* id' := currentUser_prop "uid" uid in
  let* updated_at := date_iso in
  updateDoc ("users", id') [("photoURL", JStr url); ("updated_at", JStr updated_at)] ;;
  logInfo "Foto de perfil actualizada exitosamente" ;;
  ret (EnvPhoto url).

Definition updateProfilePhoto (file : jsval) : ST St exn envelope :=
  try_catch
    (validate_photo file ;;
     delete_old_photo ;;
     upload_new_photo file)
    (fun error =>
       logError ("Error al actualizar foto de perfil: " ++ ex_message error) ;;
       ret (EnvError "Error al actualizar la foto de perfil")).

Definition sendPasswordResetEmail (email : jsval) : ST St exn envelope :=
  try_catch
    (Env.sendPasswordResetEmail email ;;
     logInfo ("Correo de restablecimiento enviado a: " ++ js_to_string email) ;;
     ret (EnvMessage "Se ha enviado un correo para restablecer la contraseña"))
    (fun error =>
       logError ("Error al enviar correo de restablecimiento: " ++ ex_message error) ;;
       ret (EnvError "Error al enviar el correo de restablecimiento")).
End Methods.

(** ** Proofs against the contract *)

(** The five fields [updateUserProfile] reads from its argument. *)
Definition reads_profile (userData : jsval) (n w x t p : jsval) : Prop :=
  get_prop userData "nombre" = Ok n /\ get_prop userData "wallet" = Ok w /\
  get_prop userData "sexo" = Ok x /\ get_prop userData "telefono" = Ok t /\
  get_prop userData "pais" = Ok p.

(** The document written by [updateUserProfile] (lines 49-56). *)
Definition profile_update (n w x t p : jsval) (iso : string) : list (string * jsval) :=
  [("nombre", n); ("wallet", w); ("sexo", x); ("telefono", t); ("pais", p);
   ("updated_at", JStr iso)].

(** The checks spec 4.1 asks of a photo: a file must be given, of one
    of three image types, of at most 5 MiB; the first check that fails
    names the error. Values other than [undefined], [null] and files are
    outside what the spec describes. *)
Definition file_rejection (file : jsval) : option string :=
  match file with
  | JUndefined | JNull => Some "No se proporcionó ningún archivo"
  | JFile _ t sz =>
      if bool_decide (t ∈ ["image/jpeg"; "image/png"; "image/gif"]) then
        if (5 * 1024 * 1024 <? sz)%Z then Some "La imagen no debe superar los 5MB" else None
      else Some "Formato de imagen no válido. Use JPG, PNG o GIF"
  | _ => None
  end.

(** A string [new Date().toISOString()] can return. *)
Definition is_iso (iso : string) : Prop :=
  exists t, valid_time t = true /\ toISOString t = Ok iso.

(** After a successful photo update the three back ends agree: the Auth
    profile and the profile document hold [url], the download URL of
    the object at the user's photo path, which holds [file]. *)
Definition photo_published (v : Store) (u : User) (url : string) (file : jsval) : Prop :=
  photoURL <$> st_user v = Some (JStr url) /\
  (st_docs v !! ("users", uid u)) ≫= (.!! "photoURL") = Some (JStr url) /\
  exists b, st_blobs v !! ("profile_photos/" ++ uid u)%string = Some b /\
            url = download_url ("profile_photos/" ++ uid u) (b_token b) /\ b_data b = file.

Lemma valid_profile_update n w x t p iso :
  valid_update (profile_update n w x t p iso) = forallb firestore_value_ok [n; w; x; t; p].
Proof. reflexivity. Qed.

Ltac unfold_calls :=
  unfold currentUser_prop, auth_currentUser, date_iso, logInfo, logError, logDebug in *;
  st_unfold.

(** [run_all] explores every path of a method: it runs each call
    ([env_step]) and splits on each pure branch: an outcome, an option
    or a boolean, keeping the equation of each case. *)
Ltac split_pure :=
  match goal with
  | |- context [match ?o with Ok _ => _ | Thrown _ => _ end] => destruct o eqn:?
  | |- context [match ?o with Some _ => _ | None => _ end] => destruct o eqn:?
  | |- context [if ?b then _ else _] => destruct b eqn:?
  end.

Ltac flatten :=
  repeat match goal with
  | H : _ /\ _ |- _ => destruct H
  | H : exists _, _ |- _ => destruct H
  end.

Ltac run_all := repeat ((env_step || split_pure); flatten; simpl in *).

(** Read [auth.currentUser] wherever the signed-in user is known. *)
Ltac users :=
  repeat match goal with
         | H : st_user (view ?a) = _ |- context [st_user (view ?a)] => rewrite H; simpl
         end.

(** Rewrite the back ends of the final state back to the initial ones. *)
Ltac views :=
  repeat match goal with H : view ?a = _ |- context [view ?a] => rewrite H end;
  autorewrite with store_rw;
  repeat match goal with
         | H : st_user (view ?a) = _ |- context [st_user (view ?a)] => rewrite H
         end.

Section Proofs.
Context {St : Type} {Ops : EnvOps St} {OkE : EnvOk St}.

(** C7: [getUserData] never throws, never writes, and resolves either
    the generic failure or exactly the caller's document. *)
Theorem getUserData_total (s : St) :
  exists s' r, getUserData s = (s', Ok r) /\ view s' = view s /\
    (r = EnvError "Error al obtener datos del usuario" \/
     exists u d, st_user (view s) = Some u /\
                 st_docs (view s) !! ("users", uid u) = Some d /\ r = EnvData d).
Proof.
  unfold getUserData. unfold_calls.
  destruct (st_user (view s)) as [u|] eqn:Hu; simpl.
  - env_step.
    + destruct Hp as [Hd Hv]. destruct a as [d|]; simpl.
      * env_step. eexists _, _. split; [done|]. split; [congruence|].
        right. exists u, d. split_and!; congruence.
      * env_step. eexists _, _. split; [done|]. split; [congruence|]. by left.
    + env_step. eexists _, _. split; [done|]. split; [congruence|]. by left.
  - env_step. eexists _, _. split; [done|]. split; [done|]. by left.
Qed.

(** C5: with the back ends answering, a signed-in user whose profile
    document exists reads exactly that document, with one debug line
    and no write. *)
Theorem getUserData_found (s : St) u d :
  quiet s -> st_user (view s) = Some u ->
  st_docs (view s) !! ("users", uid u) = Some d ->
  exists s', getUserData s = (s', Ok (EnvData d)) /\ view s' = view s /\
    logs s' = logs s ++ [(LDebug, "Datos de usuario obtenidos correctamente")].
Proof.
  intros Hq Hu Hd. unfold getUserData. unfold_calls. rewrite Hu. simpl.
  env_step; [|no_throw; done].
  destruct Hp as [-> Hv]. rewrite Hd. simpl. env_step.
  eexists. split_and!; [done | view_eq | logs_eq].
Qed.

(** C6: a missing profile document resolves the generic failure and
    logs the "not found" error (spec 8, second property). *)
Theorem getUserData_missing (s : St) u :
  quiet s -> st_user (view s) = Some u ->
  st_docs (view s) !! ("users", uid u) = None ->
  exists s', getUserData s = (s', Ok (EnvError "Error al obtener datos del usuario")) /\
    view s' = view s /\
    logs s' = logs s ++ [(LError, "Error al obtener datos del usuario: No se encontró el usuario")].
Proof.
  intros Hq Hu Hd. unfold getUserData. unfold_calls. rewrite Hu. simpl.
  env_step; [|no_throw; done].
  destruct Hp as [-> Hv]. rewrite Hd. simpl. env_step.
  eexists. split_and!; [done | view_eq | logs_eq].
Qed.
(** [new Date().toISOString()] after a clock reading. *)
Ltac iso_step :=
  match goal with
  | Ht : valid_time ?t = true |- context [toISOString ?t] =>
      let iso := fresh "iso" in let Hiso := fresh "Hiso" in
      destruct (toISOString_ok _ Ht) as [iso Hiso]; rewrite Hiso; simpl
  end.

(** C8: with the back ends answering, a signed-in user with a profile
    document and a profile whose five fields are storable gets the
    success envelope; the document receives the five fields and an
    [updated_at] that is the ISO string of a clock reading, then the
    Auth profile's display name becomes [nombre]. *)
Theorem updateUserProfile_success (s : St) u d userData n w x t p :
  quiet s -> st_user (view s) = Some u ->
  st_docs (view s) !! ("users", uid u) = Some d ->
  reads_profile userData n w x t p ->
  forallb firestore_value_ok [n; w; x; t; p] = true ->
  exists s' time iso,
    updateUserProfile userData s = (s', Ok (EnvMessage "Perfil actualizado correctamente")) /\
    valid_time time = true /\ toISOString time = Ok iso /\
    view s' = store_update_profile
                (store_update_doc (view s) ("users", uid u) (profile_update n w x t p iso))
                (Some u) (mk_profile_update n JUndefined) /\
    logs s' = logs s ++ [(LInfo, "Perfil de usuario actualizado exitosamente")].
Proof.
  intros Hq Hu Hd (Hn & Hw & Hx & Ht & Hp) Hok.
  unfold updateUserProfile. unfold_calls. rewrite Hu. simpl.
  rewrite Hn, Hw, Hx, Ht, Hp. simpl. env_step. iso_step.
  env_step; [|no_throw; [done | split; [rewrite <- (valid_profile_update _ _ _ _ _ iso) in Hok; exact Hok | eauto]]].
  destruct Hp0 as (_ & _ & Hv). rewrite Hv. simpl. rewrite Hu.
  env_step; [|no_throw; [auto | eauto]].
  destruct Hp0 as (_ & Hv'). env_step.
  eexists _, _, _. split_and!; [done | done | done | | logs_eq].
  rewrite Hv0, Hv'. f_equal. by rewrite Hv.
Qed.

(** The document [updateUserProfile] wrote, from the equations of its
    run: the five property reads and the clock reading. *)
Ltac profile_written :=
  do 7 eexists; split_and!;
    [ first [reflexivity | eassumption] | unfold reads_profile; split_and!; eassumption
    | eexists; split; eassumption | reflexivity ].

(** C9: [updateUserProfile] never throws, and its two writes are not
    atomic: it either succeeds after both writes (the profile document
    merged with the five values read from [userData] and an ISO
    timestamp, then the Auth display name set to [nombre]), or fails
    having written nothing, or fails having written that document but
    not the Auth profile. *)
Theorem updateUserProfile_outcomes (s : St) userData :
  exists s' r, updateUserProfile userData s = (s', Ok r) /\
    ((r = EnvMessage "Perfil actualizado correctamente" /\
      exists u n w x t p iso, st_user (view s) = Some u /\ reads_profile userData n w x t p /\
        is_iso iso /\
        view s' = store_update_profile
                    (store_update_doc (view s) ("users", uid u) (profile_update n w x t p iso))
                    (Some u) (mk_profile_update n JUndefined)) \/
     (r = EnvError "Error al actualizar el perfil" /\
      (view s' = view s \/
       exists u n w x t p iso, st_user (view s) = Some u /\ reads_profile userData n w x t p /\
         is_iso iso /\
         view s' = store_update_doc (view s) ("users", uid u) (profile_update n w x t p iso)))).
Proof.
  unfold updateUserProfile. unfold_calls. run_all;
    eexists _, _; (split; [reflexivity|]); views;
    first [ left; split; [reflexivity | profile_written]
          | right; split; [reflexivity | first [left; reflexivity | right; profile_written]]].
Qed.

(** C10: a profile one of whose five fields Firestore cannot store (a
    missing field reads as [undefined]) is rejected as a whole: the
    method fails and writes neither the document nor the Auth profile. *)
Theorem updateUserProfile_invalid_field (s : St) userData n w x t p :
  reads_profile userData n w x t p ->
  forallb firestore_value_ok [n; w; x; t; p] = false ->
  exists s', updateUserProfile userData s = (s', Ok (EnvError "Error al actualizar el perfil")) /\
    view s' = view s.
Proof.
  intros (Hn & Hw & Hx & Ht & Hp) Hbad. unfold updateUserProfile. unfold_calls.
  destruct (st_user (view s)) as [u|]; simpl.
  - rewrite Hn, Hw, Hx, Ht, Hp. simpl. env_step. iso_step. env_step.
    + destruct Hp0 as (Hok & _). rewrite <- (valid_profile_update _ _ _ _ _ iso) in Hbad.
      unfold profile_update in Hbad. congruence.
    + env_step. eexists. split; [done | views; done].
  - env_step. eexists. split; [done | views; done].
Qed.

(** *** [updateProfilePhoto] *)

Lemma validate_photo_accepts (s : St) name t sz :
  file_rejection (JFile name t sz) = None ->
  validate_photo (JFile name t sz) s = (s, Ok tt).
Proof.
  simpl. unfold validate_photo, maxSize. st_unfold. simpl.
  destruct (bool_decide _); [|done]. intros H. simpl in *. rewrite ?Z.pow_0_r, ?Z.mul_1_r.
  destruct (_ <? sz)%Z; [discriminate | reflexivity].
Qed.

Lemma validate_photo_rejects (s : St) file msg :
  file_rejection file = Some msg ->
  validate_photo file s = (s, Thrown (js_error msg)).
Proof.
  unfold validate_photo, maxSize. st_unfold.
  destruct file as [| | | | |name t sz|]; simpl; intros Hr; simplify_eq; try done.
  destruct (bool_decide _); simpl in *; [|by simplify_eq]. rewrite ?Z.pow_0_r, ?Z.mul_1_r.
  destruct (_ <? sz)%Z; by simplify_eq.
Qed.

(** C16: on the values spec 4.1 describes (a file, [undefined] or
    [null]), the checks of lines 73-83 are the reference checks
    [file_rejection] of the spec: they accept the same files, and
    reject the others with the same message, without changing the
    state. *)
Theorem validate_photo_equiv (s : St) file :
  match file with JUndefined | JNull | JFile _ _ _ => True | _ => False end ->
  validate_photo file s =
    (s, match file_rejection file with Some msg => Thrown (js_error msg) | None => Ok tt end).
Proof.
  intros Hf. destruct (file_rejection file) as [msg|] eqn:E; [by apply validate_photo_rejects|].
  destruct file; try done; by apply validate_photo_accepts.
Qed.

(** C17: the size limit is inclusive and exact: a file of an allowed
    type passes the checks if and only if its size is at most
    [maxSize], 5 MiB (5242880 bytes). *)
Theorem validate_photo_size_bound (s : St) name t sz :
  t ∈ validTypes ->
  (validate_photo (JFile name t sz) s).2 = Ok tt <-> (sz <= maxSize)%Z.
Proof.
  intros Ht. unfold maxSize.
  destruct (file_rejection (JFile name t sz)) as [msg|] eqn:E.
  - rewrite (validate_photo_rejects _ _ _ E). split; [done|]. intros Hsz. exfalso.
    simpl in E. rewrite bool_decide_true in E by done.
    destruct (Z.ltb_spec (5 * 1024 * 1024) sz); [lia | done].
  - rewrite (validate_photo_accepts _ _ _ _ E). split; [|done]. intros _.
    simpl in E. rewrite bool_decide_true in E by done.
    destruct (Z.ltb_spec (5 * 1024 * 1024) sz); [done | lia].
Qed.

(** C31: the size check is [file.size > maxSize], false whenever
    [ToNumber(file.size)] is [NaN]: any object (not a [File]) that names
    an allowed image type and whose [size] is missing, an object without
    an own [toString], or a string that is not a numeric literal passes
    every check of the method. *)
Theorem validate_photo_sizeless_object (s : St) ps ty :
  assoc_lookup "type" ps = Some (JStr ty) -> ty ∈ validTypes ->
  to_number (default JUndefined (assoc_lookup "size" ps)) = Ok NNaN ->
  validate_photo (JObj ps) s = (s, Ok tt).
Proof.
  intros Hty Hin Hsz. unfold validate_photo. st_unfold. simpl.
  rewrite Hty, (js_gt_nan _ _ Hsz). simpl. by rewrite bool_decide_true.
Qed.

(** A file the checks of lines 73-83 let through is one the spec's
    checks accept. *)
Lemma validate_photo_passed (s s' : St) file :
  validate_photo file s = (s', Ok tt) -> file_rejection file = None.
Proof.
  destruct (file_rejection file) as [msg|] eqn:E; [|done].
  unfold validate_photo, maxSize. st_unfold.
  destruct file as [| | | | |name t sz|]; simpl in *; simplify_eq; try done.
  destruct (bool_decide _); simpl in *; [|done]. rewrite ?Z.pow_0_r, ?Z.mul_1_r.
  by destruct (_ <? sz)%Z.
Qed.

(** With someone signed in, the deletion never throws and touches at
    most the object at the user's photo path. *)
Lemma delete_old_photo_spec (s : St) u :
  st_user (view s) = Some u ->
  exists s', delete_old_photo s = (s', Ok tt) /\
    (view s' = view s \/ view s' = store_delete_blob (view s) ("profile_photos/" ++ uid u)) /\
    (quiet s -> quiet s').
Proof.
  intros Hu. unfold delete_old_photo. unfold_calls. rewrite Hu. simpl.
  split_pure; simpl.
  - rewrite Hu. simpl. env_step; env_step; eexists; (split; [done|]);
    flatten; split; views; auto.
  - eexists. eauto.
Qed.

(** With the back ends answering, the upload block stores the file with
    its metadata, reads its download URL, and writes that URL to the
    Auth profile and then to the profile document. *)
Lemma upload_new_photo_success (s : St) u d name t sz :
  quiet s -> st_user (view s) = Some u -> st_docs (view s) !! ("users", uid u) = Some d ->
  exists s' tok iso1 iso2,
    upload_new_photo (JFile name t sz) s =
      (s', Ok (EnvPhoto (download_url ("profile_photos/" ++ uid u) tok))) /\
    is_iso iso1 /\ is_iso iso2 /\
    view s' =
      store_update_doc
        (store_update_profile
           (store_upload (view s) ("profile_photos/" ++ uid u) (JFile name t sz)
              (mk_metadata (JStr t) [("uploadedBy", uid u); ("uploadedAt", iso1)]) tok)
           (Some u) (mk_profile_update JUndefined (JStr (download_url ("profile_photos/" ++ uid u) tok))))
        ("users", uid u)
        [("photoURL", JStr (download_url ("profile_photos/" ++ uid u) tok)); ("updated_at", JStr iso2)] /\
    logs s' = logs s ++ [(LInfo, "Foto de perfil actualizada exitosamente")].
Proof.
  intros Hq Hu Hd. unfold upload_new_photo. unfold_calls. simpl. users.
  env_step. iso_step.
  env_step; [|no_throw; eauto]. flatten.
  env_step; [|no_throw; [eauto | views; autorewrite with store_rw; eexists; apply st_blobs_upload_eq]].
  flatten. match goal with
         | Hb : st_blobs (view ?b) !! _ = Some _, Hv : view ?b = store_upload _ _ _ _ _ |- _ =>
             rewrite Hv, st_blobs_upload_eq in Hb; simplify_eq
         end.
  views. autorewrite with store_rw. users.
  env_step; [|no_throw; eauto]. flatten.
  views. rewrite st_user_update_profile_same by (autorewrite with store_rw; eauto). simpl.
  env_step. iso_step.
  env_step; [|no_throw; [eauto | views; autorewrite with store_rw; split; [done | eauto]]].
  flatten. env_step.
  eexists _, _, iso, iso0. split_and!; [reflexivity | eexists; eauto | eexists; eauto | | logs_eq].
  views. reflexivity.
Qed.

(** C2: a photo the spec's checks reject (no file, a type other than
    JPEG, PNG or GIF, more than 5 MiB) is refused before any call to the
    back ends: the run is exactly one logged line, whose text names the
    check that failed, and the caller receives the generic failure. *)
Theorem updateProfilePhoto_rejects_before_io (s : St) file msg :
  file_rejection file = Some msg ->
  updateProfilePhoto file s =
    (fst (log LError ("Error al actualizar foto de perfil: " ++ msg) s),
     Ok (EnvError "Error al actualizar la foto de perfil")).
Proof.
  intros Hr. unfold updateProfilePhoto, logError. cbv [try_catch bind].
  rewrite (validate_photo_rejects _ _ _ Hr). simpl.
  by rewrite (proj1 (log_run LError _ s)).
Qed.

(** C3: with the back ends answering, a signed-in user with a profile
    document and a file the checks accept gets [{success: true,
    photoURL}], where [photoURL] is the download URL of the object just
    uploaded at [profile_photos/<uid>] (with its content type and the
    uploader and upload time as metadata); the Auth profile and the
    profile document both hold that URL afterwards. *)
Theorem updateProfilePhoto_success (s : St) u d name t sz :
  quiet s -> st_user (view s) = Some u ->
  st_docs (view s) !! ("users", uid u) = Some d ->
  file_rejection (JFile name t sz) = None ->
  exists s' tok iso1 iso2,
    updateProfilePhoto (JFile name t sz) s =
      (s', Ok (EnvPhoto (download_url ("profile_photos/" ++ uid u) tok))) /\
    is_iso iso1 /\ is_iso iso2 /\
    view s' =
      store_update_doc
        (store_update_profile
           (store_upload (view s) ("profile_photos/" ++ uid u) (JFile name t sz)
              (mk_metadata (JStr t) [("uploadedBy", uid u); ("uploadedAt", iso1)]) tok)
           (Some u) (mk_profile_update JUndefined (JStr (download_url ("profile_photos/" ++ uid u) tok))))
        ("users", uid u)
        [("photoURL", JStr (download_url ("profile_photos/" ++ uid u) tok)); ("updated_at", JStr iso2)].
Proof.
  intros Hq Hu Hd Hr. unfold updateProfilePhoto. cbv [try_catch bind].
  rewrite (validate_photo_accepts _ _ _ _ Hr).
  destruct (delete_old_photo_spec s u Hu) as (s1 & E1 & Hv1 & Hq1). rewrite E1.
  assert (Hu1 : st_user (view s1) = Some u) by (destruct Hv1 as [-> | ->]; done).
  assert (Hd1 : st_docs (view s1) !! ("users", uid u) = Some d)
    by (destruct Hv1 as [-> | ->]; done).
  destruct (upload_new_photo_success s1 u d name t sz (Hq1 Hq) Hu1 Hd1)
    as (s2 & tok & iso1 & iso2 & E2 & Hi1 & Hi2 & Hv2 & _).
  rewrite E2. exists s2, tok, iso1, iso2. split_and!; try done.
  rewrite Hv2. destruct Hv1 as [-> | ->]; [done | by rewrite store_upload_delete].
Qed.

Lemma validate_photo_pure (s : St) file : exists o, validate_photo file s = (s, o).
Proof. unfold validate_photo. st_unfold. repeat (split_pure; simpl); eauto. Qed.

Lemma delete_old_photo_outcome (s : St) :
  exists s' o, delete_old_photo s = (s', o) /\
    st_user (view s') = st_user (view s) /\ st_docs (view s') = st_docs (view s) /\
    (forall e, o = Thrown e -> st_user (view s) = None).
Proof.
  destruct (st_user (view s)) as [u|] eqn:Hu.
  - destruct (delete_old_photo_spec s u Hu) as (s' & E & Hv & _).
    exists s', (Ok tt). split_and!; try done; destruct Hv as [-> | ->]; done.
  - unfold delete_old_photo. unfold_calls. rewrite Hu. simpl. eauto 10.
Qed.

(** The changes of a run so far touch only the signed-in user's data. *)
Ltac frame_run :=
  let u' := fresh "u" in let Hu' := fresh "Hu" in
  intros u' Hu';
  try match goal with Hu : st_user (view ?s) = _ |- _ => rewrite Hu in Hu' end;
  simplify_eq; views; eauto with frame.

(** Close a branch where the upload block threw: the profile document
    is as it was. *)
Ltac upload_failed :=
  eexists _, _; split; [reflexivity|];
  split; [frame_run | views; autorewrite with store_rw; reflexivity].

Lemma upload_new_photo_outcomes (s : St) file :
  exists s' o, upload_new_photo file s = (s', o) /\
    (forall u, st_user (view s) = Some u -> touches_only u (view s) (view s')) /\
    match o with
    | Thrown _ => st_docs (view s') = st_docs (view s)
    | Ok r => exists u url, r = EnvPhoto url /\ st_user (view s) = Some u /\
                            photo_published (view s') u url file /\
        exists d iso, st_docs (view s) !! ("users", uid u) = Some d /\ is_iso iso /\
          st_docs (view s') = <[("users", uid u) :=
                                  merge_fields d [("photoURL", JStr url); ("updated_at", JStr iso)]]>
                                (st_docs (view s))
    end.
Proof.
  unfold upload_new_photo. unfold_calls. simpl.
  destruct (st_user (view s)) as [u|] eqn:Hu; simpl; [|upload_failed].
  destruct (get_prop file "type") eqn:Hct; simpl; [|upload_failed]. users.
  env_step. iso_step.
  env_step; [|upload_failed]. flatten.
  env_step; [|upload_failed]. flatten.
  match goal with
  | Hb : st_blobs (view ?b) !! _ = Some _, Hv : view ?b = store_upload _ _ _ _ _ |- _ =>
      rewrite Hv, st_blobs_upload_eq in Hb; simplify_eq
  end.
  views. autorewrite with store_rw. users.
  env_step; [|upload_failed]. flatten.
  views. rewrite st_user_update_profile_same by (autorewrite with store_rw; eauto). simpl.
  env_step. iso_step.
  env_step; [|upload_failed]. flatten. env_step.
  eexists _, _. split; [reflexivity|]. split; [frame_run|].
  exists u; eexists. unfold photo_published.
  split_and!; [reflexivity | done | ..];
    views; autorewrite with store_rw.
  - rewrite st_user_update_profile_same by (autorewrite with store_rw; eauto). done.
  - rewrite st_docs_update_doc_eq. simpl. by simplify_map_eq.
  - autorewrite with store_rw. rewrite st_blobs_upload_eq. eexists. done.
  - match goal with H : is_Some (st_docs (view _) !! _) |- _ => destruct H as [d Hd] end.
    revert Hd. views. autorewrite with store_rw. intros Hd.
    exists d, iso0. split_and!; [done | eexists; split; eassumption |].
    rewrite st_docs_update_doc. autorewrite with store_rw. by rewrite Hd.
Qed.

(** C4: [updateProfilePhoto] never throws. When it fails, whatever step
    failed, the profile document is as it was and the caller receives
    the one generic message (the specific validation messages only
    reach the log). When it succeeds with [url], the Auth profile, the
    profile document and the stored object agree on [url]. *)
Theorem updateProfilePhoto_outcomes (s : St) file :
  exists s' r, updateProfilePhoto file s = (s', Ok r) /\
    ((r = EnvError "Error al actualizar la foto de perfil" /\
      st_docs (view s') = st_docs (view s)) \/
     (exists u url, r = EnvPhoto url /\ st_user (view s) = Some u /\
                    photo_published (view s') u url file)).
Proof.
  unfold updateProfilePhoto. cbv [try_catch bind].
  destruct (validate_photo_pure s file) as [[[]|e] E0]; rewrite E0;
    [| unfold logError; env_step; eexists _, _; split; [reflexivity|]; left; views; done].
  destruct (delete_old_photo_outcome s) as (s1 & [[]|e] & E1 & Hu1 & Hd1 & Hth); rewrite E1;
    [| unfold logError; env_step; eexists _, _; split; [reflexivity|]; left; views; done].
  destruct (upload_new_photo_outcomes s1 file) as (s2 & [r|e] & E2 & _ & Hr); rewrite E2.
  - eexists _, _. split; [reflexivity|]. right.
    destruct Hr as (u & url & -> & Hu & Hp & _). rewrite Hu1 in Hu. eauto.
  - unfold logError. env_step. eexists _, _. split; [reflexivity|]. left.
    split; [done|]. views. congruence.
Qed.

(** *** [sendPasswordResetEmail] *)

(** C21: [sendPasswordResetEmail] never throws: it either records the
    mail and logs the address, or fails having sent nothing. *)
Theorem sendPasswordResetEmail_outcomes (s : St) email :
  exists s' r, sendPasswordResetEmail email s = (s', Ok r) /\
    ((r = EnvMessage "Se ha enviado un correo para restablecer la contraseña" /\
      view s' = store_send_mail (view s) email /\
      logs s' = logs s ++ [(LInfo, "Correo de restablecimiento enviado a: " ++ js_to_string email)%string]) \/
     (r = EnvError "Error al enviar el correo de restablecimiento" /\ view s' = view s)).
Proof.
  unfold sendPasswordResetEmail. unfold_calls.
  env_step; env_step; eexists _, _; (split; [reflexivity|]).
  - left. split_and!; [done | views; done | logs_eq].
  - right. split; [done | views; done].
Qed.

(** C22: with the back ends answering, a reset mail to a string address
    is sent, and the address is logged with the success message. *)
Theorem sendPasswordResetEmail_success (s : St) a :
  quiet s ->
  exists s', sendPasswordResetEmail (JStr a) s =
               (s', Ok (EnvMessage "Se ha enviado un correo para restablecer la contraseña")) /\
    view s' = store_send_mail (view s) (JStr a) /\
    logs s' = logs s ++ [(LInfo, "Correo de restablecimiento enviado a: " ++ a)%string].
Proof.
  intros Hq. unfold sendPasswordResetEmail. unfold_calls.
  env_step; [|no_throw; eauto]. env_step.
  eexists. split_and!; [reflexivity | views; done | logs_eq].
Qed.

(** *** Signed out *)

(** C12: with nobody signed in, the three [async] methods that read
    [auth.currentUser.uid] fail with their generic message and change
    nothing in the back ends: the [TypeError] of the property read is
    caught, and its V8 message is what gets logged. *)
Theorem methods_signed_out (s : St) userData file :
  st_user (view s) = None ->
  (exists s', getUserData s = (s', Ok (EnvError "Error al obtener datos del usuario")) /\
     view s' = view s /\
     logs s' = logs s ++ [(LError, "Error al obtener datos del usuario: " ++
                                   "Cannot read properties of null (reading 'uid')")%string]) /\
  (exists s', updateUserProfile userData s = (s', Ok (EnvError "Error al actualizar el perfil")) /\
     view s' = view s /\
     logs s' = logs s ++ [(LError, "Error al actualizar perfil: " ++
                                   "Cannot read properties of null (reading 'uid')")%string]) /\
  (exists s', updateProfilePhoto file s = (s', Ok (EnvError "Error al actualizar la foto de perfil")) /\
     view s' = view s).
Proof.
  intros Hu. split_and!.
  - unfold getUserData. unfold_calls. rewrite Hu. simpl. env_step.
    eexists. split_and!; [reflexivity | done | logs_eq].
  - unfold updateUserProfile. unfold_calls. rewrite Hu. simpl. env_step.
    eexists. split_and!; [reflexivity | done | logs_eq].
  - unfold updateProfilePhoto. cbv [try_catch bind].
    destruct (validate_photo_pure s file) as [[[]|e] E0]; rewrite E0;
      [| unfold logError; env_step; eexists; split; [reflexivity | done]].
    unfold delete_old_photo. unfold_calls. rewrite Hu. simpl. env_step.
    eexists. split; [reflexivity | done].
Qed.

(** Signed out, [subscribeToUser] returns [null] and registers
    nothing. *)
Theorem subscribeToUser_signed_out (s : St) :
  st_user (view s) = None -> subscribeToUser s = (s, Ok None).
Proof. intros Hu. unfold subscribeToUser. unfold_calls. by rewrite Hu. Qed.

(** *** The data the methods touch *)

(** C13: signed in as [u], the methods that write change no document
    but [users/<uid>], no Storage object but [profile_photos/<uid>], and
    not who is signed in, whatever the back ends answer: one profile
    document and one photo per user. *)
Theorem methods_touch_only (s : St) u file userData email :
  st_user (view s) = Some u ->
  (let '(s', _) := updateProfilePhoto file s in touches_only u (view s) (view s')) /\
  (let '(s', _) := updateUserProfile userData s in touches_only u (view s) (view s')) /\
  (let '(s', _) := sendPasswordResetEmail email s in touches_only u (view s) (view s')).
Proof.
  intros Hu. split_and!.
  - unfold updateProfilePhoto. cbv [try_catch bind].
    destruct (validate_photo_pure s file) as [[[]|e] E0]; rewrite E0;
      [| unfold logError; env_step; views; reflexivity].
    destruct (delete_old_photo_spec s u Hu) as (s1 & E1 & Hv1 & _). rewrite E1.
    assert (H1 : touches_only u (view s) (view s1))
      by (destruct Hv1 as [-> | ->]; eauto with frame).
    assert (Hu1 : st_user (view s1) = Some u) by (destruct Hv1 as [-> | ->]; done).
    destruct (upload_new_photo_outcomes s1 file) as (s2 & o2 & E2 & Hf & _). rewrite E2.
    destruct o2; [|unfold logError; env_step; views]; etrans; eauto.
  - unfold updateUserProfile. unfold_calls. rewrite Hu. simpl. run_all; views; eauto with frame.
  - unfold sendPasswordResetEmail. unfold_calls. run_all; views; eauto with frame.
Qed.
End Proofs.

(** ** The methods resolve in any environment *)

Section NeverThrow.
Context {St : Type} `{EnvOps St}.

(** The logger is fire-and-forget: it returns. Nothing else is assumed
    of the back ends, the clock or the other events. *)
Hypothesis log_returns : forall lvl msg s, (log lvl msg s).2 = Ok tt.

Lemma try_catch_resolves {A} (m : ST St exn A) h s :
  (forall e s, exists s' a, h e s = (s', Ok a)) -> exists s' a, try_catch m h s = (s', Ok a).
Proof. intros Hh. unfold try_catch. destruct (m s) as [s' [a|e]]; eauto. Qed.

(** A [catch] block that logs and returns an envelope. *)
Lemma log_then_ret {A} msg (r : A) s :
  exists s' a, (logError msg ;; ret r) s = (s', Ok a).
Proof.
  unfold logError. st_unfold. pose proof (log_returns LError msg s) as Hl.
  destruct (log LError msg s) as [s' o]. simpl in Hl. subst. eauto.
Qed.

(** C11: whatever the back ends answer and whatever happens between two
    [await]s, the four [async] methods that write or read the profile
    resolve an envelope: no path rejects their promise. *)
Theorem methods_never_throw (s : St) file userData email :
  (exists s' r, getUserData s = (s', Ok r)) /\
  (exists s' r, updateUserProfile userData s = (s', Ok r)) /\
  (exists s' r, updateProfilePhoto file s = (s', Ok r)) /\
  (exists s' r, sendPasswordResetEmail email s = (s', Ok r)).
Proof.
  split_and!; apply try_catch_resolves; intros; apply log_then_ret.
Qed.
End NeverThrow.

(** ** Witnesses on the executable model *)

(** Prove the hypotheses of a witness, conjunct by conjunct, by
    evaluation, up to its conclusion. *)
Ltac ev := first [reflexivity | unfold reads_profile; split_and!; reflexivity].
Ltac discharge := repeat (split; [ev |]).

Lemma getUserData_found_witness :
  quiet (demo_world []) /\ st_user (view (demo_world [])) = Some demo_user /\
  st_docs (view (demo_world [])) !! ("users", uid demo_user) = Some demo_doc /\
  exists s', getUserData (demo_world []) = (s', Ok (EnvData demo_doc)) /\
    view s' = view (demo_world []) /\
    logs s' = logs (demo_world []) ++ [(LDebug, "Datos de usuario obtenidos correctamente")].
Proof.
  split_and!; [reflexivity | reflexivity | reflexivity |].
  apply (getUserData_found _ demo_user); reflexivity.
Defined.

Lemma getUserData_missing_witness :
  let w := with_store (demo_world []) (set_docs demo_store ∅) in
  quiet w /\ st_user (view w) = Some demo_user /\
  st_docs (view w) !! ("users", uid demo_user) = None /\
  exists s', getUserData w = (s', Ok (EnvError "Error al obtener datos del usuario")) /\
    view s' = view w /\
    logs s' = logs w ++ [(LError, "Error al obtener datos del usuario: No se encontró el usuario")].
Proof.
  intros w. split_and!; [reflexivity | reflexivity | reflexivity |].
  apply (getUserData_missing _ demo_user); reflexivity.
Defined.

Lemma updateUserProfile_success_witness :
  let userData := JObj [("nombre", JStr "Bea"); ("wallet", JStr "0xab"); ("sexo", JStr "F");
                        ("telefono", JStr "555"); ("pais", JStr "AR")] in
  quiet (demo_world []) /\ st_user (view (demo_world [])) = Some demo_user /\
  st_docs (view (demo_world [])) !! ("users", uid demo_user) = Some demo_doc /\
  reads_profile userData (JStr "Bea") (JStr "0xab") (JStr "F") (JStr "555") (JStr "AR") /\
  forallb firestore_value_ok [JStr "Bea"; JStr "0xab"; JStr "F"; JStr "555"; JStr "AR"] = true /\
  exists s' time iso,
    updateUserProfile userData (demo_world []) =
      (s', Ok (EnvMessage "Perfil actualizado correctamente")) /\
    valid_time time = true /\ toISOString time = Ok iso /\
    view s' = store_update_profile
                (store_update_doc (view (demo_world [])) ("users", uid demo_user)
                   (profile_update (JStr "Bea") (JStr "0xab") (JStr "F") (JStr "555") (JStr "AR") iso))
                (Some demo_user) (mk_profile_update (JStr "Bea") JUndefined) /\
    logs s' = logs (demo_world []) ++ [(LInfo, "Perfil de usuario actualizado exitosamente")].
Proof.
  intros userData. discharge.
  apply (updateUserProfile_success _ demo_user demo_doc); ev.
Defined.

Lemma updateUserProfile_invalid_field_witness :
  let userData := JObj [("nombre", JStr "Bea")] in
  reads_profile userData (JStr "Bea") JUndefined JUndefined JUndefined JUndefined /\
  forallb firestore_value_ok [JStr "Bea"; JUndefined; JUndefined; JUndefined; JUndefined] = false /\
  exists s', updateUserProfile userData (demo_world []) =
               (s', Ok (EnvError "Error al actualizar el perfil")) /\
             view s' = view (demo_world []).
Proof.
  intros userData. discharge.
  apply (updateUserProfile_invalid_field _ _ (JStr "Bea") JUndefined JUndefined JUndefined JUndefined);
    ev.
Defined.

Lemma updateProfilePhoto_rejects_before_io_witness :
  file_rejection (JFile "cv.pdf" "application/pdf" 2048) =
    Some "Formato de imagen no válido. Use JPG, PNG o GIF" /\
  updateProfilePhoto (JFile "cv.pdf" "application/pdf" 2048) (demo_world []) =
    (fst (log LError ("Error al actualizar foto de perfil: " ++
                      "Formato de imagen no válido. Use JPG, PNG o GIF") (demo_world [])),
     Ok (EnvError "Error al actualizar la foto de perfil")).
Proof. split; [reflexivity | apply updateProfilePhoto_rejects_before_io; reflexivity]. Defined.

(** The boundary: a file of exactly 5 MiB is accepted. *)
Lemma updateProfilePhoto_success_witness :
  quiet (demo_world []) /\ st_user (view (demo_world [])) = Some demo_user /\
  st_docs (view (demo_world [])) !! ("users", uid demo_user) = Some demo_doc /\
  file_rejection (JFile "new.png" "image/png" 5242880) = None /\
  exists s' tok iso1 iso2,
    updateProfilePhoto (JFile "new.png" "image/png" 5242880) (demo_world []) =
      (s', Ok (EnvPhoto (download_url ("profile_photos/" ++ uid demo_user) tok))) /\
    is_iso iso1 /\ is_iso iso2 /\
    view s' =
      store_update_doc
        (store_update_profile
           (store_upload (view (demo_world [])) ("profile_photos/" ++ uid demo_user)
              (JFile "new.png" "image/png" 5242880)
              (mk_metadata (JStr "image/png") [("uploadedBy", uid demo_user); ("uploadedAt", iso1)]) tok)
           (Some demo_user)
           (mk_profile_update JUndefined (JStr (download_url ("profile_photos/" ++ uid demo_user) tok))))
        ("users", uid demo_user)
        [("photoURL", JStr (download_url ("profile_photos/" ++ uid demo_user) tok));
         ("updated_at", JStr iso2)].
Proof. discharge. apply (updateProfilePhoto_success _ demo_user demo_doc); ev. Defined.

Lemma sendPasswordResetEmail_success_witness :
  quiet (demo_world []) /\
  exists s', sendPasswordResetEmail (JStr "ana@example.com") (demo_world []) =
               (s', Ok (EnvMessage "Se ha enviado un correo para restablecer la contraseña")) /\
    view s' = store_send_mail (view (demo_world [])) (JStr "ana@example.com") /\
    logs s' = logs (demo_world []) ++
              [(LInfo, "Correo de restablecimiento enviado a: " ++ "ana@example.com")%string].
Proof. split; [reflexivity | apply sendPasswordResetEmail_success; reflexivity]. Defined.

Lemma methods_signed_out_witness :
  let w := with_store (demo_world []) (mk_store None ∅ ∅ [] ∅) in
  let userData := JObj [("nombre", JStr "Bea")] in
  let file := JFile "new.png" "image/png" 2048 in
  st_user (view w) = None /\
  (exists s', getUserData w = (s', Ok (EnvError "Error al obtener datos del usuario")) /\
     view s' = view w /\
     logs s' = logs w ++ [(LError, "Error al obtener datos del usuario: " ++
                                   "Cannot read properties of null (reading 'uid')")%string]) /\
  (exists s', updateUserProfile userData w = (s', Ok (EnvError "Error al actualizar el perfil")) /\
     view s' = view w /\
     logs s' = logs w ++ [(LError, "Error al actualizar perfil: " ++
                                   "Cannot read properties of null (reading 'uid')")%string]) /\
  (exists s', updateProfilePhoto file w = (s', Ok (EnvError "Error al actualizar la foto de perfil")) /\
     view s' = view w).
Proof. intros w userData file. split; [reflexivity | apply methods_signed_out; reflexivity]. Defined.

Lemma subscribeToUser_signed_out_witness :
  let w := with_store (demo_world []) (mk_store None ∅ ∅ [] ∅) in
  st_user (view w) = None /\ subscribeToUser w = (w, Ok None).
Proof. intros w. split; [reflexivity | apply subscribeToUser_signed_out; reflexivity]. Defined.

(** An object with an allowed type and a [size] of ["6MB"]. *)
Lemma validate_photo_sizeless_object_witness :
  let ps := [("type", JStr "image/png"); ("size", JStr "6MB")] in
  assoc_lookup "type" ps = Some (JStr "image/png") /\ "image/png" ∈ validTypes /\
  to_number (default JUndefined (assoc_lookup "size" ps)) = Ok NNaN /\
  validate_photo (JObj ps) (demo_world []) = (demo_world [], Ok tt).
Proof.
  intros ps.
  assert (H1 : assoc_lookup "type" ps = Some (JStr "image/png")) by reflexivity.
  assert (H2 : "image/png" ∈ validTypes) by (unfold validTypes; set_solver).
  assert (H3 : to_number (default JUndefined (assoc_lookup "size" ps)) = Ok NNaN)
    by (vm_compute; reflexivity).
  split_and!; [exact H1 | exact H2 | exact H3 | exact (validate_photo_sizeless_object _ ps _ H1 H2 H3)].
Defined.

Lemma methods_touch_only_witness :
  let w := demo_world [None; Some "storage/retry-limit-exceeded"] in
  let file := JFile "new.png" "image/png" 2048 in
  let userData := JObj [("nombre", JStr "Bea")] in
  st_user (view w) = Some demo_user /\
  (let '(s', _) := updateProfilePhoto file w in touches_only demo_user (view w) (view s')) /\
  (let '(s', _) := updateUserProfile userData w in touches_only demo_user (view w) (view s')) /\
  (let '(s', _) := sendPasswordResetEmail (JStr "ana@example.com") w in
   touches_only demo_user (view w) (view s')).
Proof.
  intros w file userData. split; [reflexivity|].
  apply (methods_touch_only w demo_user file userData (JStr "ana@example.com")). reflexivity.
Defined.

Lemma validate_photo_equiv_witness :
  validate_photo (JFile "big.png" "image/png" 6000000) (demo_world []) =
    (demo_world [], Thrown (js_error "La imagen no debe superar los 5MB")).
Proof. exact (validate_photo_equiv (demo_world []) (JFile "big.png" "image/png" 6000000) I). Defined.

Lemma validate_photo_size_bound_witness :
  "image/png" ∈ validTypes /\
  ((validate_photo (JFile "new.png" "image/png" 5242880) (demo_world [])).2 = Ok tt <->
   (5242880 <= maxSize)%Z) /\
  ((validate_photo (JFile "new.png" "image/png" 5242881) (demo_world [])).2 = Ok tt <->
   (5242881 <= maxSize)%Z).
Proof.
  assert (Ht : "image/png" ∈ validTypes) by (unfold validTypes; set_solver).
  split_and!; [exact Ht | apply validate_photo_size_bound; exact Ht
              | apply validate_photo_size_bound; exact Ht].
Defined.

(** The totality theorems, instantiated with the Firebase model whose
    contract [firebase_env_ok] discharges their [EnvOk] hypothesis. *)
Lemma getUserData_total_witness :
  let w := demo_world [Some "unavailable"] in
  exists s' r, getUserData w = (s', Ok r) /\ view s' = view w /\
    (r = EnvError "Error al obtener datos del usuario" \/
     exists u d, st_user (view w) = Some u /\
                 st_docs (view w) !! ("users", uid u) = Some d /\ r = EnvData d).
Proof. intros w. exact (getUserData_total w). Defined.

(** The partial write: the document is written, the Auth call fails. *)
Lemma updateUserProfile_outcomes_witness :
  let wd := demo_world [None; Some "auth/network-request-failed"] in
  let userData := JObj [("nombre", JStr "Bea"); ("wallet", JStr "0xab"); ("sexo", JStr "F");
                        ("telefono", JStr "555"); ("pais", JStr "AR")] in
  exists s' r, updateUserProfile userData wd = (s', Ok r) /\
    ((r = EnvMessage "Perfil actualizado correctamente" /\
      exists u n w x t p iso, st_user (view wd) = Some u /\ reads_profile userData n w x t p /\
        is_iso iso /\
        view s' = store_update_profile
                    (store_update_doc (view wd) ("users", uid u) (profile_update n w x t p iso))
                    (Some u) (mk_profile_update n JUndefined)) \/
     (r = EnvError "Error al actualizar el perfil" /\
      (view s' = view wd \/
       exists u n w x t p iso, st_user (view wd) = Some u /\ reads_profile userData n w x t p /\
         is_iso iso /\
         view s' = store_update_doc (view wd) ("users", uid u) (profile_update n w x t p iso)))).
Proof. intros wd userData. exact (updateUserProfile_outcomes wd userData). Defined.

Lemma updateProfilePhoto_outcomes_witness :
  let w := demo_world [None; None; Some "storage/unauthorized"] in
  let file := JFile "new.png" "image/png" 2048 in
  exists s' r, updateProfilePhoto file w = (s', Ok r) /\
    ((r = EnvError "Error al actualizar la foto de perfil" /\
      st_docs (view s') = st_docs (view w)) \/
     (exists u url, r = EnvPhoto url /\ st_user (view w) = Some u /\
                    photo_published (view s') u url file)).
Proof. intros w file. exact (updateProfilePhoto_outcomes w file). Defined.

Lemma sendPasswordResetEmail_outcomes_witness :
  let w := demo_world [] in
  exists s' r, sendPasswordResetEmail (JStr "ana@example.com") w = (s', Ok r) /\
    ((r = EnvMessage "Se ha enviado un correo para restablecer la contraseña" /\
      view s' = store_send_mail (view w) (JStr "ana@example.com") /\
      logs s' = logs w ++ [(LInfo, "Correo de restablecimiento enviado a: " ++
                                   js_to_string (JStr "ana@example.com"))%string]) \/
     (r = EnvError "Error al enviar el correo de restablecimiento" /\ view s' = view w)).
Proof. intros w. exact (sendPasswordResetEmail_outcomes w (JStr "ana@example.com")). Defined.

(** C30: the old photo is deleted before the new one is uploaded to the
    same path (lines 86-88, then 97), so an upload that fails loses the
    user's photo: in the Firebase model, from any store in which the
    signed-in user has a photo URL and a photo object, a valid file
    whose deletion succeeds and whose upload fails (any error code)
    leaves no object at the path, while the Auth profile and the
    profile document are unchanged and still point at the old URL. *)
Theorem updateProfilePhoto_loses_old_photo (v : Store) lg ck lat tok u b name t sz code fs :
  st_user v = Some u -> truthy (photoURL u) = true ->
  st_blobs v !! ("profile_photos/" ++ uid u)%string = Some b ->
  file_rejection (JFile name t sz) = None ->
  exists w', updateProfilePhoto (JFile name t sz) (mk_world v lg ck lat (None :: Some code :: fs) tok)
             = (w', Ok (EnvError "Error al actualizar la foto de perfil")) /\
    st_blobs (w_store w') !! ("profile_photos/" ++ uid u)%string = None /\
    st_user (w_store w') = Some u /\ st_docs (w_store w') = st_docs v /\
    w_logs w' = lg ++ [(LInfo, "Foto anterior eliminada correctamente");
                       (LError, "Error al actualizar foto de perfil: Firebase: Error (" ++
                                code ++ ").")%string].
Proof.
  intros Hu Hp Hb Hf.
  unfold updateProfilePhoto. cbv [try_catch bind]. rewrite (validate_photo_accepts _ name t sz Hf).
  unfold delete_old_photo, upload_new_photo. unfold_calls. fb_eval_with idtac.
  eexists. split_and!; [reflexivity | apply lookup_delete_eq | exact Hu | reflexivity |].
  simpl. rewrite <- app_assoc. reflexivity.
Qed.

(** The demo user's photo is lost when Storage refuses the upload. *)
Lemma updateProfilePhoto_loses_old_photo_witness :
  let code := "storage/retry-limit-exceeded" in
  st_user demo_store = Some demo_user /\ truthy (photoURL demo_user) = true /\
  st_blobs demo_store !! ("profile_photos/" ++ uid demo_user)%string = Some demo_blob /\
  file_rejection (JFile "new.png" "image/png" 2048) = None /\
  exists w', updateProfilePhoto (JFile "new.png" "image/png" 2048)
               (mk_world demo_store [] 1700000000000 25 (None :: Some code :: []) 1)
             = (w', Ok (EnvError "Error al actualizar la foto de perfil")) /\
    st_blobs (w_store w') !! ("profile_photos/" ++ uid demo_user)%string = None /\
    st_user (w_store w') = Some demo_user /\ st_docs (w_store w') = st_docs demo_store /\
    w_logs w' = [] ++ [(LInfo, "Foto anterior eliminada correctamente");
                       (LError, "Error al actualizar foto de perfil: Firebase: Error (" ++
                                code ++ ").")%string].
Proof.
  intros code.
  assert (H1 : st_user demo_store = Some demo_user) by reflexivity.
  assert (H2 : truthy (photoURL demo_user) = true) by reflexivity.
  assert (H3 : st_blobs demo_store !! ("profile_photos/" ++ uid demo_user)%string = Some demo_blob)
    by reflexivity.
  assert (H4 : file_rejection (JFile "new.png" "image/png" 2048) = None) by reflexivity.
  split_and!; [exact H1 | exact H2 | exact H3 | exact H4 |].
  exact (updateProfilePhoto_loses_old_photo demo_store [] 1700000000000 25 1 demo_user demo_blob
           "new.png" "image/png" 2048 code [] H1 H2 H3 H4).
Defined.

End userService.
