(* ===== verification/Subscription.v ===== *)
(** * [subscribeToUser] and the live profile

    [subscribeToUser] (lines 10-27 of [src/services/user_service.js],
    defined in [UserService.v]) registers a Firestore snapshot listener
    on the user's profile document and returns its unsubscribe handle.
    What the caller's [callback] receives is a function of the back
    ends: [callbacks v h] is the list of envelopes the listener [h] has
    delivered, each the image by [snapshot_handler] (lines 15-25) of an
    event recorded in [Store].

    The theorems after the Section hold for a write by any client, and
    along [rtc store_step] (whatever any client of the back ends does
    after the subscription): one envelope per change of the document,
    the data or ['Usuario no encontrado'] (lines 16-20), and after a
    listener error its envelope ['Error al obtener datos'] (line 24)
    and nothing more. *)

From S2P Require Import Prelude JsValue IsoDate Store Env FirebaseModel UserService.
Import userService.

(** What the caller's [callback] of [subscribeToUser] has received
    through the listener [h], in order. *)
Definition callbacks (v : Store) (h : nat) : list envelope :=
  match st_listeners v !! h with
  | Some l => map (fun ev => (snapshot_handler ev).2) (l_events l)
  | None => []
  end.

(** [callbacks] through the events of the listener. *)
Lemma callbacks_events v h evs :
  l_events <$> st_listeners v !! h = Some evs ->
  callbacks v h = map (fun ev => (snapshot_handler ev).2) evs.
Proof. unfold callbacks. destruct (st_listeners v !! h); by intros [= ->]. Qed.

Section Proofs.
Context {St : Type} {Ops : EnvOps St} {OkE : EnvOk St}.

(** *** [subscribeToUser] and its listener *)

(** C18: signed in, [subscribeToUser] registers a listener on the user's
    profile document under a fresh handle, and the caller's callback
    has received the document's current snapshot. *)
Theorem subscribeToUser_registers (s : St) u :
  quiet s -> st_user (view s) = Some u ->
  exists s' h, subscribeToUser s = (s', Ok (Some h)) /\ st_listeners (view s) !! h = None /\
    view s' = store_listen (view s) ("users", uid u) h /\
    callbacks (view s') h = [(snapshot_handler (SnapDoc (st_docs (view s) !! ("users", uid u)))).2].
Proof.
  intros Hq Hu. unfold subscribeToUser. unfold_calls. simpl. users.
  env_step; [|no_throw; eauto]. flatten.
  eexists _, _. split_and!; [reflexivity | done | done |].
  unfold callbacks. views. simpl. by rewrite lookup_insert_eq.
Qed.
End Proofs.

(** C19: after a write of [od] to [r] by any client, the callback given
    to [subscribeToUser] receives, through the listener [h], exactly one
    new envelope when [h] is active on [r] and the document's content
    changed: [{success: true, data}] for a document and
    [{success: false, error: 'Usuario no encontrado'}] for a deleted one
    (lines 16-20); and nothing otherwise. *)
Theorem callbacks_put_doc v r od h l :
  st_listeners v !! h = Some l ->
  callbacks (store_put_doc v r od) h =
    callbacks v h ++
    (if l_active l && bool_decide (l_ref l = r) && bool_decide (st_docs v !! r <> od)
     then [match od with Some d => EnvData d | None => EnvError "Usuario no encontrado" end]
     else []).
Proof.
  intros Hl. rewrite (callbacks_events v h (l_events l)) by by rewrite Hl.
  erewrite callbacks_events by (apply put_doc_events; exact Hl).
  rewrite map_app. case_match; [by destruct od | done].
Qed.

(** Along any sequence of changes by any client, an inactive listener
    receives nothing more. *)
Lemma rtc_store_step_inactive v v' h l :
  rtc store_step v v' -> st_listeners v !! h = Some l -> l_active l = false ->
  st_listeners v' !! h = Some l.
Proof. induction 1; eauto using store_step_inactive. Qed.

(** C20: a listener error reaches the caller's callback as the failure
    envelope [Error al obtener datos], once, and ends the subscription:
    nothing reaches it afterwards. *)
Theorem callbacks_after_error v h l e v' :
  st_listeners v !! h = Some l -> l_active l = true ->
  rtc store_step (store_listener_error v h e) v' ->
  callbacks v' h = callbacks v h ++ [EnvError "Error al obtener datos"].
Proof.
  intros Hl Ha Hsteps. unfold callbacks.
  rewrite (rtc_store_step_inactive _ _ h
             (mk_listener (l_ref l) false (l_events l ++ [SnapErr e])) Hsteps).
  - rewrite Hl. simpl. by rewrite map_app.
  - unfold store_listener_error; simpl. by rewrite lookup_alter_eq, Hl; simpl; rewrite Ha.
  - done.
Qed.

(** ** Witnesses on the executable model *)

Lemma subscribeToUser_registers_witness :
  quiet (demo_world []) /\ st_user (view (demo_world [])) = Some demo_user /\
  exists s' h, subscribeToUser (demo_world []) = (s', Ok (Some h)) /\
    st_listeners (view (demo_world [])) !! h = None /\
    view s' = store_listen (view (demo_world [])) ("users", uid demo_user) h /\
    callbacks (view s') h =
      [(snapshot_handler (SnapDoc (st_docs (view (demo_world [])) !! ("users", uid demo_user)))).2].
Proof. discharge. apply subscribeToUser_registers; reflexivity. Defined.

(** The store after [subscribeToUser] on [demo_world], and its
    listener. *)
Definition demo_listener : Listener :=
  mk_listener ("users", demo_uid) true [SnapDoc (Some demo_doc)].
Definition demo_subscribed : Store := store_listen demo_store ("users", demo_uid) 0.

(** Another client deletes the demo profile: the subscriber is told
    [Usuario no encontrado]. *)
Lemma callbacks_put_doc_witness :
  let od : option Fields := None in
  st_listeners demo_subscribed !! 0 = Some demo_listener /\
  callbacks (store_put_doc demo_subscribed ("users", demo_uid) od) 0 =
    callbacks demo_subscribed 0 ++
    (if l_active demo_listener && bool_decide (l_ref demo_listener = ("users", demo_uid)) &&
        bool_decide (st_docs demo_subscribed !! ("users", demo_uid) <> od)
     then [match od with Some d => EnvData d | None => EnvError "Usuario no encontrado" end]
     else []).
Proof. intros od. split; [reflexivity | apply callbacks_put_doc; reflexivity]. Defined.

Lemma callbacks_after_error_witness :
  let e := firebase_error "permission-denied" in
  let v' := store_put_doc (store_listener_error demo_subscribed 0 e) ("users", demo_uid) None in
  st_listeners demo_subscribed !! 0 = Some demo_listener /\ l_active demo_listener = true /\
  rtc store_step (store_listener_error demo_subscribed 0 e) v' /\
  callbacks v' 0 = callbacks demo_subscribed 0 ++ [EnvError "Error al obtener datos"].
Proof.
  intros e v'.
  assert (Hs : rtc store_step (store_listener_error demo_subscribed 0 e) v')
    by exact (rtc_l _ _ _ _ (step_put_doc _ _ _) (rtc_refl _ _)).
  split_and!; [reflexivity | reflexivity | exact Hs |].
  apply (callbacks_after_error _ _ demo_listener e); [reflexivity | reflexivity | exact Hs].
Defined.
