(* ===== verification/Gateway.v ===== *)
(** * The gateway's contract and its refinement

    Spec section 4.1 describes [userService] ("UserProfileGateway") as a
    facade whose operations each end in one envelope, with the effects
    the spec lists: a read returns the stored document or the generic
    failure; a profile update merges the five fields and a timestamp,
    then sets the display name, and may fail before, between or after
    its two writes; a photo update either publishes a new photo of the
    user or fails, a rejected file before any effect; a reset request
    sends the mail or fails.

    [gateway_spec] states that contract as a relation between a request,
    the back ends before, the envelope and the back ends after, without
    the calls, logs and intermediate states of the code. [serve_refines]
    shows that every run of the methods of [UserService.v], against any
    SDK that meets [EnvOk], is a step of [gateway_spec]; the per-method
    refinement lemmas are what [Composition.v] builds on. *)

From S2P Require Import Prelude JsValue IsoDate Store Env FirebaseModel UserService.
Import userService.

(** ** Requests and the contract *)

Inductive request :=
| ReqGetUserData
| ReqUpdateUserProfile (userData : jsval)
| ReqUpdateProfilePhoto (file : jsval)
| ReqSendPasswordResetEmail (email : jsval).

Section Serve.
Context {St : Type} `{EnvOps St}.

(** The method of [userService] that answers a request. *)
Definition serve (q : request) : ST St exn envelope :=
  match q with
  | ReqGetUserData => getUserData
  | ReqUpdateUserProfile userData => updateUserProfile userData
  | ReqUpdateProfilePhoto file => updateProfilePhoto file
  | ReqSendPasswordResetEmail email => sendPasswordResetEmail email
  end.
End Serve.

(** The merge of the photo's URL and a timestamp into a document. *)
Definition photo_fields (url iso : string) : list (string * jsval) :=
  [("photoURL", JStr url); ("updated_at", JStr iso)].

Inductive gateway_spec : request -> Store -> envelope -> Store -> Prop :=
| gs_read_found v u d :
    st_user v = Some u -> st_docs v !! ("users", uid u) = Some d ->
    gateway_spec ReqGetUserData v (EnvData d) v
| gs_read_failed v :
    gateway_spec ReqGetUserData v (EnvError "Error al obtener datos del usuario") v
| gs_profile_updated v u userData n w x t p iso :
    st_user v = Some u -> is_Some (st_docs v !! ("users", uid u)) ->
    reads_profile userData n w x t p -> forallb firestore_value_ok [n; w; x; t; p] = true ->
    is_iso iso ->
    gateway_spec (ReqUpdateUserProfile userData) v
      (EnvMessage "Perfil actualizado correctamente")
      (store_update_profile (store_update_doc v ("users", uid u) (profile_update n w x t p iso))
                            (Some u) (mk_profile_update n JUndefined))
| gs_profile_half_written v u userData n w x t p iso :
    st_user v = Some u -> is_Some (st_docs v !! ("users", uid u)) ->
    reads_profile userData n w x t p -> forallb firestore_value_ok [n; w; x; t; p] = true ->
    is_iso iso ->
    gateway_spec (ReqUpdateUserProfile userData) v (EnvError "Error al actualizar el perfil")
      (store_update_doc v ("users", uid u) (profile_update n w x t p iso))
| gs_profile_failed v userData :
    gateway_spec (ReqUpdateUserProfile userData) v (EnvError "Error al actualizar el perfil") v
| gs_photo_rejected v file msg :
    file_rejection file = Some msg ->
    gateway_spec (ReqUpdateProfilePhoto file) v (EnvError "Error al actualizar la foto de perfil") v
| gs_photo_published v v' u file url d iso :
    st_user v = Some u -> file_rejection file = None ->
    st_docs v !! ("users", uid u) = Some d -> is_iso iso ->
    st_docs v' = <[("users", uid u) := merge_fields d (photo_fields url iso)]> (st_docs v) ->
    photo_published v' u url file -> touches_only u v v' ->
    gateway_spec (ReqUpdateProfilePhoto file) v (EnvPhoto url) v'
| gs_photo_failed v v' file :
    (v' = v \/ exists u, st_user v = Some u /\ touches_only u v v') ->
    st_docs v' = st_docs v ->
    gateway_spec (ReqUpdateProfilePhoto file) v (EnvError "Error al actualizar la foto de perfil") v'
| gs_reset_sent v email :
    gateway_spec (ReqSendPasswordResetEmail email) v
      (EnvMessage "Se ha enviado un correo para restablecer la contraseña")
      (store_send_mail v email)
| gs_reset_failed v email :
    gateway_spec (ReqSendPasswordResetEmail email) v
      (EnvError "Error al enviar el correo de restablecimiento") v.

(** ** The methods refine the contract *)

Section Refinement.
Context {St : Type} {Ops : EnvOps St} {OkE : EnvOk St}.

(** The conclusion of each refinement lemma: the method returns, and
    its run is a step of the contract. *)
Definition refines (q : request) (m : ST St exn envelope) (s : St) : Prop :=
  exists s' r, m s = (s', Ok r) /\ gateway_spec q (view s) r (view s').

Lemma getUserData_refines (s : St) : refines ReqGetUserData getUserData s.
Proof.
  unfold refines, getUserData. unfold_calls. run_all; eexists _, _; (split; [reflexivity|]);
    views; first [apply gs_read_failed | eapply gs_read_found; eauto].
Qed.

Lemma sendPasswordResetEmail_refines (s : St) email :
  refines (ReqSendPasswordResetEmail email) (sendPasswordResetEmail email) s.
Proof.
  unfold refines, sendPasswordResetEmail. unfold_calls. run_all;
    eexists _, _; (split; [reflexivity|]); views; constructor.
Qed.
(** The premises of a profile step, from the equations of the run. *)
Ltac profile_premises :=
  first [ eassumption
        | unfold reads_profile; split_and!; eassumption
        | eexists; split; eassumption
        | match goal with H : valid_update _ = true |- _ =>
            rewrite <- valid_profile_update in H; exact H end ].

Lemma updateUserProfile_refines (s : St) userData :
  refines (ReqUpdateUserProfile userData) (updateUserProfile userData) s.
Proof.
  unfold refines, updateUserProfile. unfold_calls. run_all; eexists _, _; (split; [reflexivity|]);
    views; first [ apply gs_profile_failed
                 | eapply gs_profile_updated; profile_premises
                 | eapply gs_profile_half_written; profile_premises ].
Qed.
(** A failed photo update: the [catch] block logs, and the store is
    the one the failed step left. *)
Ltac photo_failed :=
  unfold logError; env_step; eexists _, _; split; [reflexivity|];
  apply gs_photo_failed.

Lemma updateProfilePhoto_refines (s : St) file :
  refines (ReqUpdateProfilePhoto file) (updateProfilePhoto file) s.
Proof.
  unfold refines, updateProfilePhoto. cbv [try_catch bind].
  destruct (validate_photo_pure s file) as [[[]|e] E0]; rewrite E0;
    [|photo_failed; [left | ]; views; done].
  pose proof (validate_photo_passed _ _ _ E0) as Hok.
  destruct (st_user (view s)) as [u|] eqn:Hu.
  2: { unfold delete_old_photo. unfold_calls. rewrite Hu. simpl.
       photo_failed; [left | ]; views; done. }
  destruct (delete_old_photo_spec s u Hu) as (s1 & E1 & Hv1 & _). rewrite E1.
  assert (H1 : touches_only u (view s) (view s1))
    by (destruct Hv1 as [-> | ->]; eauto with frame).
  assert (Hu1 : st_user (view s1) = Some u) by (destruct Hv1 as [-> | ->]; done).
  assert (Hd1 : st_docs (view s1) = st_docs (view s)) by (destruct Hv1 as [-> | ->]; done).
  destruct (upload_new_photo_outcomes s1 file) as (s2 & [r|e] & E2 & Hf & Hr); rewrite E2.
  - destruct Hr as (u' & url & -> & Hu' & Hp & d & iso & Hd & Hiso & Hdocs).
    rewrite Hu1 in Hu'. simplify_eq.
    eexists _, _. split; [reflexivity|].
    apply (gs_photo_published _ _ u' file url d iso); try done.
    + by rewrite <- Hd1.
    + by rewrite Hdocs, Hd1.
    + etrans; [exact H1 | by apply Hf].
  - photo_failed; views; [right; exists u; split; [done | etrans; eauto] | congruence].
Qed.
End Refinement.

Section Claims.
Context {St : Type} {Ops : EnvOps St} {OkE : EnvOk St}.

Ltac by_request q :=
  destruct q; [ apply getUserData_refines | apply updateUserProfile_refines
              | apply updateProfilePhoto_refines | apply sendPasswordResetEmail_refines ].

(** C1: the methods of [userService] refine the contract of spec 4.1:
    against any SDK that meets [EnvOk], every request is answered (the
    method returns), and the envelope and the back ends it leaves are a
    step of [gateway_spec] from the back ends it started from. *)
Theorem serve_refines (s : St) q :
  exists s' r, serve q s = (s', Ok r) /\ gateway_spec q (view s) r (view s').
Proof. by_request q. Qed.
End Claims.

(** ** Witnesses on the executable model *)

Lemma serve_refines_witness :
  let w := demo_world [None; Some "storage/retry-limit-exceeded"] in
  let q := ReqUpdateProfilePhoto (JFile "new.png" "image/png" 2048) in
  exists s' r, serve q w = (s', Ok r) /\ gateway_spec q (view w) r (view s').
Proof. intros w q. exact (serve_refines w q). Defined.
