(* ===== verification/Composition.v ===== *)
(** * The methods composed with each other and with the subscription

    The methods of [userService] share the back ends: a profile written
    by [updateUserProfile] is what [getUserData] reads next, and what the
    listener registered by [subscribeToUser] delivers to its caller.
    The theorems here combine the refinement of [Gateway.v] (each run
    is a step of [gateway_spec]) with the listener model of [Store.v]
    and [Subscription.v]; they hold for every SDK that meets [EnvOk]. *)

From S2P Require Import Prelude JsValue IsoDate Store Env FirebaseModel UserService Subscription Gateway.
Import userService.

(** The envelope [updateUserProfile] returns when both writes succeeded
    (line 64). *)
Definition profile_saved : envelope := EnvMessage "Perfil actualizado correctamente".

(** The document [merge_fields] leaves, read at one of the five fields
    or the timestamp of [profile_update]. *)
Lemma profile_update_lookup d n w x t p iso :
  let d' := merge_fields d (profile_update n w x t p iso) in
  d' !! "nombre" = Some n /\ d' !! "wallet" = Some w /\ d' !! "sexo" = Some x /\
  d' !! "telefono" = Some t /\ d' !! "pais" = Some p /\ d' !! "updated_at" = Some (JStr iso).
Proof. simpl. by simplify_map_eq. Qed.

(** [reads_profile] names the values of the five properties. *)
Lemma reads_profile_fun userData n w x t p n' w' x' t' p' :
  reads_profile userData n w x t p -> reads_profile userData n' w' x' t' p' ->
  n = n' /\ w = w' /\ x = x' /\ t = t' /\ p = p'.
Proof. unfold reads_profile. intros (?&?&?&?&?) (?&?&?&?&?). split_and!; congruence. Qed.

Section Compose.
Context {St : Type} {Ops : EnvOps St} {OkE : EnvOk St}.

(** A reported profile update, as the contract describes it: the user
    and document before, the values read and the store after. *)
Lemma profile_updated_inv (s s' : St) userData :
  updateUserProfile userData s = (s', Ok profile_saved) ->
  exists u n w x t p iso, st_user (view s) = Some u /\
    is_Some (st_docs (view s) !! ("users", uid u)) /\ reads_profile userData n w x t p /\
    is_iso iso /\
    view s' = store_update_profile (store_update_doc (view s) ("users", uid u)
                                      (profile_update n w x t p iso))
                                   (Some u) (mk_profile_update n JUndefined).
Proof.
  intros E. destruct (updateUserProfile_refines s userData) as (s1 & r & E1 & Hs).
  rewrite E in E1. simplify_eq. inversion Hs; subst. eauto 20.
Qed.

(** C14: a subscriber sees a reported profile update: when
    [updateUserProfile] reports success, the user's profile document is
    the old one merged with the five values read from [userData] and a
    timestamp, and every active listener on it (the one
    [subscribeToUser] registers) has received that document, unless its
    content did not change, and nothing else. *)
Theorem updateUserProfile_notifies_subscriber (s s' : St) u h l userData n w x t p :
  st_user (view s) = Some u -> st_listeners (view s) !! h = Some l ->
  l_active l = true -> l_ref l = ("users", uid u) -> reads_profile userData n w x t p ->
  updateUserProfile userData s = (s', Ok profile_saved) ->
  exists d iso, st_docs (view s) !! ("users", uid u) = Some d /\ is_iso iso /\
    (let d' := merge_fields d (profile_update n w x t p iso) in
    st_docs (view s') !! ("users", uid u) = Some d' /\
    callbacks (view s') h = callbacks (view s) h ++ (if bool_decide (d = d') then [] else [EnvData d'])).
Proof.
  intros Hu Hl Ha Hr Hp E.
  destruct (profile_updated_inv s s' userData E)
    as (u' & n' & w' & x' & t' & p' & iso & Hu' & [d Hd] & Hp' & Hiso & Hv).
  destruct (reads_profile_fun _ _ _ _ _ _ _ _ _ _ _ Hp Hp') as (<- & <- & <- & <- & <-).
  rewrite Hu in Hu'. simplify_eq. exists d, iso. split_and!; [done | done |]. simpl.
  rewrite Hv, st_docs_update_profile, st_docs_update_doc_eq, Hd. split; [reflexivity|].
  rewrite (callbacks_events (view s) h (l_events l)) by by rewrite Hl.
  erewrite callbacks_events; [|rewrite st_listeners_update_profile; apply put_doc_events, Hl].
  rewrite Ha, Hr, Hd, map_app. f_equal. simpl.
  repeat case_bool_decide; try done; congruence.
Qed.

(** C15: read-your-writes across two methods: after a reported profile
    update, a successful [getUserData] returns a document that holds the
    five values [updateUserProfile] read from [userData] and an ISO
    timestamp, whatever the back ends did on the read. *)
Theorem getUserData_after_updateUserProfile (s s1 s2 : St) userData n w x t p d :
  reads_profile userData n w x t p ->
  updateUserProfile userData s = (s1, Ok profile_saved) ->
  getUserData s1 = (s2, Ok (EnvData d)) ->
  d !! "nombre" = Some n /\ d !! "wallet" = Some w /\ d !! "sexo" = Some x /\
  d !! "telefono" = Some t /\ d !! "pais" = Some p /\
  exists iso, is_iso iso /\ d !! "updated_at" = Some (JStr iso).
Proof.
  intros Hp E1 E2.
  destruct (profile_updated_inv s s1 userData E1)
    as (u & n' & w' & x' & t' & p' & iso & Hu & _ & Hp' & Hiso & Hv).
  destruct (reads_profile_fun _ _ _ _ _ _ _ _ _ _ _ Hp Hp') as (<- & <- & <- & <- & <-).
  destruct (getUserData_refines s1) as (s3 & r & E3 & Hs). rewrite E2 in E3. simplify_eq.
  inversion Hs as [v u1 d1 Hu1 Hd1| | | | | | | | |]; subst.
  pose proof (uid_update_profile (store_update_doc (view s) ("users", uid u) (profile_update n w x t p iso))
                (Some u) (mk_profile_update n JUndefined)) as Huid.
  rewrite <- Hv, Hu1, st_user_update_doc, Hu in Huid. simplify_eq.
  rewrite Hv, st_docs_update_profile, Huid, st_docs_update_doc_eq in Hd1. simplify_eq.
  destruct (profile_update_lookup (default ∅ (st_docs (view s) !! ("users", uid u))) n w x t p iso)
    as (?&?&?&?&?&?).
  split_and!; eauto.
Qed.
End Compose.

(** ** Witnesses on the executable model *)

(** The profile the demo user submits in the witnesses below. *)
Definition demo_userData : jsval :=
  JObj [("nombre", JStr "Bea"); ("wallet", JStr "0xab"); ("sexo", JStr "F");
        ("telefono", JStr "555"); ("pais", JStr "AR")].

(** A subscriber on the demo profile when the user saves it. *)
Lemma updateUserProfile_notifies_subscriber_witness :
  let w := with_store (demo_world []) demo_subscribed in
  let s' := (updateUserProfile demo_userData w).1 in
  st_listeners (view w) !! 0 = Some demo_listener /\
  reads_profile demo_userData (JStr "Bea") (JStr "0xab") (JStr "F") (JStr "555") (JStr "AR") /\
  updateUserProfile demo_userData w = (s', Ok profile_saved) /\
  exists d iso, st_docs (view w) !! ("users", demo_uid) = Some d /\ is_iso iso /\
    (let d' := merge_fields d (profile_update (JStr "Bea") (JStr "0xab") (JStr "F") (JStr "555")
                                (JStr "AR") iso) in
    st_docs (view s') !! ("users", demo_uid) = Some d' /\
    callbacks (view s') 0 = callbacks (view w) 0 ++ (if bool_decide (d = d') then [] else [EnvData d'])).
Proof.
  intros w s'.
  assert (Hp : reads_profile demo_userData (JStr "Bea") (JStr "0xab") (JStr "F") (JStr "555")
                 (JStr "AR")) by (unfold reads_profile; split_and!; reflexivity).
  assert (E : updateUserProfile demo_userData w
              = (s', Ok profile_saved)) by (vm_compute; reflexivity).
  split_and!; [reflexivity | exact Hp | exact E |].
  exact (updateUserProfile_notifies_subscriber w s' demo_user 0 demo_listener demo_userData
           _ _ _ _ _ eq_refl eq_refl eq_refl eq_refl Hp E).
Defined.

(** The demo user saves the profile and reads it back. *)
Lemma getUserData_after_updateUserProfile_witness :
  let w := demo_world [] in
  let s1 := (updateUserProfile demo_userData w).1 in
  let s2 := (getUserData s1).1 in
  let d := match (getUserData s1).2 with Ok (EnvData d) => d | _ => ∅ end in
  reads_profile demo_userData (JStr "Bea") (JStr "0xab") (JStr "F") (JStr "555") (JStr "AR") /\
  updateUserProfile demo_userData w = (s1, Ok profile_saved) /\
  getUserData s1 = (s2, Ok (EnvData d)) /\
  d !! "nombre" = Some (JStr "Bea") /\ d !! "wallet" = Some (JStr "0xab") /\
  d !! "sexo" = Some (JStr "F") /\ d !! "telefono" = Some (JStr "555") /\
  d !! "pais" = Some (JStr "AR") /\ exists iso, is_iso iso /\ d !! "updated_at" = Some (JStr iso).
Proof.
  intros w s1 s2 d.
  assert (Hp : reads_profile demo_userData (JStr "Bea") (JStr "0xab") (JStr "F") (JStr "555")
                 (JStr "AR")) by (unfold reads_profile; split_and!; reflexivity).
  assert (E1 : updateUserProfile demo_userData w
               = (s1, Ok profile_saved)) by (vm_compute; reflexivity).
  assert (E2 : getUserData s1 = (s2, Ok (EnvData d))) by (vm_compute; reflexivity).
  split_and!; [exact Hp | exact E1 | exact E2 |..];
    apply (getUserData_after_updateUserProfile w s1 s2 demo_userData _ _ _ _ _ d Hp E1 E2).
Defined.
