(* ===== verification/Referral.v ===== *)
(** * [userService.getReferrerName] (lines 139-154)

    The method returns a [Promise] whose executor subscribes to the
    referral statistics of the signed-in user through
    [referralService.getReferralStats(uid, callback)] (from
    [@/services/referral_service.js], not among the sources: modelled
    from the spec's contract, "subscribeToStats(uid, callback) ->
    unsubscribe"). The callback unsubscribes and resolves the promise
    with [referralInfo.referrer?.nombre || 'DinnerMax']; a synchronous
    exception resolves ['DinnerMax'].

    The state [RState] is what the method can change: the promise, the
    [const unsubscribe] binding (in its temporal dead zone until
    [getReferralStats] returns), whether the referral service still
    delivers to the callback, and the log. A [ReferralFeed] is one
    behaviour of the referral service for the call: whether it throws at
    once, the statistics it hands to the callback during the call
    (synchronously) and those it emits afterwards. [getReferrerName]
    runs the executor, then delivers the later emissions while the
    callback is subscribed; an exception thrown by the callback then is
    uncaught and leaves the promise as it is. *)

From S2P Require Import Prelude JsValue Store Env.

Module Referral.

Inductive promise :=
| Pending
| Fulfilled (v : jsval)
| Rejected (e : exn).

Record RState := mk_rstate {
  r_promise : promise;
  r_bound : bool;        (* [unsubscribe] initialised *)
  r_subscribed : bool;   (* the service still calls the callback *)
  r_logs : list LogLine
}.

Record ReferralFeed := mk_feed {
  rf_throws : option exn;
  rf_sync : list jsval;
  rf_async : list jsval
}.

Abbreviation R := (ST RState exn).

(** [resolve(v)]: only the first settlement counts. *)
Definition resolve (v : jsval) : R unit :=
  fun st => (mk_rstate (match r_promise st with Pending => Fulfilled v | p => p end)
                       (r_bound st) (r_subscribed st) (r_logs st), Ok tt).

Definition set_subscribed (b : bool) : R unit :=
  fun st => (mk_rstate (r_promise st) (r_bound st) b (r_logs st), Ok tt).

(** Reading [unsubscribe] and calling it. *)
Definition call_unsubscribe : R unit :=
  fun st => if r_bound st then set_subscribed false st
            else (st, Thrown (reference_error_tdz "unsubscribe")).

(** [const unsubscribe = ...] *)
Definition bind_unsubscribe : R unit :=
  fun st => (mk_rstate (r_promise st) true (r_subscribed st) (r_logs st), Ok tt).

Definition r_logError (msg : string) : R unit :=
  fun st => (mk_rstate (r_promise st) (r_bound st) (r_subscribed st)
                       (r_logs st ++ [(LError, msg)]), Ok tt).

(** The callback of lines 144-147. *)
Definition referral_callback (referralInfo : jsval) : R unit :=
  call_unsubscribe ;;
  let* referrer := lift (get_prop referralInfo "referrer") in
  let* nombre := lift (opt_get_prop referrer "nombre") in
  resolve (js_or nombre (JStr "DinnerMax")).

(** A delivery by the referral service: only while subscribed. *)
Definition deliver (cb : jsval -> R unit) (info : jsval) : R unit :=
  fun st => if r_subscribed st then cb info st else (st, Ok tt).

Fixpoint deliver_all (cb : jsval -> R unit) (infos : list jsval) : R unit :=
  match infos with
  | [] => ret tt
  | info :: infos' => deliver cb info ;; deliver_all cb infos'
  end.

(** [referralService.getReferralStats(uid, callback)], synchronous part. *)
Definition getReferralStats (feed : ReferralFeed) (uid : string)
           (cb : jsval -> R unit) : R unit :=
  match rf_throws feed with
  | Some e => throw e
  | None => set_subscribed true ;; deliver_all cb (rf_sync feed)
  end.

(** The executor, lines 141-152. *)
Definition executor (user : option User) (feed : ReferralFeed) : R unit :=
  try_catch
    (let* id := match user with
                | None => throw (type_error_reading "null" "uid")
                | Some u => ret (uid u)
                end in
     getReferralStats feed id referral_callback ;;
     bind_unsubscribe)
    (fun error =>
       r_logError "Error al obtener nombre del referidor:" ;;
       resolve (JStr "DinnerMax")).

(** Later emissions: each reaches the callback while it is subscribed;
    an exception it throws is uncaught and changes nothing more. *)
Fixpoint deliver_async (infos : list jsval) (st : RState) : RState :=
  match infos with
  | [] => st
  | info :: infos' =>
      if r_subscribed st then deliver_async infos' (fst (referral_callback info st))
      else st
  end.

(** [new Promise(executor)]: an exception escaping the executor rejects
    the promise. *)
Definition getReferrerName (user : option User) (feed : ReferralFeed) : RState :=
  let '(st, o) := executor user feed (mk_rstate Pending false false []) in
  let st' := match o with
             | Ok _ => st
             | Thrown e =>
                 mk_rstate (match r_promise st with Pending => Rejected e | p => p end)
                           (r_bound st) (r_subscribed st) (r_logs st)
             end in
  deliver_async (rf_async feed) st'.

(** ** What the spec promises *)

(** The name spec 8 expects for statistics [JObj ps]: the referrer's
    [nombre] when there is one, the brand ["DinnerMax"] otherwise. *)
Definition referrer_display (ps : list (string * jsval)) : jsval :=
  match assoc_lookup "referrer" ps with
  | Some (JObj qs) =>
      match assoc_lookup "nombre" qs with
      | Some n => if truthy n then n else JStr "DinnerMax"
      | None => JStr "DinnerMax"
      end
  | _ => JStr "DinnerMax"
  end.

Definition no_reject (st : RState) : Prop := forall e, r_promise st <> Rejected e.

(** ** Lemmas *)

Lemma resolve_no_reject v st : no_reject st -> no_reject (fst (resolve v st)).
Proof. intros H e. simpl. destruct (r_promise st) eqn:E; try done. exfalso. eapply H, E. Qed.

Lemma referral_callback_no_reject info st :
  no_reject st -> no_reject (fst (referral_callback info st)).
Proof.
  intros H. unfold referral_callback, call_unsubscribe. st_unfold.
  destruct (r_bound st); [|done]. simpl.
  destruct (get_prop info "referrer"); simpl; [|done].
  destruct (opt_get_prop a "nombre"); simpl; [|done].
  intros e. destruct (r_promise st) eqn:E; try done. exfalso. eapply H, E.
Qed.

Lemma deliver_all_no_reject infos st :
  no_reject st -> no_reject (fst (deliver_all referral_callback infos st)).
Proof.
  revert st. induction infos as [|info infos IH]; intros st H; [done|].
  simpl. st_unfold. unfold deliver.
  destruct (r_subscribed st).
  - pose proof (referral_callback_no_reject info st H) as H1.
    destruct (referral_callback info st) as [st1 [[]|e]]; simpl in *; [by apply IH | done].
  - by apply IH.
Qed.

(** The executor never lets an exception escape, and never rejects. *)
Lemma executor_ok user feed st :
  no_reject st ->
  exists st', executor user feed st = (st', Ok tt) /\ no_reject st'.
Proof.
  intros H. unfold executor, getReferralStats, r_logError. st_unfold.
  destruct user as [u|]; simpl.
  - destruct (rf_throws feed) as [e|]; simpl.
    + eexists; split; [reflexivity|]. by apply (resolve_no_reject _ (mk_rstate _ _ _ _)).
    + pose proof (deliver_all_no_reject (rf_sync feed)
                    (mk_rstate (r_promise st) (r_bound st) true (r_logs st)) H) as H1.
      destruct (deliver_all _ _ _) as [st1 [[]|e]]; simpl in *.
      * eexists; split; [reflexivity|]. done.
      * eexists; split; [reflexivity|]. by apply (resolve_no_reject _ (mk_rstate _ _ _ _)).
  - eexists; split; [reflexivity|]. by apply (resolve_no_reject _ (mk_rstate _ _ _ _)).
Qed.

Lemma deliver_async_no_reject infos st :
  no_reject st -> no_reject (deliver_async infos st).
Proof.
  revert st. induction infos as [|info infos IH]; intros st H; simpl; [done|].
  destruct (r_subscribed st); [|done]. apply IH, referral_callback_no_reject, H.
Qed.

(** With [unsubscribe] still in its dead zone, every later emission
    throws in the callback and changes nothing. *)
Lemma deliver_async_unbound infos st :
  r_bound st = false -> deliver_async infos st = st.
Proof.
  intros Hb. induction infos as [|info infos IH]; simpl; [done|].
  destruct (r_subscribed st); [|done].
  unfold referral_callback, call_unsubscribe. st_unfold. by rewrite Hb.
Qed.

Lemma deliver_async_unsubscribed infos st :
  r_subscribed st = false -> deliver_async infos st = st.
Proof. intros Hs. destruct infos; simpl; [done|]. by rewrite Hs. Qed.

Ltac ref_unfold :=
  do 2 (unfold getReferrerName, executor, getReferralStats, referral_callback, deliver_all,
          deliver, call_unsubscribe, set_subscribed, bind_unsubscribe, resolve, r_logError in *;
        st_unfold; simpl).

(** ** Theorems *)

(** C23: the promise of [getReferrerName] is never rejected, whatever the
    signed-in state and whatever the referral service does. *)
Theorem getReferrerName_never_rejects user feed e :
  r_promise (getReferrerName user feed) <> Rejected e.
Proof.
  unfold getReferrerName.
  destruct (executor_ok user feed (mk_rstate Pending false false [])) as (st & -> & H);
    [by intros ?|].
  by apply deliver_async_no_reject.
Qed.

(** C24: when the referral service emits its first statistics after the
    call returns, the promise resolves the referrer's name, or
    ["DinnerMax"] when there is no referrer, and the subscription is
    cancelled, so later emissions change nothing. *)
Theorem getReferrerName_first_emission u ps rest :
  let st := getReferrerName (Some u) (mk_feed None [] (JObj ps :: rest)) in
  r_promise st = Fulfilled (referrer_display ps) /\ r_subscribed st = false.
Proof.
  intros st. unfold st, referrer_display. ref_unfold.
  destruct (assoc_lookup "referrer" ps) as [[| | ? | ? | ? | ? ? ? | qs] |]; simpl;
    rewrite ?deliver_async_unsubscribed by done; try done.
  destruct (assoc_lookup "nombre" qs) as [n|]; simpl;
    rewrite ?deliver_async_unsubscribed by done; [|done].
  unfold js_or. by destruct (truthy n).
Qed.

(** C25: if the referral service calls the callback during
    [getReferralStats] (before it returns), the callback reads
    [unsubscribe] in its temporal dead zone: the promise resolves
    ["DinnerMax"] whatever the statistics say, and the subscription is
    never cancelled. *)
Theorem getReferrerName_sync_emission u info sync' later :
  let st := getReferrerName (Some u) (mk_feed None (info :: sync') later) in
  r_promise st = Fulfilled (JStr "DinnerMax") /\ r_subscribed st = true /\ r_bound st = false.
Proof.
  intros st. unfold st. ref_unfold. by rewrite deliver_async_unbound.
Qed.

(** C26: statistics of [null] or [undefined] as the first emission make
    the callback throw after it has unsubscribed: the promise stays
    pending for ever. *)
Theorem getReferrerName_nullish_emission u info rest :
  info = JNull \/ info = JUndefined ->
  let st := getReferrerName (Some u) (mk_feed None [] (info :: rest)) in
  r_promise st = Pending /\ r_subscribed st = false.
Proof.
  intros Hi st. unfold st. ref_unfold.
  destruct Hi as [-> | ->]; simpl; by rewrite deliver_async_unsubscribed.
Qed.

(** C27: signed out, [auth.currentUser.uid] throws inside the executor:
    the promise resolves ["DinnerMax"], the error is logged and nothing
    is subscribed. *)
Theorem getReferrerName_signed_out feed :
  let st := getReferrerName None feed in
  r_promise st = Fulfilled (JStr "DinnerMax") /\ r_subscribed st = false /\
  r_logs st = [(LError, "Error al obtener nombre del referidor:")].
Proof. intros st. unfold st. ref_unfold. by rewrite deliver_async_unsubscribed. Qed.

(** C28: when [getReferralStats] itself throws, the executor's [catch]
    resolves ["DinnerMax"] and logs the failure; no statistics ever
    reach the callback. *)
Theorem getReferrerName_service_throws u e sync later :
  let st := getReferrerName (Some u) (mk_feed (Some e) sync later) in
  r_promise st = Fulfilled (JStr "DinnerMax") /\ r_subscribed st = false /\
  r_logs st = [(LError, "Error al obtener nombre del referidor:")].
Proof. intros st. unfold st. ref_unfold. by rewrite deliver_async_unsubscribed. Qed.

(** C29: the subscription [getReferrerName] opens ends with the first
    emission after the call returns, whatever that emission holds (the
    callback unsubscribes before it reads it, so this holds even when
    the read then throws): no later emission reaches the callback. *)
Theorem getReferrerName_releases_subscription u info rest :
  let st := getReferrerName (Some u) (mk_feed None [] (info :: rest)) in
  r_subscribed st = false /\
  st = fst (referral_callback info (mk_rstate Pending true true [])).
Proof.
  intros st. unfold st, getReferrerName, executor, getReferralStats. st_unfold. simpl.
  unfold set_subscribed, bind_unsubscribe. simpl.
  unfold referral_callback, call_unsubscribe, set_subscribed. st_unfold. simpl.
  destruct (get_prop info "referrer") as [r|]; simpl;
    [destruct (opt_get_prop r "nombre"); simpl|];
    by rewrite deliver_async_unsubscribed.
Qed.

(** ** Witness *)

Lemma getReferrerName_nullish_emission_witness :
  let u := mk_user "u1" JNull JNull in
  (JNull = JNull \/ JNull = JUndefined) /\
  r_promise (getReferrerName (Some u) (mk_feed None [] [JNull])) = Pending /\
  r_subscribed (getReferrerName (Some u) (mk_feed None [] [JNull])) = false.
Proof.
  intros u. split; [left; reflexivity|].
  exact (getReferrerName_nullish_emission u JNull [] (or_introl eq_refl)).
Defined.

End Referral.
