(* ===== verification/Interleaving.v ===== *)
(** * Other events between two [await]s

    Each [await] of [userService] gives the event loop back: while a
    call to a back end is pending, other code runs. An account can sign
    in or out (in this tab or, through the shared persistence, in
    another one) and other clients can write. The contract [EnvOk] of
    [Env.v] has each call see the store the previous call left; this
    file drops that assumption.

    [IWorld] is the model of [FirebaseModel.v] with a schedule of
    events: the [k]-th call to the SDK consumes the [k]-th entry and,
    when it is [Some e], the event [e] happens while that call is
    pending, after its own effect. Reads of [auth.currentUser] after
    the [await] see it.

    The theorems are over every store, users and file: an account
    change during an [await] makes [updateProfilePhoto] and
    [updateUserProfile] write the first user's data into the second
    user's profile, and a sign-out after the deletion loses the photo,
    because the methods read [auth.currentUser] again after each
    [await] instead of keeping the user they started with. They are
    proved by running the methods symbolically ([fb_eval_with]). The
    file also holds the witness that [userService.methods_never_throw]
    (in any environment whose logger returns, the four [async] methods
    resolve an envelope) applies here, whatever the schedule. *)

From S2P Require Import Prelude JsValue IsoDate Store Env FirebaseModel UserService.

(** ** Events of the rest of the application *)

Inductive event :=
| SignIn (u : User)
| SignOut
| OtherWrite (r : DocRef) (od : option Fields).

Definition set_user (v : Store) (ou : option User) : Store :=
  mk_store ou (st_docs v) (st_blobs v) (st_mail v) (st_listeners v).

Definition apply_event (v : Store) (e : event) : Store :=
  match e with
  | SignIn u => set_user v (Some u)
  | SignOut => set_user v None
  | OtherWrite r od => store_put_doc v r od
  end.

Record IWorld := mk_iworld { iw_world : World; iw_events : list (option event) }.

(** An SDK call during which the next scheduled event happens. *)
Definition during {A} (m : ST World exn A) : ST IWorld exn A :=
  fun iw =>
    let '(w', o) := m (iw_world iw) in
    match iw_events iw with
    | [] => (mk_iworld w' [], o)
    | oe :: rest =>
        (mk_iworld (with_store w' (default (w_store w') (apply_event (w_store w') <$> oe))) rest, o)
    end.

(** The clock, the logger, and the registration and removal of a
    snapshot listener run synchronously. *)
Definition local {A} (m : ST World exn A) : ST IWorld exn A :=
  fun iw => let '(w', o) := m (iw_world iw) in (mk_iworld w' (iw_events iw), o).

#[export] Instance interleaved_env : EnvOps IWorld := {|
  view iw := w_store (iw_world iw);
  logs iw := w_logs (iw_world iw);
  quiet iw := no_faults (iw_world iw) /\ iw_events iw = [];
  now := local fb_now;
  log lvl msg := local (fb_log lvl msg);
  getDoc r := during (fb_getDoc r);
  updateDoc r upd := during (fb_updateDoc r upd);
  updateProfile ou pu := during (fb_updateProfile ou pu);
  sendPasswordResetEmail e := during (fb_sendPasswordResetEmail e);
  deleteObject k := during (fb_deleteObject k);
  uploadBytes k d m := during (fb_uploadBytes k d m);
  getDownloadURL k := during (fb_getDownloadURL k);
  onSnapshot r := local (fb_onSnapshot r);
  unsubscribe h := local (fb_unsubscribe h)
|}.

Import userService.

(** ** Runs with an account change during an [await] *)

Definition user_b : User := mk_user "u2" (JStr "Beto") JNull.
Definition doc_b : Fields := <["nombre" := JStr "Beto"]> ∅.

(** [demo_store] with a second account and its profile document. *)
Definition store_ab : Store :=
  mk_store (Some demo_user)
    {[("users", demo_uid) := demo_doc; ("users", uid user_b) := doc_b]}
    {["profile_photos/u1" := demo_blob]} [] ∅.

Definition iworld (events : list (option event)) : IWorld :=
  mk_iworld (with_store (demo_world []) store_ab) events.

(** C32: [updateProfilePhoto] reads [auth.currentUser] again after the
    upload (lines 99, 107 and 108): from any store in which the
    signed-in user [a] has a photo and another account [b] has a
    profile document, when [b] signs in while [getDownloadURL] is
    pending (the third call), the method reports success with the URL
    of [a]'s new photo, but writes it into [b]'s Auth profile and [b]'s
    document, and leaves [a]'s document as it was. *)
Theorem updateProfilePhoto_account_switch (v : Store) lg ck lat tok a b pa da db name t sz :
  st_user v = Some a -> truthy (photoURL a) = true ->
  st_blobs v !! ("profile_photos/" ++ uid a)%string = Some pa ->
  st_docs v !! ("users", uid a) = Some da -> st_docs v !! ("users", uid b) = Some db ->
  uid a <> uid b -> file_rejection (JFile name t sz) = None ->
  let url := download_url ("profile_photos/" ++ uid a) tok in
  exists iw', updateProfilePhoto (JFile name t sz)
                (mk_iworld (mk_world v lg ck lat [] tok) [None; None; Some (SignIn b)])
              = (iw', Ok (EnvPhoto url)) /\
    st_user (view iw') = Some (mk_user (uid b) (displayName b) (JStr url)) /\
    st_docs (view iw') !! ("users", uid b) ≫= (.!! "photoURL") = Some (JStr url) /\
    st_docs (view iw') !! ("users", uid a) = Some da.
Proof.
  intros Hu Hp Hb Hda Hdb Hab Hf url.
  unfold updateProfilePhoto. cbv [try_catch bind]. rewrite (validate_photo_accepts _ name t sz Hf).
  unfold delete_old_photo, upload_new_photo. unfold_calls.
  fb_eval_with ltac:(cbv [during local apply_event set_user]).
  eexists. split_and!; [reflexivity | reflexivity | |].
  - cbn. rewrite lookup_partial_alter_eq. cbn. by simplify_map_eq.
  - cbn. rewrite lookup_partial_alter_ne by congruence. exact Hda.
Qed.

(** C33: in the same way, [updateUserProfile] reads
    [auth.currentUser] again for [updateProfile] (line 59): when another
    account [b] signs in while the profile document of [a] is being
    written, the method reports success, [a]'s document holds the new
    profile, and [b]'s Auth profile gets [a]'s new display name. *)
Theorem updateUserProfile_account_switch (v : Store) lg ck lat tok a b da userData n w x t p :
  st_user v = Some a -> st_docs v !! ("users", uid a) = Some da ->
  reads_profile userData n w x t p -> forallb firestore_value_ok [n; w; x; t; p] = true ->
  exists iw' iso, updateUserProfile userData
                    (mk_iworld (mk_world v lg ck lat [] tok) [Some (SignIn b)])
                  = (iw', Ok (EnvMessage "Perfil actualizado correctamente")) /\
    st_user (view iw') = Some (mk_user (uid b) (keep_or (displayName b) n) (photoURL b)) /\
    st_docs (view iw') !! ("users", uid a) = Some (merge_fields da (profile_update n w x t p iso)).
Proof.
  intros Hu Hda (Hn & Hw & Hx & Ht & Hp) Hok. cbn in Hok.
  assert (Hnu : is_undefined n = false) by (destruct n; cbn in *; congruence).
  unfold updateUserProfile. unfold_calls. cbv [try_catch bind].
  fb_eval_with ltac:(cbv [during local apply_event set_user]).
  eexists _, _. split_and!; [reflexivity | reflexivity | cbn; rewrite lookup_partial_alter_eq; reflexivity].
Qed.

(** C34: a sign-out while the old photo is being deleted makes the read
    of [auth.currentUser.uid] on line 95 throw: from any store in which
    the signed-in user has a photo, the method fails after the
    deletion, the photo object is gone, and the log holds the deletion
    and V8's [TypeError]. *)
Theorem updateProfilePhoto_signout_after_delete (v : Store) lg ck lat tok a pa name t sz :
  st_user v = Some a -> truthy (photoURL a) = true ->
  st_blobs v !! ("profile_photos/" ++ uid a)%string = Some pa ->
  file_rejection (JFile name t sz) = None ->
  exists iw', updateProfilePhoto (JFile name t sz)
                (mk_iworld (mk_world v lg ck lat [] tok) [Some SignOut])
              = (iw', Ok (EnvError "Error al actualizar la foto de perfil")) /\
    st_blobs (view iw') !! ("profile_photos/" ++ uid a)%string = None /\
    logs iw' = lg ++ [(LInfo, "Foto anterior eliminada correctamente");
                      (LError, "Error al actualizar foto de perfil: " ++
                               "Cannot read properties of null (reading 'uid')")%string].
Proof.
  intros Hu Hp Hb Hf.
  unfold updateProfilePhoto. cbv [try_catch bind]. rewrite (validate_photo_accepts _ name t sz Hf).
  unfold delete_old_photo, upload_new_photo. unfold_calls.
  fb_eval_with ltac:(cbv [during local apply_event set_user]).
  eexists. split_and!; [reflexivity | apply lookup_delete_eq | cbn; rewrite <- app_assoc; reflexivity].
Qed.

(** The interleaved model's logger returns, so [methods_never_throw]
    applies to it, here with an account change during the first call. *)
Lemma methods_never_throw_witness :
  let w := iworld [Some (SignIn user_b); Some SignOut] in
  let file := JFile "new.png" "image/png" 2048 in
  let userData := JObj [("nombre", JStr "Bea")] in
  (forall lvl msg s, (@log IWorld interleaved_env lvl msg s).2 = Ok tt) /\
  (exists s' r, getUserData w = (s', Ok r)) /\
  (exists s' r, updateUserProfile userData w = (s', Ok r)) /\
  (exists s' r, updateProfilePhoto file w = (s', Ok r)) /\
  (exists s' r, sendPasswordResetEmail (JStr "ana@example.com") w = (s', Ok r)).
Proof.
  intros w file userData.
  assert (Hlog : forall lvl msg s, (@log IWorld interleaved_env lvl msg s).2 = Ok tt)
    by (intros; reflexivity).
  split; [exact Hlog | exact (methods_never_throw Hlog w file userData (JStr "ana@example.com"))].
Defined.

(** The three theorems on the fixture with the demo user and [user_b]. *)
Lemma updateProfilePhoto_account_switch_witness :
  let file := JFile "new.png" "image/png" 2048 in
  let url := download_url ("profile_photos/" ++ uid demo_user) 1 in
  st_user store_ab = Some demo_user /\ truthy (photoURL demo_user) = true /\
  st_blobs store_ab !! ("profile_photos/" ++ uid demo_user)%string = Some demo_blob /\
  st_docs store_ab !! ("users", uid demo_user) = Some demo_doc /\
  st_docs store_ab !! ("users", uid user_b) = Some doc_b /\ uid demo_user <> uid user_b /\
  file_rejection file = None /\
  exists iw', updateProfilePhoto file
                (mk_iworld (mk_world store_ab [] 1700000000000 25 [] 1) [None; None; Some (SignIn user_b)])
              = (iw', Ok (EnvPhoto url)) /\
    st_user (view iw') = Some (mk_user (uid user_b) (displayName user_b) (JStr url)) /\
    st_docs (view iw') !! ("users", uid user_b) ≫= (.!! "photoURL") = Some (JStr url) /\
    st_docs (view iw') !! ("users", uid demo_user) = Some demo_doc.
Proof.
  intros file url.
  assert (H1 : st_user store_ab = Some demo_user) by reflexivity.
  assert (H2 : truthy (photoURL demo_user) = true) by reflexivity.
  assert (H3 : st_blobs store_ab !! ("profile_photos/" ++ uid demo_user)%string = Some demo_blob)
    by reflexivity.
  assert (H4 : st_docs store_ab !! ("users", uid demo_user) = Some demo_doc) by reflexivity.
  assert (H5 : st_docs store_ab !! ("users", uid user_b) = Some doc_b) by reflexivity.
  assert (H6 : uid demo_user <> uid user_b) by discriminate.
  assert (H7 : file_rejection file = None) by reflexivity.
  split_and!; try assumption.
  exact (updateProfilePhoto_account_switch store_ab [] 1700000000000 25 1 demo_user user_b
           demo_blob demo_doc doc_b "new.png" "image/png" 2048 H1 H2 H3 H4 H5 H6 H7).
Defined.

Lemma updateUserProfile_account_switch_witness :
  let userData := JObj [("nombre", JStr "Bea"); ("wallet", JStr "0xab"); ("sexo", JStr "F");
                        ("telefono", JStr "555"); ("pais", JStr "AR")] in
  st_user store_ab = Some demo_user /\ st_docs store_ab !! ("users", uid demo_user) = Some demo_doc /\
  reads_profile userData (JStr "Bea") (JStr "0xab") (JStr "F") (JStr "555") (JStr "AR") /\
  forallb firestore_value_ok [JStr "Bea"; JStr "0xab"; JStr "F"; JStr "555"; JStr "AR"] = true /\
  exists iw' iso, updateUserProfile userData
                    (mk_iworld (mk_world store_ab [] 1700000000000 25 [] 1) [Some (SignIn user_b)])
                  = (iw', Ok (EnvMessage "Perfil actualizado correctamente")) /\
    st_user (view iw') = Some (mk_user (uid user_b) (keep_or (displayName user_b) (JStr "Bea"))
                                       (photoURL user_b)) /\
    st_docs (view iw') !! ("users", uid demo_user)
      = Some (merge_fields demo_doc (profile_update (JStr "Bea") (JStr "0xab") (JStr "F")
                                       (JStr "555") (JStr "AR") iso)).
Proof.
  intros userData.
  assert (H1 : st_user store_ab = Some demo_user) by reflexivity.
  assert (H2 : st_docs store_ab !! ("users", uid demo_user) = Some demo_doc) by reflexivity.
  assert (H3 : reads_profile userData (JStr "Bea") (JStr "0xab") (JStr "F") (JStr "555") (JStr "AR"))
    by (unfold reads_profile; split_and!; reflexivity).
  assert (H4 : forallb firestore_value_ok [JStr "Bea"; JStr "0xab"; JStr "F"; JStr "555"; JStr "AR"]
               = true) by reflexivity.
  split_and!; try assumption.
  exact (updateUserProfile_account_switch store_ab [] 1700000000000 25 1 demo_user user_b demo_doc
           userData _ _ _ _ _ H1 H2 H3 H4).
Defined.

Lemma updateProfilePhoto_signout_after_delete_witness :
  let file := JFile "new.png" "image/png" 2048 in
  st_user store_ab = Some demo_user /\ truthy (photoURL demo_user) = true /\
  st_blobs store_ab !! ("profile_photos/" ++ uid demo_user)%string = Some demo_blob /\
  file_rejection file = None /\
  exists iw', updateProfilePhoto file (mk_iworld (mk_world store_ab [] 1700000000000 25 [] 1) [Some SignOut])
              = (iw', Ok (EnvError "Error al actualizar la foto de perfil")) /\
    st_blobs (view iw') !! ("profile_photos/" ++ uid demo_user)%string = None /\
    logs iw' = [] ++ [(LInfo, "Foto anterior eliminada correctamente");
                      (LError, "Error al actualizar foto de perfil: " ++
                               "Cannot read properties of null (reading 'uid')")%string].
Proof.
  intros file.
  assert (H1 : st_user store_ab = Some demo_user) by reflexivity.
  assert (H2 : truthy (photoURL demo_user) = true) by reflexivity.
  assert (H3 : st_blobs store_ab !! ("profile_photos/" ++ uid demo_user)%string = Some demo_blob)
    by reflexivity.
  assert (H4 : file_rejection file = None) by reflexivity.
  split_and!; try assumption.
  exact (updateProfilePhoto_signout_after_delete store_ab [] 1700000000000 25 1 demo_user demo_blob
           "new.png" "image/png" 2048 H1 H2 H3 H4).
Defined.
